(** * Drift monitoring and model lifecycle: a shallow embedding

    The Python sources embedded here are
    - [backend/engines/adwin.py]           (module [Adwin]),
    - [backend/engines/drift_detector.py]  (module [Drift]),
    - [backend/engines/model_registry.py]  (module [Registry]),
    - [backend/engines/retrain_engine.py]  (module [Retrain]).

    Conventions.  A Python [float] is an exact rational ([Q]); the two numpy
    functions that leave the rationals ([np.log], [np.sqrt]) and the
    scipy/numpy based divergence tests are interfaces (type classes) of the
    external libraries.  A Python [dict] is an association list in insertion
    order.  A call that can raise returns a [result].  Mutable objects are
    records threaded through a small state monad. *)

From Stdlib Require Import List String Bool Arith ZArith QArith Qabs Qminmax.
From Stdlib Require Import Lia Lqa.
From Stdlib Require Import DecimalString OrdersEx.
Import ListNotations.
Open Scope string_scope.
Open Scope list_scope.
Open Scope Q_scope.

Set Implicit Arguments.

(* ------------------------------------------------------------------ *)
(** * Python values and control *)

Module Py.

(** Exceptions that the embedded code can raise. *)
Inductive exn : Type :=
| ZeroDivisionError
| IndexError
| ValueError
| AttributeError
| UnpicklingError.

(** Outcome of a call: a value or a raised exception. *)
Inductive result (A : Type) : Type :=
| Ok (a : A)
| Raise (e : exn).
Arguments Ok {A} a.
Arguments Raise {A} e.

Definition rbind {A B} (r : result A) (k : A -> result B) : result B :=
  match r with
  | Ok a => k a
  | Raise e => Raise e
  end.

Definition rmap {A B} (f : A -> B) (r : result A) : result B :=
  rbind r (fun a => Ok (f a)).

(** [xs[i]] on a list. *)
Definition index {A} (xs : list A) (i : nat) : result A :=
  match nth_error xs i with
  | Some x => Ok x
  | None => Raise IndexError
  end.

(** [a < b] on floats. *)
Definition lt (a b : Q) : bool := negb (Qle_bool b a).
(** [a >= b] on floats. *)
Definition ge (a b : Q) : bool := Qle_bool b a.

(** The builtins [min(a, b)] and [max(a, b)]: the first argument wins
    a tie. *)
Definition min (a b : Q) : Q := if lt b a then b else a.
Definition max (a b : Q) : Q := if lt a b then b else a.

(** [a / b] on Python floats. *)
Definition div (a b : Q) : result Q :=
  if Qeq_bool b 0 then Raise ZeroDivisionError else Ok (a / b).

(** [float(n)] for a length or a counter. *)
Definition of_nat (n : nat) : Q := inject_Z (Z.of_nat n).

(** [sum(xs)] / [np.sum(xs)]. *)
Definition sum (xs : list Q) : Q := fold_left Qplus xs 0.

(** [xs[i] = x] on a list, for an index in range. *)
Fixpoint replace {A} (i : nat) (x : A) (xs : list A) : list A :=
  match xs, i with
  | [], _ => []
  | _ :: xs', O => x :: xs'
  | y :: xs', S i' => y :: replace i' x xs'
  end.

(** [bytes] *)
Definition bytes := list Byte.byte.

(** A state monad for the methods of a mutable object. *)
Definition State (S A : Type) : Type := S -> A * S.

Definition ret {S A} (a : A) : State S A := fun s => (a, s).

Definition bind {S A B} (c : State S A) (k : A -> State S B) : State S B :=
  fun s => let (a, s') := c s in k a s'.

Definition gets {S A} (f : S -> A) : State S A := fun s => (f s, s).

Definition modify {S} (f : S -> S) : State S unit := fun s => (tt, f s).

(** A [dict] with string keys, in insertion order. *)
Section Dict.
Variable V : Type.

Definition dict := list (string * V).

(** [d.get(k)] *)
Fixpoint get (k : string) (d : dict) : option V :=
  match d with
  | [] => None
  | (k', v) :: d' => if String.eqb k k' then Some v else get k d'
  end.

(** [k in d] *)
Definition contains (k : string) (d : dict) : bool :=
  match get k d with Some _ => true | None => false end.

(** [d[k] = v]: an existing key keeps its position, a new key goes
    last. *)
Fixpoint set (k : string) (v : V) (d : dict) : dict :=
  match d with
  | [] => [(k, v)]
  | (k', v') :: d' =>
      if String.eqb k k' then (k, v) :: d' else (k', v') :: set k v d'
  end.

(** [d[k].field = ...]: in-place update of the object stored at [k]. *)
Fixpoint update (k : string) (f : V -> V) (d : dict) : dict :=
  match d with
  | [] => []
  | (k', v') :: d' =>
      if String.eqb k k' then (k', f v') :: d' else (k', v') :: update k f d'
  end.

(** [del d[k]] *)
Definition del (k : string) (d : dict) : dict :=
  filter (fun kv => negb (String.eqb k (fst kv))) d.

Definition keys (d : dict) : list string := List.map fst d.
Definition values (d : dict) : list V := List.map snd d.

(** Keys of a dict are pairwise distinct. *)
Definition wf (d : dict) : Prop := NoDup (keys d).
End Dict.

(** The slice [xs[start:]]: a negative start counts from the end, and
    a start outside the list is clipped. *)
Definition slice_from {A} (start : Z) (xs : list A) : list A :=
  let n := Z.of_nat (List.length xs) in
  let s := if (start <? 0)%Z then Z.max (start + n) 0 else Z.min start n in
  skipn (Z.to_nat s) xs.

End Py.

Import Py.

Declare Scope result_scope.
Delimit Scope result_scope with result.
Notation "x <- c1 ;; c2" := (rbind c1 (fun x => c2))
  (at level 61, c1 at next level, right associativity) : result_scope.
Notation "' p <- c1 ;; c2" := (rbind c1 (fun p => c2))
  (at level 61, p pattern, c1 at next level, right associativity)
  : result_scope.

Declare Scope state_scope.
Delimit Scope state_scope with state.
Notation "x <- c1 ;; c2" := (bind c1 (fun x => c2))
  (at level 61, c1 at next level, right associativity) : state_scope.
Notation "c1 ;; c2" := (bind c1 (fun _ => c2))
  (at level 61, right associativity) : state_scope.

(* ------------------------------------------------------------------ *)
(** * External numeric libraries *)

(** numpy's transcendental functions on a finite argument. [None] is
    [nan]. *)
Class Numpy : Type := {
  np_log : Q -> option Q;
  np_sqrt : Q -> option Q
}.

(** What the development relies on about them: a square root that is a
    number is not negative. *)
Class NumpyLaws (NP : Numpy) : Prop := {
  np_sqrt_nonneg : forall x y, np_sqrt x = Some y -> 0 <= y
}.

(** [np.mean(xs)] *)
Definition np_mean (xs : list Q) : Q := Py.sum xs / of_nat (List.length xs).

(** [np.var(xs)]: the population variance. *)
Definition np_var (xs : list Q) : Q :=
  let mu := np_mean xs in
  np_mean (List.map (fun x => (x - mu) * (x - mu)) xs).

(* ------------------------------------------------------------------ *)
(** * adwin.py *)

Module Adwin.

Record ADWIN : Type := mkADWIN {
  delta : Q;
  window : list Q;
  total : Q;
  variance : Q;
  width : Z;
  drift_detected : bool;
  drift_count : nat
}.

(** [ADWIN.__init__] *)
Definition init (delta : Q) : ADWIN :=
  {| delta := delta; window := []; total := 0; variance := 0;
     width := 0; drift_detected := false; drift_count := 0 |}.

(** [ADWIN(delta=0.002)] *)
Definition default_delta : Q := 2 # 1000.

Section Detector.
Context {NP : Numpy}.

(** The Hoeffding bound of one split,
    [np.sqrt((1.0 / (2 * m)) * np.log(4.0 / self.delta))] with
    [m = 1.0 / (1.0 / n0 + 1.0 / n1)]. *)
Definition hoeffding (delta : Q) (n0 n1 : nat) : result (option Q) :=
  let m := 1 / (1 / of_nat n0 + 1 / of_nat n1) in
  rbind (Py.div 4 delta) (fun r =>
    Ok (match np_log r with
        | None => None
        | Some l => np_sqrt ((1 / (2 * m)) * l)
        end)).

(** [abs(mean0 - mean1) > epsilon]; a comparison with [nan] is
    false. *)
Definition significant (mean0 mean1 : Q) (epsilon : option Q) : bool :=
  match epsilon with
  | None => false
  | Some e => Py.lt e (Qabs (mean0 - mean1))
  end.

(** The loop [for _ in range(i): removed = popleft(); ...]. The window
    holds more than [i] readings when it runs, so [popleft] never finds
    it empty. *)
Fixpoint drop_oldest (i : nat) (a : ADWIN) : ADWIN :=
  match i with
  | O => a
  | S i' =>
      match window a with
      | [] => a
      | removed :: rest =>
          drop_oldest i'
            {| delta := delta a; window := rest;
               total := total a - removed; variance := variance a;
               width := (width a - 1)%Z;
               drift_detected := drift_detected a;
               drift_count := drift_count a |}
      end
  end.

(** The block "Recalculate variance". *)
Definition recalculate_variance (a : ADWIN) : ADWIN :=
  if (0 <? width a)%Z then
    {| delta := delta a; window := window a; total := total a;
       variance := (if (1 <? width a)%Z
                    then np_var (window a) * inject_Z (width a)
                    else 0);
       width := width a;
       drift_detected := drift_detected a;
       drift_count := drift_count a |}
  else a.

(** The body of [for i in range(1, n)] over the remaining split
    points. *)
Fixpoint scan_splits (a : ADWIN) (window_list : list Q) (splits : list nat)
  : result (bool * ADWIN) :=
  match splits with
  | [] => Ok (false, a)
  | i :: splits' =>
      let w0 := firstn i window_list in
      let w1 := skipn i window_list in
      let n0 := List.length w0 in
      let n1 := List.length w1 in
      if ((n0 <? 5)%nat || (n1 <? 5)%nat)%bool
      then scan_splits a window_list splits'
      else
        let mean0 := np_mean w0 in
        let mean1 := np_mean w1 in
        rbind (hoeffding (delta a) n0 n1) (fun epsilon =>
          if significant mean0 mean1 epsilon
          then Ok (true, recalculate_variance (drop_oldest i a))
          else scan_splits a window_list splits')
  end.

(** [ADWIN._detect_change] *)
Definition _detect_change (a : ADWIN) : result (bool * ADWIN) :=
  let window_list := window a in
  let n := List.length window_list in
  scan_splits a window_list (seq 1 (n - 1)).

(** The block "Update statistics" of [add_element], for the width
    already incremented: the new total and variance. *)
Definition update_statistics (value : Q) (a : ADWIN) (width' : Z)
  : result (Q * Q) :=
  if (width' =? 1)%Z then Ok (value, 0)
  else
    rbind (Py.div (total a) (inject_Z (width' - 1))) (fun old_mean =>
      let total' := total a + value in
      rbind (Py.div total' (inject_Z width')) (fun new_mean =>
        Ok (total', variance a + (value - old_mean) * (value - new_mean)))).

(** [ADWIN.add_element] *)
Definition add_element (value : Q) (a : ADWIN) : result (bool * ADWIN) :=
  let width' := (width a + 1)%Z in
  rbind (update_statistics value a width') (fun '(total', variance') =>
    let a1 :=
      {| delta := delta a; window := window a ++ [value];
         total := total'; variance := variance';
         width := width'; drift_detected := false;
         drift_count := drift_count a |} in
    if (1 <? width a1)%Z then
      rbind (_detect_change a1) (fun '(flag, a2) =>
        if (flag : bool) then
          Ok (true,
              {| delta := delta a2; window := window a2;
                 total := total a2; variance := variance a2;
                 width := width a2; drift_detected := true;
                 drift_count := S (drift_count a2) |})
        else Ok (false, a2))
    else Ok (false, a1)).

(** [ADWIN.reset] *)
Definition reset (a : ADWIN) : ADWIN :=
  {| delta := delta a; window := []; total := 0; variance := 0;
     width := 0; drift_detected := false;
     drift_count := drift_count a |}.

Definition get_width (a : ADWIN) : Z := width a.

Definition get_mean (a : ADWIN) : Q :=
  if (0 <? width a)%Z then total a / inject_Z (width a) else 0.

Definition get_variance (a : ADWIN) : Q :=
  if (width a <? 2)%Z then 0 else variance a / inject_Z (width a - 1).

Definition get_drift_count (a : ADWIN) : nat := drift_count a.

(** Feeding a stream one value at a time: the flags returned by the
    successive calls, and the detector afterwards. *)
Fixpoint feed (values : list Q) (a : ADWIN) : result (list bool * ADWIN) :=
  match values with
  | [] => Ok ([], a)
  | v :: values' =>
      rbind (add_element v a) (fun '(flag, a1) =>
        rbind (feed values' a1) (fun '(flags, a2) =>
          Ok (flag :: flags, a2)))
  end.

End Detector.

(** What a detector looks like after [k] readings of [x] and no drift. *)
Definition steady (d x : Q) (k : nat) (a : ADWIN) : Prop :=
  delta a = d /\ window a = repeat x k /\ width a = Z.of_nat k
  /\ drift_count a = 0%nat.

(** Sum of the squared deviations of a window from its mean. *)
Definition squared_deviations (xs : list Q) : Q :=
  Py.sum (List.map (fun x => (x - np_mean xs) * (x - np_mean xs)) xs).

(** The counters of a detector agree with its window: the width is its
    length, the total its sum and the variance accumulator its sum of
    squared deviations. *)
Definition consistent (a : ADWIN) : Prop :=
  width a = Z.of_nat (List.length (window a))
  /\ total a == Py.sum (window a)
  /\ variance a == squared_deviations (window a).

(** A detector [add_element] can be called on without an exception. *)
Definition healthy (a : ADWIN) : Prop := consistent a /\ ~ delta a == 0.

(** Number of calls that reported drift. *)
Definition count_true (flags : list bool) : nat :=
  List.length (filter (fun b => b) flags).

End Adwin.

(* ------------------------------------------------------------------ *)
(** * stat_tests.py *)

(** The divergence tests of [stat_tests.py] rest on [np.histogram],
    [np.log] and [scipy.stats.ks_2samp]; the drift engine only consumes
    their results.  [kolmogorov_smirnov_test] returns
    [(statistic, p_value, drift_detected)]. *)
Class StatTests : Type := {
  population_stability_index : list Q -> list Q -> result Q;
  kolmogorov_smirnov_test : list Q -> list Q -> result (Q * Q * bool);
  kl_divergence : list Q -> list Q -> result Q
}.

(* ------------------------------------------------------------------ *)
(** * drift_detector.py *)

Module Drift.
Import Adwin.

(** One entry of [details["feature_drift"]]. *)
Record FeatureDrift : Type := mkFeatureDrift {
  feature_index : nat;
  fd_psi : Q;
  fd_ks_statistic : Q;
  fd_ks_pvalue : Q;
  fd_kl_divergence : Q;
  fd_adwin_drift : bool;
  fd_drift_score : Q
}.

(** [details["prediction_drift"]] *)
Record PredictionDrift : Type := mkPredictionDrift {
  pd_psi : Q;
  pd_ks_statistic : Q;
  pd_drift_score : Q
}.

(** [details["concept_drift"]] *)
Record ConceptDrift : Type := mkConceptDrift {
  cd_psi : Q;
  cd_drift_score : Q
}.

(** The [details] dict: a key that is absent is [None]. *)
Record Details : Type := mkDetails {
  error : option string;
  current_samples : option nat;
  feature_drift : option (list FeatureDrift);
  prediction_drift : option PredictionDrift;
  concept_drift : option ConceptDrift
}.

Definition no_details : Details :=
  {| error := None; current_samples := None; feature_drift := None;
     prediction_drift := None; concept_drift := None |}.

(** The dict returned by [detect_drift] (the timestamp, read from the
    clock, is left out). *)
Record Report : Type := mkReport {
  drift_score : Q;
  drift_type : string;
  severity : string;
  affected_features : list nat;
  details : Details;
  recommended_action : option string
}.

Record DriftDetector : Type := mkDriftDetector {
  n_features : nat;
  reference_features : option (list (list Q));
  reference_labels : option (list Q);
  reference_predictions : option (list Q);
  current_features : list (list Q);
  current_labels : list Q;
  current_predictions : list Q;
  adwin_detectors : list ADWIN;
  window_size : nat;
  drift_threshold : Q;
  drift_history : list Report
}.

(** [DriftDetector.__init__] *)
Definition init (n_features : nat) : DriftDetector :=
  {| n_features := n_features;
     reference_features := None;
     reference_labels := None;
     reference_predictions := None;
     current_features := [];
     current_labels := [];
     current_predictions := [];
     adwin_detectors :=
       List.map (fun _ => Adwin.init (2 # 1000)) (seq 0 (n_features + 1));
     window_size := 100;
     drift_threshold := 2 # 10;
     drift_history := [] |}.

(** [DriftDetector.set_reference] *)
Definition set_reference (features : list (list Q))
    (labels predictions : option (list Q)) (d : DriftDetector)
  : DriftDetector :=
  {| n_features := n_features d;
     reference_features := Some features;
     reference_labels := labels;
     reference_predictions := predictions;
     current_features := current_features d;
     current_labels := current_labels d;
     current_predictions := current_predictions d;
     adwin_detectors := adwin_detectors d;
     window_size := window_size d;
     drift_threshold := drift_threshold d;
     drift_history := drift_history d |}.

(** [matrix[:, i]] *)
Fixpoint column (i : nat) (matrix : list (list Q)) : result (list Q) :=
  match matrix with
  | [] => Ok []
  | row :: rows =>
      (x <- index row i ;;
       xs <- column i rows ;;
       Ok (x :: xs))%result
  end.

(** [DriftDetector._classify_drift_type] *)
Definition _classify_drift_type (details : Details)
    (affected_features : list nat) : string :=
  if (0 <? List.length affected_features)%nat then
    if match concept_drift details with
       | Some c => Py.lt (2 # 10) (cd_psi c)
       | None => false
       end
    then "concept_drift"
    else if match prediction_drift details with
            | Some p => Py.lt (2 # 10) (pd_psi p)
            | None => false
            end
    then "prediction_drift"
    else "data_drift"
  else "none".

(** [DriftDetector._classify_severity] *)
Definition _classify_severity (drift_score : Q) : string :=
  if Py.ge drift_score 70 then "high"
  else if Py.ge drift_score 40 then "moderate"
  else if Py.ge drift_score 20 then "low"
  else "none".

(** [DriftDetector._get_recommendation] *)
Definition _get_recommendation (drift_score : Q) (severity : string)
  : string :=
  if String.eqb severity "high" then "URGENT: Trigger immediate retraining"
  else if String.eqb severity "moderate"
  then "Schedule retraining within 24 hours"
  else if String.eqb severity "low"
  then "Monitor closely, consider retraining if persists"
  else "No action required".

(** The three accumulators of the feature loop of [detect_drift]. *)
Record FeatureLoop : Type := mkFeatureLoop {
  feature_drifts : list FeatureDrift;
  loop_affected : list nat;
  loop_scores : list Q
}.

Section Engine.
Context {NP : Numpy} {ST : StatTests}.

(** The loop [for i, feature_val in enumerate(features)] of
    [add_sample], from index [i] on. *)
Fixpoint feed_detectors (i : nat) (features : list Q)
    (detectors : list ADWIN) : result (list ADWIN) :=
  match features with
  | [] => Ok detectors
  | feature_val :: features' =>
      (detector <- index detectors i ;;
       ' (_, detector') <- add_element feature_val detector ;;
       feed_detectors (S i) features' (replace i detector' detectors))%result
  end.

(** [self.adwin_detectors[-1].add_element(error)] *)
Definition feed_last (error : Q) (detectors : list ADWIN)
  : result (list ADWIN) :=
  let last := (List.length detectors - 1)%nat in
  (detector <- index detectors last ;;
   ' (_, detector') <- add_element error detector ;;
   Ok (replace last detector' detectors))%result.

(** [xs.pop(0)] on a list that is not empty. *)
Definition pop0 {A} (xs : list A) : list A := tl xs.

(** [DriftDetector.add_sample] *)
Definition add_sample (features : list Q) (label prediction : option Q)
    (error : Q) (d : DriftDetector) : result DriftDetector :=
  let features1 := current_features d ++ [features] in
  let labels1 :=
    match label with
    | Some l => current_labels d ++ [l]
    | None => current_labels d
    end in
  let predictions1 :=
    match prediction with
    | Some p => current_predictions d ++ [p]
    | None => current_predictions d
    end in
  (detectors1 <- feed_detectors 0 features (adwin_detectors d) ;;
   detectors2 <- feed_last error detectors1 ;;
   let overflow := (window_size d <? List.length features1)%nat in
   Ok {| n_features := n_features d;
         reference_features := reference_features d;
         reference_labels := reference_labels d;
         reference_predictions := reference_predictions d;
         current_features := if overflow then pop0 features1 else features1;
         current_labels := if overflow then pop0 labels1 else labels1;
         current_predictions :=
           if overflow then pop0 predictions1 else predictions1;
         adwin_detectors := detectors2;
         window_size := window_size d;
         drift_threshold := drift_threshold d;
         drift_history := drift_history d |})%result.

(** [add_sample] for each row of a batch, without labels or
    predictions. *)
Fixpoint add_samples (rows : list (list Q)) (d : DriftDetector)
  : result DriftDetector :=
  match rows with
  | [] => Ok d
  | row :: rows' =>
      (d' <- add_sample row None None 0 d ;; add_samples rows' d')%result
  end.

(** [DriftDetector.reset] *)
Definition reset (d : DriftDetector) : DriftDetector :=
  {| n_features := n_features d;
     reference_features := reference_features d;
     reference_labels := reference_labels d;
     reference_predictions := reference_predictions d;
     current_features := [];
     current_labels := [];
     current_predictions := [];
     adwin_detectors := List.map Adwin.reset (adwin_detectors d);
     window_size := window_size d;
     drift_threshold := drift_threshold d;
     drift_history := drift_history d |}.

(** One iteration of [for i in range(self.n_features)]. *)
Definition feature_iteration (d : DriftDetector)
    (reference current : list (list Q)) (i : nat) (acc : FeatureLoop)
  : result FeatureLoop :=
  (ref_feature <- column i reference ;;
   curr_feature <- column i current ;;
   psi <- population_stability_index ref_feature curr_feature ;;
   ' (ks_stat, ks_pval, ks_drift) <-
       kolmogorov_smirnov_test ref_feature curr_feature ;;
   kl_div <- kl_divergence ref_feature curr_feature ;;
   detector <- index (adwin_detectors d) i ;;
   let adwin_drift := drift_detected detector in
   let feature_score :=
     (psi / (2 # 10)) * 25
     + ks_stat * 25
     + Py.min kl_div 1 * 25
     + (if adwin_drift then 1 else 0) * 25 in
   let entry :=
     {| feature_index := i; fd_psi := psi; fd_ks_statistic := ks_stat;
        fd_ks_pvalue := ks_pval; fd_kl_divergence := kl_div;
        fd_adwin_drift := adwin_drift; fd_drift_score := feature_score |} in
   if (Py.lt (drift_threshold d) psi || ks_drift || adwin_drift)%bool
   then Ok {| feature_drifts := feature_drifts acc ++ [entry];
              loop_affected := loop_affected acc ++ [i];
              loop_scores := loop_scores acc ++ [feature_score] |}
   else Ok {| feature_drifts := feature_drifts acc ++ [entry];
              loop_affected := loop_affected acc;
              loop_scores := loop_scores acc |})%result.

Fixpoint feature_loop (d : DriftDetector)
    (reference current : list (list Q)) (range : list nat)
    (acc : FeatureLoop) : result FeatureLoop :=
  match range with
  | [] => Ok acc
  | i :: range' =>
      (acc' <- feature_iteration d reference current i acc ;;
       feature_loop d reference current range' acc')%result
  end.

(** Step 2 of [detect_drift]: the prediction stream. *)
Definition prediction_step (d : DriftDetector)
  : result (option PredictionDrift) :=
  match reference_predictions d with
  | Some reference =>
      if (0 <? List.length (current_predictions d))%nat then
        (psi_pred <-
           population_stability_index reference (current_predictions d) ;;
         ' (ks_stat_pred, _, _) <-
           kolmogorov_smirnov_test reference (current_predictions d) ;;
         Ok (Some {| pd_psi := psi_pred;
                     pd_ks_statistic := ks_stat_pred;
                     pd_drift_score :=
                       (psi_pred / (2 # 10)) * 50 + ks_stat_pred * 50 |})
        )%result
      else Ok None
  | None => Ok None
  end.

(** Step 3 of [detect_drift]: the label stream. *)
Definition concept_step (d : DriftDetector)
  : result (option ConceptDrift) :=
  match reference_labels d with
  | Some reference =>
      if (0 <? List.length (current_labels d))%nat then
        (psi_label <-
           population_stability_index reference (current_labels d) ;;
         Ok (Some {| cd_psi := psi_label;
                     cd_drift_score := (psi_label / (2 # 10)) * 100 |})
        )%result
      else Ok None
  | None => Ok None
  end.

(** [float(np.mean(drift_scores)) if drift_scores else 0.0], then the
    clamp [min(100.0, max(0.0, .))]. *)
Definition overall (drift_scores : list Q) : Q :=
  let mean := match drift_scores with
              | [] => 0
              | _ :: _ => np_mean drift_scores
              end in
  Py.min 100 (Py.max 0 mean).

Definition log_history (r : Report) (d : DriftDetector) : DriftDetector :=
  {| n_features := n_features d;
     reference_features := reference_features d;
     reference_labels := reference_labels d;
     reference_predictions := reference_predictions d;
     current_features := current_features d;
     current_labels := current_labels d;
     current_predictions := current_predictions d;
     adwin_detectors := adwin_detectors d;
     window_size := window_size d;
     drift_threshold := drift_threshold d;
     drift_history := drift_history d ++ [r] |}.

(** [DriftDetector.detect_drift] *)
Definition detect_drift (d : DriftDetector)
  : result (Report * DriftDetector) :=
  match reference_features d with
  | None =>
      Ok ({| drift_score := 0; drift_type := "none"; severity := "none";
             affected_features := [];
             details :=
               {| error := Some "No reference distribution set";
                  current_samples := None; feature_drift := None;
                  prediction_drift := None; concept_drift := None |};
             recommended_action := None |}, d)
  | Some reference =>
      if (List.length (current_features d) <? 30)%nat then
        Ok ({| drift_score := 0; drift_type := "none";
               severity := "insufficient_data";
               affected_features := [];
               details :=
                 {| error := None;
                    current_samples :=
                      Some (List.length (current_features d));
                    feature_drift := None;
                    prediction_drift := None; concept_drift := None |};
               recommended_action := None |}, d)
      else
        (acc <- feature_loop d reference (current_features d)
                  (seq 0 (n_features d))
                  {| feature_drifts := []; loop_affected := [];
                     loop_scores := [] |} ;;
         pred <- prediction_step d ;;
         concept <- concept_step d ;;
         let drift_scores :=
           loop_scores acc
           ++ match pred with Some p => [pd_drift_score p] | None => [] end
           ++ match concept with
              | Some c => [cd_drift_score c]
              | None => []
              end in
         let details :=
           {| error := None; current_samples := None;
              feature_drift := Some (feature_drifts acc);
              prediction_drift := pred; concept_drift := concept |} in
         let overall_drift_score := overall drift_scores in
         let drift_type :=
           _classify_drift_type details (loop_affected acc) in
         let severity := _classify_severity overall_drift_score in
         let result :=
           {| drift_score := overall_drift_score;
              drift_type := drift_type;
              severity := severity;
              affected_features := loop_affected acc;
              details := details;
              recommended_action :=
                Some (_get_recommendation overall_drift_score severity) |}
         in
         Ok (result, log_history result d))%result
  end.

End Engine.

(** ** Invariant of the feature loop *)

(** The entry of a feature listed as affected. *)
Definition listed (affected : list nat) (f : FeatureDrift) : bool :=
  existsb (Nat.eqb (feature_index f)) affected.

(** What holds of the accumulators once the features below [bound] are
    done: the recorded scores are those of the entries listed as
    affected. *)
Definition loop_invariant (bound : nat) (acc : FeatureLoop) : Prop :=
  (forall f, In f (feature_drifts acc) -> (feature_index f < bound)%nat)
  /\ (forall j, In j (loop_affected acc) -> (j < bound)%nat)
  /\ List.map fd_drift_score
       (filter (listed (loop_affected acc)) (feature_drifts acc))
     = loop_scores acc.

(** ** The score and the classification in the words of the design *)

(** Arithmetic mean of a list of scores. *)
Definition arithmetic_mean (xs : list Q) : Q :=
  fold_right Qplus 0 xs / of_nat (List.length xs).

(** Clamp to the interval from 0 to 100. *)
Definition clamp_0_100 (x : Q) : Q := Qmin 100 (Qmax 0 x).

Definition stream_scores (r : Report) : list Q :=
  match prediction_drift (details r) with
  | Some p => [pd_drift_score p]
  | None => []
  end
  ++ match concept_drift (details r) with
     | Some c => [cd_drift_score c]
     | None => []
     end.

Definition feature_entries (r : Report) : list FeatureDrift :=
  match feature_drift (details r) with
  | Some entries => entries
  | None => []
  end.

(** The per-signal scores when every feature counts. *)
Definition all_signal_scores (r : Report) : list Q :=
  List.map fd_drift_score (feature_entries r) ++ stream_scores r.

(** The per-signal scores when only the features listed as affected
    count. *)
Definition affected_signal_scores (r : Report) : list Q :=
  List.map fd_drift_score
    (filter (fun f => existsb (Nat.eqb (feature_index f))
                        (affected_features r))
       (feature_entries r))
  ++ stream_scores r.

(** The PSI of the label stream was computed and exceeds 0.2. *)
Definition concept_psi_high (r : Report) : Prop :=
  exists c, concept_drift (details r) = Some c /\ 2 # 10 < cd_psi c.

(** The PSI of the prediction stream was computed and exceeds 0.2. *)
Definition prediction_psi_high (r : Report) : Prop :=
  exists p, prediction_drift (details r) = Some p /\ 2 # 10 < pd_psi p.

(** [DriftDetector.get_drift_history]: [self.drift_history[-limit:]]. *)
Definition get_drift_history (limit : Z) (d : DriftDetector) : list Report :=
  slice_from (- limit) (drift_history d).

(** The severity labels in increasing order. *)
Definition severity_rank (severity : string) : nat :=
  if String.eqb severity "high" then 3
  else if String.eqb severity "moderate" then 2
  else if String.eqb severity "low" then 1
  else 0.

End Drift.

(* ------------------------------------------------------------------ *)
(** * model_registry.py *)

(** The model objects and what [pickle] and [hashlib] do with them:
    [pickle.dump], [pickle.load] (which raises on bytes that are no
    pickle) and the hex digest of SHA-256. *)
Class Artifacts : Type := {
  Model : Type;
  pickle_dump : Model -> bytes;
  pickle_load : bytes -> result Model;
  sha256_hexdigest : bytes -> string
}.

Module Registry.

(** [@dataclass ModelMetadata] *)
Record ModelMetadata : Type := mkModelMetadata {
  version : string;
  created_at : string;
  model_type : string;
  accuracy : Q;
  drift_score : Q;
  training_samples : nat;
  validation_samples : nat;
  hyperparameters : dict Z;
  feature_names : list string;
  checksum : string;
  promoted : bool;
  champion : bool;
  notes : string
}.

(** [metadata.checksum = c] *)
Definition with_checksum (c : string) (m : ModelMetadata) : ModelMetadata :=
  {| version := version m; created_at := created_at m;
     model_type := model_type m; accuracy := accuracy m;
     drift_score := drift_score m;
     training_samples := training_samples m;
     validation_samples := validation_samples m;
     hyperparameters := hyperparameters m;
     feature_names := feature_names m;
     checksum := c; promoted := promoted m; champion := champion m;
     notes := notes m |}.

(** [metadata.promoted = b] *)
Definition with_promoted (b : bool) (m : ModelMetadata) : ModelMetadata :=
  {| version := version m; created_at := created_at m;
     model_type := model_type m; accuracy := accuracy m;
     drift_score := drift_score m;
     training_samples := training_samples m;
     validation_samples := validation_samples m;
     hyperparameters := hyperparameters m;
     feature_names := feature_names m;
     checksum := checksum m; promoted := b; champion := champion m;
     notes := notes m |}.

(** [metadata.champion = b] *)
Definition with_champion (b : bool) (m : ModelMetadata) : ModelMetadata :=
  {| version := version m; created_at := created_at m;
     model_type := model_type m; accuracy := accuracy m;
     drift_score := drift_score m;
     training_samples := training_samples m;
     validation_samples := validation_samples m;
     hyperparameters := hyperparameters m;
     feature_names := feature_names m;
     checksum := checksum m; promoted := promoted m; champion := b;
     notes := notes m |}.

(** One line of [logs/audit/model_registry_audit.jsonl] (without its
    timestamp). *)
Record AuditEntry : Type := mkAuditEntry {
  action : string;
  audit_version : string;
  audit_metadata : option ModelMetadata
}.

(** The calls to [logger], one constructor per call site. *)
Inductive LogRecord : Type :=
| info_model_registered (version : string) (accuracy : Q)
| warning_no_champion_model_found
| error_model_file_not_found (model_path : string)
| error_checksum_mismatch (version : string)
| info_model_loaded (version : string)
| error_model_version_not_found (version : string)
| info_model_promoted (version : string)
| info_champion_model_set (version : string)
| error_cannot_rollback (version : string)
| warning_rollback_executed (version : string)
| error_cannot_delete_champion
| info_model_deleted (version : string).

(** A [ModelRegistry] together with what it keeps outside the process:
    the files of [registry_dir], the table last written to
    [registry.json], the audit file and the logger. *)
Record ModelRegistry : Type := mkModelRegistry {
  models : dict ModelMetadata;
  files : dict bytes;
  metadata_file : option (dict ModelMetadata);
  audit_file : list AuditEntry;
  logger : list LogRecord
}.

Definition M := State ModelRegistry.

(** [ModelRegistry.__init__] on a directory: [_load_registry] reads the
    table back when [registry.json] exists. *)
Definition init (files : dict bytes)
    (metadata_file : option (dict ModelMetadata))
    (audit_file : list AuditEntry) : ModelRegistry :=
  {| models := match metadata_file with Some t => t | None => [] end;
     files := files;
     metadata_file := metadata_file;
     audit_file := audit_file;
     logger := [] |}.

(** [self.registry_dir / f"model_{version}.pkl"], relative to the
    directory. *)
Definition model_path (version : string) : string :=
  ("model_" ++ version ++ ".pkl")%string.

Definition set_models (f : dict ModelMetadata -> dict ModelMetadata)
  : M unit :=
  modify (fun r =>
    {| models := f (models r); files := files r;
       metadata_file := metadata_file r; audit_file := audit_file r;
       logger := logger r |}).

Definition set_files (f : dict bytes -> dict bytes) : M unit :=
  modify (fun r =>
    {| models := models r; files := f (files r);
       metadata_file := metadata_file r; audit_file := audit_file r;
       logger := logger r |}).

(** [logger.info / warning / error] *)
Definition log (l : LogRecord) : M unit :=
  modify (fun r =>
    {| models := models r; files := files r;
       metadata_file := metadata_file r; audit_file := audit_file r;
       logger := logger r ++ [l] |}).

(** [ModelRegistry._save_registry] *)
Definition _save_registry : M unit :=
  modify (fun r =>
    {| models := models r; files := files r;
       metadata_file := Some (models r); audit_file := audit_file r;
       logger := logger r |}).

(** [ModelRegistry._log_audit] *)
Definition _log_audit (action version : string)
    (metadata : option ModelMetadata) : M unit :=
  modify (fun r =>
    {| models := models r; files := files r;
       metadata_file := metadata_file r;
       audit_file :=
         audit_file r
         ++ [{| action := action; audit_version := version;
                audit_metadata := metadata |}];
       logger := logger r |}).

(** The loop [for v in self.models: self.models[v].champion = False]. *)
Definition clear_champions (d : dict ModelMetadata) : dict ModelMetadata :=
  fold_left (fun d' v => update v (with_champion false) d') (keys d) d.

(** Stable sort by [created_at], latest first:
    [sorted(items, key=lambda x: x[1].created_at, reverse=True)]. *)
Fixpoint insert_desc (x : string * ModelMetadata)
    (l : list (string * ModelMetadata)) : list (string * ModelMetadata) :=
  match l with
  | [] => [x]
  | y :: l' =>
      if String.ltb (created_at (snd x)) (created_at (snd y))
      then y :: insert_desc x l'
      else x :: y :: l'
  end.

Definition sorted_desc (items : list (string * ModelMetadata))
  : list (string * ModelMetadata) :=
  fold_right insert_desc [] items.

(** [ModelRegistry.get_latest_model] *)
Definition get_latest_model : M (option ModelMetadata) :=
  gets (fun r =>
    match models r with
    | [] => None
    | _ :: _ =>
        match sorted_desc (models r) with
        | [] => None
        | first :: _ => Some (snd first)
        end
    end).

(** [ModelRegistry.get_champion_model] *)
Definition get_champion_model : M (option ModelMetadata) :=
  (found <- gets (fun r => find champion (values (models r))) ;;
   match found with
   | Some metadata => ret (Some metadata)
   | None => get_latest_model
   end)%state.

(** [ModelRegistry.get_model_metadata] *)
Definition get_model_metadata (version : string)
  : M (option ModelMetadata) :=
  gets (fun r => get version (models r)).

(** [ModelRegistry.list_models] *)
Definition list_models : M (list ModelMetadata) :=
  gets (fun r => values (models r)).

Section Store.
Context {AR : Artifacts}.

(** [ModelRegistry._calculate_checksum], on the content of the
    file. *)
Definition _calculate_checksum (content : bytes) : string :=
  sha256_hexdigest content.

(** [ModelRegistry.register_model] *)
Definition register_model (model : Model) (metadata : ModelMetadata)
  : M string :=
  (let version := version metadata in
   let path := model_path version in
   let content := pickle_dump model in
   set_files (set path content) ;;
   let checksum := _calculate_checksum content in
   let metadata := with_checksum checksum metadata in
   set_models (set version metadata) ;;
   _save_registry ;;
   log (info_model_registered version (accuracy metadata)) ;;
   _log_audit "register" version (Some metadata) ;;
   ret version)%state.

(** The part of [load_model] after the version is known. *)
Definition load_version (version : string)
  : M (result (option Model)) :=
  (let path := model_path version in
   file <- gets (fun r => get path (files r)) ;;
   match file with
   | None =>
       log (error_model_file_not_found path) ;;
       ret (Ok None)
   | Some content =>
       entry <- gets (fun r => get version (models r)) ;;
       let mismatch :=
         match entry with
         | Some metadata =>
             let stored_checksum := checksum metadata in
             let current_checksum := _calculate_checksum content in
             negb (String.eqb stored_checksum current_checksum)
         | None => false
         end in
       if mismatch then
         log (error_checksum_mismatch version) ;;
         ret (Ok None)
       else
         match pickle_load content with
         | Raise e => ret (Raise e)
         | Ok model =>
             log (info_model_loaded version) ;;
             ret (Ok (Some model))
         end
   end)%state.

(** [ModelRegistry.load_model] *)
Definition load_model (version : option string)
  : M (result (option Model)) :=
  match version with
  | None =>
      (metadata <- get_champion_model ;;
       match metadata with
       | None =>
           log warning_no_champion_model_found ;;
           ret (Ok None)
       | Some metadata => load_version (Registry.version metadata)
       end)%state
  | Some version => load_version version
  end.

End Store.

(** [ModelRegistry.promote_model] *)
Definition promote_model (version : string) : M bool :=
  (present <- gets (fun r => contains version (models r)) ;;
   if negb present then
     log (error_model_version_not_found version) ;;
     ret false
   else
     set_models (update version (with_promoted true)) ;;
     _save_registry ;;
     log (info_model_promoted version) ;;
     metadata <- gets (fun r => get version (models r)) ;;
     _log_audit "promote" version metadata ;;
     ret true)%state.

(** [ModelRegistry.set_champion] *)
Definition set_champion (version : string) : M bool :=
  (present <- gets (fun r => contains version (models r)) ;;
   if negb present then
     log (error_model_version_not_found version) ;;
     ret false
   else
     set_models clear_champions ;;
     set_models (update version (with_champion true)) ;;
     _save_registry ;;
     log (info_champion_model_set version) ;;
     metadata <- gets (fun r => get version (models r)) ;;
     _log_audit "set_champion" version metadata ;;
     ret true)%state.

(** [ModelRegistry.rollback_to_version] *)
Definition rollback_to_version (version : string) : M bool :=
  (present <- gets (fun r => contains version (models r)) ;;
   if negb present then
     log (error_cannot_rollback version) ;;
     ret false
   else
     success <- set_champion version ;;
     if (success : bool) then
       log (warning_rollback_executed version) ;;
       metadata <- gets (fun r => get version (models r)) ;;
       _log_audit "rollback" version metadata ;;
       ret success
     else ret success)%state.

(** [ModelRegistry.delete_model] *)
Definition delete_model (version : string) : M bool :=
  (entry <- gets (fun r => get version (models r)) ;;
   match entry with
   | None => ret false
   | Some metadata =>
       if champion metadata then
         log error_cannot_delete_champion ;;
         ret false
       else
         set_files (del (model_path version)) ;;
         set_models (del version) ;;
         _save_registry ;;
         log (info_model_deleted version) ;;
         _log_audit "delete" version None ;;
         ret true
   end)%state.

(** The version that [load_model] ends up loading: the one asked for,
    or the one of the record that [get_champion_model] returns. *)
Definition resolved_version (requested : option string) (r : ModelRegistry)
  : option string :=
  match requested with
  | Some v => Some v
  | None => option_map version (fst (get_champion_model r))
  end.

(** ** Sequences of registry operations *)

Section Operations.
Context {AR : Artifacts}.

(** The mutating calls of the public interface. *)
Inductive Operation : Type :=
| Register (model : Model) (metadata : ModelMetadata)
| Promote (version : string)
| SetChampion (version : string)
| Rollback (version : string)
| Delete (version : string).

(** The registry after one call (its return value dropped). *)
Definition perform (op : Operation) (r : ModelRegistry) : ModelRegistry :=
  match op with
  | Register model metadata => snd (register_model model metadata r)
  | Promote v => snd (promote_model v r)
  | SetChampion v => snd (set_champion v r)
  | Rollback v => snd (rollback_to_version v r)
  | Delete v => snd (delete_model v r)
  end.

(** The registry after each call of a sequence, in order. *)
Fixpoint trace (ops : list Operation) (r : ModelRegistry)
  : list ModelRegistry :=
  match ops with
  | [] => []
  | op :: ops' => let r' := perform op r in r' :: trace ops' r'
  end.

(** A [Register] whose metadata leaves the [champion] field at its
    default [False]; every other call qualifies. *)
Definition registers_plain (op : Operation) : Prop :=
  match op with
  | Register _ metadata => champion metadata = false
  | _ => True
  end.
End Operations.

(** The first record with [champion = True], with its key: the one
    that [get_champion_model] returns. *)
Definition flagged_entry (d : dict ModelMetadata)
  : option (string * ModelMetadata) :=
  find (fun kv => champion (snd kv)) d.

(** Number of records with [champion = True]. *)
Definition flagged (d : dict ModelMetadata) : nat :=
  List.length (filter champion (values d)).

Definition champions (r : ModelRegistry) : nat := flagged (models r).

Definition at_most_one_champion (r : ModelRegistry) : Prop :=
  (champions r <= 1)%nat.

(** The registry that a new process finds: [__init__] on the directory
    as it was left. *)
Definition reopen (r : ModelRegistry) : ModelRegistry :=
  init (files r) (metadata_file r) (audit_file r).

(** Every record is stored under its own version. *)
Definition coherent (d : dict ModelMetadata) : Prop :=
  forall k m, In (k, m) d -> version m = k.

End Registry.

(* ------------------------------------------------------------------ *)
(** * retrain_engine.py *)

(** The dict returned by [ModelValidator.validate_model], as far as the
    engine reads it. *)
Record ValidationResult : Type := mkValidationResult {
  passed : bool;
  failures : list string
}.

(** The collaborators of the retraining engine: the synthetic data
    source, scikit-learn's split, fit and score, and the validator
    (which raises on a model that is [None]). *)
Class Trainer {AR : Artifacts} : Type := {
  Dataset : Type;
  generate_synthetic_data :
    forall (n_samples n_features : nat) (drift_amount : Q), Dataset;
  len : Dataset -> nat;
  n_columns : Dataset -> nat;
  train_test_split :
    Dataset -> forall (test_size : Q) (random_state : Z), Dataset * Dataset;
  fit : forall (n_estimators max_depth random_state : Z), Dataset -> Model;
  accuracy_score : Model -> Dataset -> Q;
  validate_model :
    option Model -> Dataset -> list string -> result ValidationResult
}.

Module Retrain.
Import Registry.

(** [self.config] *)
Record Config : Type := mkConfig {
  min_training_samples : nat;
  validation_split : Q;
  random_state : Z;
  n_estimators : Z;
  max_depth : Z
}.

(** [self.thresholds] *)
Record Thresholds : Type := mkThresholds {
  min_accuracy : Q;
  min_precision : Q;
  min_recall : Q;
  improvement_margin : Q
}.

(** One retraining event (without its timestamp and duration). *)
Record RetrainEvent : Type := mkRetrainEvent {
  ev_reason : string;
  ev_drift_score : Q;
  old_version : string;
  new_version : string;
  old_accuracy : Q;
  new_accuracy : Q;
  ev_improvement : Q;
  ev_promoted : bool;
  ev_validation : ValidationResult
}.

(** The dict returned by [trigger_retraining]: a key that is absent is
    [None] (the duration is left out). *)
Record RetrainResult : Type := mkRetrainResult {
  success : bool;
  reason : option string;
  samples : option nat;
  result_version : option string;
  promoted : option bool;
  validation : option ValidationResult;
  result_drift_score : option Q;
  result_accuracy : option Q;
  message : option string;
  improvement : option Q
}.

(** Two readings of [datetime.now(timezone.utc)]: formatted with
    ['%Y%m%d_%H%M%S'] for the version and in ISO format for
    [created_at]. *)
Record Clock : Type := mkClock {
  strftime : string;
  isoformat : string
}.

Record RetrainEngine : Type := mkRetrainEngine {
  model_registry : ModelRegistry;
  config : Config;
  thresholds : Thresholds;
  retrain_history : list RetrainEvent;
  retraining_events_file : list RetrainEvent
}.

Definition E := State RetrainEngine.

(** [RetrainEngine.__init__], on the registry it opens. *)
Definition init (registry : ModelRegistry)
    (events : list RetrainEvent) : RetrainEngine :=
  {| model_registry := registry;
     config := {| min_training_samples := 100;
                  validation_split := 2 # 10;
                  random_state := 42;
                  n_estimators := 100;
                  max_depth := 10 |};
     thresholds := {| min_accuracy := 70 # 100;
                      min_precision := 65 # 100;
                      min_recall := 65 # 100;
                      improvement_margin := 2 # 100 |};
     retrain_history := [];
     retraining_events_file := events |}.

(** The engine around another state of its registry. *)
Definition with_registry (r : ModelRegistry) (e : RetrainEngine)
  : RetrainEngine :=
  {| model_registry := r; config := config e;
     thresholds := thresholds e;
     retrain_history := retrain_history e;
     retraining_events_file := retraining_events_file e |}.

(** A call [self.model_registry.method(...)]. *)
Definition registry {A} (c : Registry.M A) : E A :=
  fun e =>
    let (a, r) := c (model_registry e) in (a, with_registry r e).

(** [self.retrain_history.append(event)] and [_save_retrain_log]. *)
Definition record_event (event : RetrainEvent) : E unit :=
  modify (fun e =>
    {| model_registry := model_registry e; config := config e;
       thresholds := thresholds e;
       retrain_history := retrain_history e ++ [event];
       retraining_events_file := retraining_events_file e ++ [event] |}).

(** [f"feature_{i}"] *)
Definition feature_name (i : nat) : string :=
  ("feature_" ++ NilZero.string_of_uint (Nat.to_uint i))%string.

Section Engine.
Context {AR : Artifacts} {TR : Trainer}.

(** The model and the metadata that [_train_and_register] builds before
    it calls the registry. *)
Definition candidate (cfg : Config) (X : Dataset) (reason : string)
    (drift_score : Q) (now : Clock) : Model * ModelMetadata :=
  let '(X_train, X_val) :=
    train_test_split X (validation_split cfg) (random_state cfg) in
  let model :=
    fit (n_estimators cfg) (max_depth cfg) (random_state cfg) X_train in
  let accuracy := accuracy_score model X_val in
  let version := ("v" ++ strftime now)%string in
  let metadata :=
    {| version := version;
       created_at := isoformat now;
       model_type := "RandomForestClassifier";
       Registry.accuracy := accuracy;
       Registry.drift_score := drift_score;
       training_samples := len X_train;
       validation_samples := len X_val;
       hyperparameters :=
         [("n_estimators", n_estimators cfg);
          ("max_depth", max_depth cfg);
          ("random_state", random_state cfg)];
       feature_names := List.map feature_name (seq 0 (n_columns X));
       checksum := "";
       Registry.promoted := false;
       champion := false;
       notes := ("Trained due to: " ++ reason)%string |} in
  (model, metadata).

(** [RetrainEngine._train_and_register] *)
Definition _train_and_register (X : Dataset) (reason : string)
    (drift_score : Q) (now : Clock) : E string :=
  (cfg <- gets config ;;
   let '(model, metadata) := candidate cfg X reason drift_score now in
   registry (register_model model metadata) ;;
   ret (version metadata))%state.

(** [RetrainEngine.train_initial_model] *)
Definition train_initial_model (now : Clock) : E string :=
  (let X := generate_synthetic_data 1000 3 0 in
   version <- _train_and_register X "initial_training" 0 now ;;
   registry (set_champion version) ;;
   ret version)%state.

(** Steps 5 to 7 of [trigger_retraining]: compare with the champion,
    decide, record the event. *)
Definition compare_and_decide (reason : string) (drift_score : Q)
    (new_version : string) (current_metadata : ModelMetadata)
    (validation_result : ValidationResult)
  : E (result RetrainResult) :=
  (new_metadata <- registry (get_model_metadata new_version) ;;
   match new_metadata with
   | None => ret (Raise AttributeError)
   | Some new_metadata =>
       let new_accuracy := accuracy new_metadata in
       let current_accuracy_actual := accuracy current_metadata in
       let improvement := new_accuracy - current_accuracy_actual in
       margin <- gets (fun e => improvement_margin (thresholds e)) ;;
       promoted <-
         (if Py.ge improvement margin then
            registry (set_champion new_version) ;;
            ret true
          else ret false) ;;
       record_event
         {| ev_reason := reason;
            ev_drift_score := drift_score;
            old_version := version current_metadata;
            Retrain.new_version := new_version;
            old_accuracy := current_accuracy_actual;
            Retrain.new_accuracy := new_accuracy;
            ev_improvement := improvement;
            ev_promoted := promoted;
            ev_validation := validation_result |} ;;
       ret (Ok {| success := promoted;
                  Retrain.reason := None;
                  samples := None;
                  result_version := Some new_version;
                  Retrain.promoted := Some promoted;
                  validation := Some validation_result;
                  result_drift_score := Some drift_score;
                  result_accuracy := Some new_accuracy;
                  message :=
                    Some (if promoted
                          then "Retraining triggered successfully"
                          else
                            "Retraining completed, but model not promoted");
                  Retrain.improvement := Some improvement |})
   end)%state.

(** [RetrainEngine.trigger_retraining] *)
Definition trigger_retraining (drift_score : Q) (reason : string)
    (now : Clock) : E (result RetrainResult) :=
  (let X_train := generate_synthetic_data 500 3 (drift_score / 100) in
   minimum <- gets (fun e => min_training_samples (config e)) ;;
   if (len X_train <? minimum)%nat then
     ret (Ok {| success := false;
                Retrain.reason := Some "insufficient_data";
                samples := Some (len X_train);
                result_version := None; Retrain.promoted := None;
                validation := None; result_drift_score := None;
                result_accuracy := None; message := None;
                Retrain.improvement := None |})
   else
     new_version <- _train_and_register X_train reason drift_score now ;;
     loaded <- registry (load_model (Some new_version)) ;;
     match loaded with
     | Raise e => ret (Raise e)
     | Ok new_model =>
         current_metadata <- registry get_champion_model ;;
         match current_metadata with
         | None =>
             registry (set_champion new_version) ;;
             ret (Ok {| success := true;
                        Retrain.reason := Some "no_previous_champion";
                        samples := None;
                        result_version := Some new_version;
                        Retrain.promoted := Some true;
                        validation := None; result_drift_score := None;
                        result_accuracy := None; message := None;
                        Retrain.improvement := None |})
         | Some current_metadata =>
             let X_val := generate_synthetic_data 200 3 0 in
             match validate_model new_model X_val
                     ["feature_0"; "feature_1"; "feature_2"] with
             | Raise e => ret (Raise e)
             | Ok validation_result =>
                 if negb (passed validation_result) then
                   ret (Ok {| success := false;
                              Retrain.reason := Some "validation_failed";
                              samples := None;
                              result_version := Some new_version;
                              Retrain.promoted := Some false;
                              validation := Some validation_result;
                              result_drift_score := None;
                              result_accuracy := None; message := None;
                              Retrain.improvement := None |})
                 else
                   compare_and_decide reason drift_score new_version
                     current_metadata validation_result
             end
         end
     end)%state.

End Engine.

(** [RetrainEngine.get_retrain_history]: [self.retrain_history[-limit:]]. *)
Definition get_retrain_history (limit : Z) (e : RetrainEngine)
  : list RetrainEvent :=
  slice_from (- limit) (retrain_history e).

End Retrain.

(* ------------------------------------------------------------------ *)
(** * model_validator.py *)

Module Validator.

(** What the checks take from outside: the model's [predict], its
    predictions on the inputs with the noise of the stability check
    added, its feature importances (the attribute
    [feature_importances_], or the Dirichlet draw made for a model
    without it) and scikit-learn's scores with their averaging method,
    which can raise. Class labels are integers. *)
Class Scoring {AR : Artifacts} : Type := {
  Features : Type;
  n_columns : Features -> nat;
  predict : Model -> Features -> list Z;
  predict_perturbed : Model -> Features -> list Z;
  importances : Model -> Features -> list Q;
  accuracy_score : list Z -> list Z -> result Q;
  precision_score : list Z -> list Z -> string -> result Q;
  recall_score : list Z -> list Z -> string -> result Q;
  f1_score : list Z -> list Z -> string -> result Q
}.

(** [self.thresholds] *)
Record Thresholds : Type := mkThresholds {
  min_accuracy : Q;
  min_precision : Q;
  min_recall : Q;
  min_f1 : Q;
  max_feature_importance_concentration : Q
}.

Record ModelValidator : Type := mkModelValidator {
  thresholds : Thresholds
}.

(** [ModelValidator.__init__] *)
Definition init : ModelValidator :=
  {| thresholds :=
       {| min_accuracy := 70 # 100;
          min_precision := 65 # 100;
          min_recall := 65 # 100;
          min_f1 := 65 # 100;
          max_feature_importance_concentration := 8 # 10 |} |}.

(** The dicts that the four checks return (without their explanation
    texts and the thresholds they echo). *)
Record PerformanceCheck : Type := mkPerformanceCheck {
  pc_passed : bool;
  pc_accuracy : Q;
  pc_precision : Q;
  pc_recall : Q;
  pc_f1_score : Q
}.

Record ExplainabilityCheck : Type := mkExplainabilityCheck {
  ec_passed : bool;
  feature_importances : dict Q;
  max_importance : Q
}.

Record FairnessCheck : Type := mkFairnessCheck {
  fc_passed : bool;
  prediction_distribution : list Q;
  min_class_proportion : Q
}.

(** A stability score of [None] is [nan], the mean of no
    predictions. *)
Record StabilityCheck : Type := mkStabilityCheck {
  sc_passed : bool;
  stability_score : option Q
}.

(** [results["checks"]] *)
Record Checks : Type := mkChecks {
  performance : PerformanceCheck;
  explainability : ExplainabilityCheck;
  fairness : FairnessCheck;
  stability : StabilityCheck
}.

(** The dict that [validate_model] returns: [passed] and [failures],
    and the checks. *)
Record Results : Type := mkResults {
  verdict : ValidationResult;
  checks : Checks
}.

(** [np.unique(y)] *)
Definition np_unique (y : list Z) : list Z := nodup Z.eq_dec y.

(** [np.max(xs)] and [np.min(xs)]: no value for an empty array. *)
Definition np_max (xs : list Q) : result Q :=
  match xs with
  | [] => Raise ValueError
  | x :: xs' => Ok (fold_left Py.max xs' x)
  end.

Definition np_min (xs : list Q) : result Q :=
  match xs with
  | [] => Raise ValueError
  | x :: xs' => Ok (fold_left Py.min xs' x)
  end.

(** The largest label of [y], or 0. *)
Definition top_label (y : list Z) : Z := fold_right Z.max 0%Z y.

(** [np.bincount(y)]: how often each of [0 .. max(y)] occurs; a negative
    label is refused, and no label gives no bin. *)
Definition bincount (y : list Z) : result (list nat) :=
  if existsb (fun c => (c <? 0)%Z) y then Raise ValueError
  else
    Ok (match y with
        | [] => []
        | _ :: _ =>
            List.map (fun c => count_occ Z.eq_dec y (Z.of_nat c))
              (seq 0 (S (Z.to_nat (top_label y))))
        end).

Section Checks.
Context {AR : Artifacts} {SC : Scoring}.

(** [ModelValidator._check_performance] *)
Definition _check_performance (self : ModelValidator)
    (y_true y_pred : list Z) : result PerformanceCheck :=
  (accuracy <- accuracy_score y_true y_pred ;;
   let average_method :=
     if (List.length (np_unique y_true) =? 2)%nat
     then "binary" else "weighted" in
   precision <- precision_score y_true y_pred average_method ;;
   recall <- recall_score y_true y_pred average_method ;;
   f1 <- f1_score y_true y_pred average_method ;;
   let passed :=
     Py.ge accuracy (min_accuracy (thresholds self))
     && Py.ge precision (min_precision (thresholds self))
     && Py.ge recall (min_recall (thresholds self))
     && Py.ge f1 (min_f1 (thresholds self)) in
   Ok {| pc_passed := passed;
         pc_accuracy := accuracy;
         pc_precision := precision;
         pc_recall := recall;
         pc_f1_score := f1 |})%result.

(** [ModelValidator._check_explainability] *)
Definition _check_explainability (self : ModelValidator) (model : Model)
    (X_val : Features) (feature_names : option (list string))
  : result ExplainabilityCheck :=
  (let feature_names :=
     match feature_names with
     | Some names => names
     | None => List.map Retrain.feature_name (seq 0 (n_columns X_val))
     end in
   let importances := importances model X_val in
   max_importance <- np_max importances ;;
   let concentration_ok :=
     Py.lt max_importance
       (max_feature_importance_concentration (thresholds self)) in
   let feature_importance_dict :=
     fold_left (fun d ni => set (fst ni) (snd ni) d)
       (combine feature_names importances) [] in
   Ok {| ec_passed := concentration_ok;
         feature_importances := feature_importance_dict;
         max_importance := max_importance |})%result.

(** [ModelValidator._check_fairness] *)
Definition _check_fairness (y_pred : list Z) : result FairnessCheck :=
  (counts <- bincount y_pred ;;
   let pred_distribution :=
     List.map (fun n => of_nat n / of_nat (List.length y_pred)) counts in
   min_class_proportion <- np_min pred_distribution ;;
   let passed :=
     Py.lt (10 # 100) min_class_proportion
     || (List.length pred_distribution =? 2)%nat
        && Py.lt (5 # 100) min_class_proportion in
   Ok {| fc_passed := passed;
         prediction_distribution := pred_distribution;
         min_class_proportion := min_class_proportion |})%result.

(** [ModelValidator._check_stability] *)
Definition _check_stability (model : Model) (X_val : Features)
  : StabilityCheck :=
  let y_pred_original := predict model X_val in
  let y_pred_perturbed := predict_perturbed model X_val in
  let same :=
    List.map (fun ab => if Z.eqb (fst ab) (snd ab) then 1 else 0)
      (combine y_pred_original y_pred_perturbed) in
  let stability :=
    match same with
    | [] => None
    | _ :: _ => Some (np_mean same)
    end in
  let passed :=
    match stability with
    | Some s => Py.ge s (90 # 100)
    | None => false
    end in
  {| sc_passed := passed; stability_score := stability |}.

(** [results["passed"] = False; results["failures"].append(name)] when
    a check did not pass. *)
Definition note (check_passed : bool) (name : string)
    (results : ValidationResult) : ValidationResult :=
  if negb check_passed then
    {| passed := false; failures := failures results ++ [name] |}
  else results.

(** [ModelValidator.validate_model] *)
Definition validate_model (self : ModelValidator) (model : option Model)
    (X_val : Features) (y_val : list Z)
    (feature_names : option (list string)) : result Results :=
  match model with
  | None => Raise AttributeError
  | Some model =>
      (let results := {| passed := true; failures := [] |} in
       let y_pred := predict model X_val in
       performance_check <- _check_performance self y_val y_pred ;;
       let results :=
         note (pc_passed performance_check) "performance" results in
       explainability_check <-
         _check_explainability self model X_val feature_names ;;
       let results :=
         note (ec_passed explainability_check) "explainability" results in
       fairness_check <- _check_fairness y_pred ;;
       let results :=
         note (fc_passed fairness_check) "fairness" results in
       let stability_check := _check_stability model X_val in
       let results :=
         note (sc_passed stability_check) "stability" results in
       Ok {| verdict := results;
             checks := {| performance := performance_check;
                          explainability := explainability_check;
                          fairness := fairness_check;
                          stability := stability_check |} |})%result
  end.

End Checks.

(** Every class from 0 to the largest predicted label takes more than
    a tenth of the predictions; when the labels are 0 and 1 only, more
    than a twentieth. *)
Definition balanced (y_pred : list Z) : Prop :=
  forall c : Z,
    (0 <= c <= top_label y_pred)%Z ->
    ((if (top_label y_pred =? 1)%Z then 20 else 10)
     * count_occ Z.eq_dec y_pred c > List.length y_pred)%nat.

End Validator.

(* ------------------------------------------------------------------ *)
(** * Concrete collaborators and states *)

Module Examples.
Import Registry.

(** Models that are their own pickle; the digest spells out the bytes. *)
Definition plain_artifacts : Artifacts :=
  {| Model := bytes;
     pickle_dump := fun model => model;
     pickle_load := fun content => Ok content;
     sha256_hexdigest := string_of_list_byte |}.

Definition metadata_of (v created : string) (acc : Q) (flag : bool)
  : ModelMetadata :=
  {| version := v; created_at := created;
     model_type := "RandomForestClassifier";
     accuracy := acc; drift_score := 0;
     training_samples := 80; validation_samples := 20;
     hyperparameters := [("n_estimators", 10%Z)];
     feature_names := ["f0"; "f1"; "f2"];
     checksum := ""; promoted := false; champion := flag; notes := "" |}.

Definition empty_registry : ModelRegistry := Registry.init [] None [].

Definition artifact_a : bytes := [Byte.x61].
Definition artifact_b : bytes := [Byte.x62].

(** One registered version, ["v1"]. *)
Definition registry_v1 : ModelRegistry :=
  snd (register_model (AR := plain_artifacts) artifact_a
         (metadata_of "v1" "2024-01-01T00:00:00" (90 # 100) false)
         empty_registry).

(** ["v1"] again, with its artifact file changed behind the registry's
    back. *)
Definition registry_v1_tampered : ModelRegistry :=
  snd (set_files (set (model_path "v1") artifact_b) registry_v1).

(** ["v1"] with a file [model_v0.pkl] that was never registered. *)
Definition registry_v1_stray : ModelRegistry :=
  snd (set_files (set (model_path "v0") artifact_b) registry_v1).

(** ["v1"] champion, ["v2"] registered after it. *)
Definition registry_v1_v2 : ModelRegistry :=
  snd (register_model (AR := plain_artifacts) artifact_b
         (metadata_of "v2" "2024-01-02T00:00:00" (91 # 100) false)
         (snd (set_champion "v1" registry_v1))).

(** Two registrations whose metadata both arrive with [champion=True]. *)
Definition two_flagged_registrations : list (Operation (AR := plain_artifacts)) :=
  [Register (AR := plain_artifacts) artifact_a
     (metadata_of "v1" "2024-01-01T00:00:00" (90 # 100) true);
   Register (AR := plain_artifacts) artifact_b
     (metadata_of "v2" "2024-01-02T00:00:00" (91 # 100) true)].

(** Rational stand-ins for numpy's functions, good to a few digits:
    [ln 2] times the difference of the binary logarithms, and the integer
    square root of the argument scaled by [10^12]. A negative argument
    gives [nan]. *)
Definition approx_log (q : Q) : option Q :=
  if Qle_bool q 0 then None
  else Some (inject_Z (Z.log2 (Qnum q) - Z.log2 (Z.pos (Qden q)))
             * (693147 # 1000000)).

Definition approx_sqrt (q : Q) : option Q :=
  if Py.lt q 0 then None
  else Some (Z.sqrt (Qnum q * 1000000000000 / Z.pos (Qden q)) # 1000000).

Definition approx_numpy : Numpy :=
  {| np_log := approx_log; np_sqrt := approx_sqrt |}.

(** Twelve readings of one half. *)
Definition constant_stream : list Q := repeat (1 # 2) 12.

(** Six zeros, then six hundreds. *)
Definition shifted_stream : list Q := repeat 0 6 ++ repeat 100 6.

(** Equality of two samples, reading by reading. *)
Fixpoint same_sample (xs ys : list Q) : bool :=
  match xs, ys with
  | [], [] => true
  | x :: xs', y :: ys' => Qeq_bool x y && same_sample xs' ys'
  | _, _ => false
  end.

(** The divergence tests on two identical samples: the histograms
    coincide, so PSI and KL are 0, and the KS statistic is 0 with
    p-value 1. Other pairs of samples are outside this stand-in. *)
Definition identical_sample_tests : StatTests :=
  {| population_stability_index := fun reference current =>
       if same_sample reference current then Ok 0 else Raise ValueError;
     kolmogorov_smirnov_test := fun reference current =>
       if same_sample reference current then Ok (0, 1, false)
       else Raise ValueError;
     kl_divergence := fun reference current =>
       if same_sample reference current then Ok 0 else Raise ValueError |}.

(** Thirty rows of two features: the first alternates between 0 and 1,
    the second jumps from 0 to 100 at the twenty-seventh row. *)
Definition jump_rows : list (list Q) :=
  List.map (fun k => [inject_Z (Z.of_nat (k mod 2));
                      if (k <? 26)%nat then 0 else 100])
    (seq 0 30).

(** [d = DriftDetector(2)], the rows added one by one, then the same
    rows set as reference. *)
Definition jump_detector : result Drift.DriftDetector :=
  rmap (Drift.set_reference jump_rows None None)
    (Drift.add_samples (NP := approx_numpy) jump_rows (Drift.init 2)).

(** A trainer whose every fit gives the same model, 81% accurate, and
    whose validator passes any model that was loaded. A dataset is its
    number of rows. *)
Definition steady_trainer : Trainer (AR := plain_artifacts) :=
  {| Dataset := nat;
     generate_synthetic_data := fun n_samples _ _ => n_samples;
     len := fun X => X;
     n_columns := fun _ => 3%nat;
     train_test_split := fun X _ _ => ((X - X / 5)%nat, (X / 5)%nat);
     fit := fun _ _ _ _ => (artifact_b : @Model plain_artifacts);
     accuracy_score := fun _ _ => 81 # 100;
     validate_model := fun (model : option (@Model plain_artifacts)) _ _ =>
       match model with
       | Some _ => Ok {| passed := true; failures := [] |}
       | None => Raise AttributeError
       end |}.

Definition clock_0301 : Retrain.Clock :=
  {| Retrain.strftime := "20240301_120000";
     Retrain.isoformat := "2024-03-01T12:00:00+00:00" |}.

(** An engine on an empty registry. *)
Definition fresh_engine : Retrain.RetrainEngine :=
  Retrain.init empty_registry [].

(** An engine whose registry has ["v1"], 80% accurate, as champion. *)
Definition engine_champion_80 : Retrain.RetrainEngine :=
  Retrain.init
    (snd (set_champion "v1"
            (snd (register_model (AR := plain_artifacts) artifact_a
                    (metadata_of "v1" "2024-01-01T00:00:00" (80 # 100) false)
                    empty_registry))))
    [].

(** [train_initial_model] on the fresh engine, at the same clock
    reading: its version is ["v20240301_120000"]. *)
Definition engine_initial_model : Retrain.RetrainEngine :=
  snd (Retrain.train_initial_model (TR := steady_trainer) clock_0301
         fresh_engine).

(** [detect_drift] on that detector. *)
Definition jump_report : result (Drift.Report * Drift.DriftDetector) :=
  rbind jump_detector (Drift.detect_drift (ST := identical_sample_tests)).

(** Details in which only the label stream moved. *)
Definition label_shift_details : Drift.Details :=
  {| Drift.error := None; Drift.current_samples := None;
     Drift.feature_drift := Some [];
     Drift.prediction_drift := None;
     Drift.concept_drift :=
       Some {| Drift.cd_psi := 1 # 2; Drift.cd_drift_score := 250 |} |}.

End Examples.

(* ------------------------------------------------------------------ *)
(** * Further concrete states *)

Module Cases.

(** A detector holding the readings 1, 2, 3. *)
Definition detector_123 : Adwin.ADWIN :=
  {| Adwin.delta := Adwin.default_delta; Adwin.window := [1; 2; 3];
     Adwin.total := 6; Adwin.variance := 2; Adwin.width := 3;
     Adwin.drift_detected := false; Adwin.drift_count := 0 |}.

(** A soft-failure report with a given number of samples. *)
Definition short_report (n : nat) : Drift.Report :=
  {| Drift.drift_score := 0; Drift.drift_type := "none";
     Drift.severity := "insufficient_data";
     Drift.affected_features := [];
     Drift.details :=
       {| Drift.error := None; Drift.current_samples := Some n;
          Drift.feature_drift := None; Drift.prediction_drift := None;
          Drift.concept_drift := None |};
     Drift.recommended_action := None |}.

(** A detector for two features with three reports in its history. *)
Definition detector_three_reports : Drift.DriftDetector :=
  {| Drift.n_features := 2;
     Drift.reference_features := Some [[0; 0]];
     Drift.reference_labels := None;
     Drift.reference_predictions := None;
     Drift.current_features := [[1; 2]];
     Drift.current_labels := [];
     Drift.current_predictions := [];
     Drift.adwin_detectors := Drift.adwin_detectors (Drift.init 2);
     Drift.window_size := 100;
     Drift.drift_threshold := 2 # 10;
     Drift.drift_history := [short_report 1; short_report 2; short_report 3] |}.

(** An engine whose registry has ["v1"], 70% accurate, as champion. *)
Definition engine_champion_70 : Retrain.RetrainEngine :=
  Retrain.init
    (snd (Registry.set_champion "v1"
            (snd (Registry.register_model (AR := Examples.plain_artifacts)
                    Examples.artifact_a
                    (Examples.metadata_of "v1" "2024-01-01T00:00:00"
                       (70 # 100) false)
                    Examples.empty_registry))))
    [].

(** The steady trainer with a validator that finds every loaded model
    short on performance. *)
Definition strict_trainer : Trainer (AR := Examples.plain_artifacts) :=
  {| Dataset := nat;
     generate_synthetic_data := fun n_samples _ _ => n_samples;
     len := fun X => X;
     n_columns := fun _ => 3%nat;
     train_test_split := fun X _ _ => ((X - X / 5)%nat, (X / 5)%nat);
     fit := fun _ _ _ _ =>
       (Examples.artifact_b : @Model Examples.plain_artifacts);
     accuracy_score := fun _ _ => 81 # 100;
     validate_model :=
       fun (model : option (@Model Examples.plain_artifacts)) _ _ =>
       match model with
       | Some _ => Ok {| passed := false; failures := ["performance"] |}
       | None => Raise AttributeError
       end |}.

(** The default engine with a minimum of 1000 training samples. *)
Definition engine_wants_1000 : Retrain.RetrainEngine :=
  {| Retrain.model_registry := Examples.empty_registry;
     Retrain.config :=
       {| Retrain.min_training_samples := 1000;
          Retrain.validation_split := 2 # 10;
          Retrain.random_state := 42;
          Retrain.n_estimators := 100;
          Retrain.max_depth := 10 |};
     Retrain.thresholds := Retrain.thresholds Examples.fresh_engine;
     Retrain.retrain_history := [];
     Retrain.retraining_events_file := [] |}.

(** A model that answers with the feature itself, whose importances are
    spread evenly over two features and whose scores are all 0.9. *)
Definition echo_scoring : Validator.Scoring (AR := Examples.plain_artifacts) :=
  {| Validator.Features := list Z;
     Validator.n_columns := fun _ => 2%nat;
     Validator.predict := fun _ X => X;
     Validator.predict_perturbed := fun _ X => X;
     Validator.importances := fun _ _ => [1 # 2; 1 # 2];
     Validator.accuracy_score := fun _ _ => Ok (9 # 10);
     Validator.precision_score := fun _ _ _ => Ok (9 # 10);
     Validator.recall_score := fun _ _ _ => Ok (9 # 10);
     Validator.f1_score := fun _ _ _ => Ok (9 # 10) |}.

End Cases.

(* ================================================================== *)
(** * Properties *)

(** ** Dictionaries *)

Module DictFacts.
Section Facts.
Variable V : Type.
Implicit Types (d : dict V) (k : string) (v : V).

Lemma get_set_same k v d : get k (set k v d) = Some v.
Proof.
  induction d as [|[k0 v0] d IH]; simpl.
  - now rewrite String.eqb_refl.
  - destruct (String.eqb k k0) eqn:E; simpl; rewrite ?E, ?String.eqb_refl; auto.
Qed.

Lemma get_set_other k k' v d : k' <> k -> get k' (set k v d) = get k' d.
Proof.
  intros Hne. apply String.eqb_neq in Hne.
  induction d as [|[k0 v0] d IH]; simpl.
  - now rewrite Hne.
  - destruct (String.eqb k k0) eqn:E; simpl.
    + apply String.eqb_eq in E; subst k0. now rewrite Hne.
    + now rewrite IH.
Qed.

Lemma get_update_same k f d : get k (update k f d) = option_map f (get k d).
Proof.
  induction d as [|[k0 v0] d IH]; simpl; auto.
  destruct (String.eqb k k0) eqn:E; simpl; now rewrite E.
Qed.

Lemma get_update_other k k' f d :
  k' <> k -> get k' (update k f d) = get k' d.
Proof.
  intros Hne. apply String.eqb_neq in Hne.
  induction d as [|[k0 v0] d IH]; simpl; auto.
  destruct (String.eqb k k0) eqn:E; simpl.
  - apply String.eqb_eq in E; subst k0. now rewrite Hne.
  - now rewrite IH.
Qed.

Lemma keys_update k f d : keys (update k f d) = keys d.
Proof.
  induction d as [|[k0 v0] d IH]; simpl; auto.
  destruct (String.eqb k k0); simpl; auto. f_equal. exact IH.
Qed.

Lemma get_none_iff k d : get k d = None <-> ~ In k (keys d).
Proof.
  induction d as [|[k0 v0] d IH]; simpl.
  - tauto.
  - destruct (String.eqb k k0) eqn:E.
    + apply String.eqb_eq in E. subst. split; [discriminate | tauto].
    + apply String.eqb_neq in E. rewrite IH. split.
      * intros H [H1|H1]; [congruence | tauto].
      * tauto.
Qed.

Lemma contains_true_iff k d : contains k d = true <-> In k (keys d).
Proof.
  unfold contains. destruct (get k d) eqn:E.
  - split; auto. intros _.
    destruct (in_dec string_dec k (keys d)) as [H|H]; auto.
    apply get_none_iff in H. congruence.
  - split; [discriminate|]. intros H. apply get_none_iff in E. tauto.
Qed.

Lemma get_In k v d : get k d = Some v -> In (k, v) d.
Proof.
  induction d as [|[k0 v0] d IH]; simpl; [discriminate|].
  destruct (String.eqb k k0) eqn:E.
  - apply String.eqb_eq in E. intros [= ->]. subst. now left.
  - auto.
Qed.

Lemma In_get k v d : wf d -> In (k, v) d -> get k d = Some v.
Proof.
  unfold wf. induction d as [|[k0 v0] d IH]; simpl; [tauto|].
  intros Hnd [H|H].
  - inversion H; subst. now rewrite String.eqb_refl.
  - inversion Hnd; subst. destruct (String.eqb k k0) eqn:E.
    + apply String.eqb_eq in E. subst. exfalso. apply H2.
      change k0 with (fst (k0, v)). now apply in_map.
    + auto.
Qed.

Lemma keys_set_present k v d :
  In k (keys d) -> keys (set k v d) = keys d.
Proof.
  induction d as [|[k0 v0] d IH]; simpl; [tauto|].
  destruct (String.eqb k k0) eqn:E; simpl.
  - apply String.eqb_eq in E. now subst.
  - apply String.eqb_neq in E. intros [H|H]; [congruence|].
    f_equal. auto.
Qed.

Lemma set_absent k v d : ~ In k (keys d) -> set k v d = d ++ [(k, v)].
Proof.
  induction d as [|[k0 v0] d IH]; simpl; auto.
  intros H. destruct (String.eqb k k0) eqn:E.
  - apply String.eqb_eq in E. subst. tauto.
  - f_equal. apply IH. tauto.
Qed.

Lemma wf_set k v d : wf d -> wf (set k v d).
Proof.
  unfold wf. intros H.
  destruct (in_dec string_dec k (keys d)) as [Hin|Hin].
  - now rewrite keys_set_present.
  - rewrite set_absent by assumption. unfold keys.
    rewrite map_app. simpl.
    apply NoDup_app; auto.
    + constructor; [tauto | constructor].
    + intros x Hx [Hk|[]]. subst. tauto.
Qed.

Lemma wf_update k f d : wf d -> wf (update k f d).
Proof. unfold wf. now rewrite keys_update. Qed.

Lemma In_del k k' v d : In (k', v) (del k d) <-> In (k', v) d /\ k' <> k.
Proof.
  unfold del. rewrite filter_In. simpl.
  rewrite negb_true_iff, String.eqb_neq. intuition congruence.
Qed.

Lemma keys_del k d : keys (del k d) = filter (fun k' => negb (String.eqb k k')) (keys d).
Proof.
  unfold del, keys.
  induction d as [|[k0 v0] d IH]; simpl; auto.
  destruct (String.eqb k k0); simpl; congruence.
Qed.

Lemma wf_del k d : wf d -> wf (del k d).
Proof. unfold wf. rewrite keys_del. apply NoDup_filter. Qed.

Lemma get_del_same k d : get k (del k d) = None.
Proof.
  apply get_none_iff. rewrite keys_del, filter_In.
  rewrite String.eqb_refl. simpl. intros [_ H]. discriminate.
Qed.

Lemma get_del_other k k' d : k' <> k -> get k' (del k d) = get k' d.
Proof.
  intros Hne. unfold del.
  induction d as [|[k0 v0] d IH]; simpl; auto.
  destruct (String.eqb k k0) eqn:E; simpl.
  - apply String.eqb_eq in E. subst k0.
    apply String.eqb_neq in Hne. now rewrite Hne.
  - now rewrite IH.
Qed.

(** An update of a key outside the head leaves the head alone, all
    along a loop over such keys. *)
Lemma fold_update_cons (f : V -> V) ks k0 v0 d :
  ~ In k0 ks ->
  fold_left (fun d' k => update k f d') ks ((k0, v0) :: d)
  = (k0, v0) :: fold_left (fun d' k => update k f d') ks d.
Proof.
  revert d. induction ks as [|k ks IH]; intros d Hnin; simpl; auto.
  destruct (String.eqb k k0) eqn:E.
  - apply String.eqb_eq in E. subst. exfalso. apply Hnin. now left.
  - apply IH. intros H. apply Hnin. now right.
Qed.

(** Updating every key of a dict, one after the other, updates every
    value. *)
Lemma fold_update_keys (f : V -> V) d :
  wf d ->
  fold_left (fun d' k => update k f d') (keys d) d
  = List.map (fun kv => (fst kv, f (snd kv))) d.
Proof.
  unfold wf. induction d as [|[k0 v0] d IH]; intros Hnd; simpl; auto.
  inversion Hnd; subst. rewrite String.eqb_refl.
  rewrite fold_update_cons by assumption.
  f_equal. now apply IH.
Qed.

(** Where the entries of an updated dict come from. *)
Lemma In_update k f d k' v' :
  wf d ->
  In (k', v') (update k f d) <->
  (k' = k /\ exists v0, In (k, v0) d /\ v' = f v0)
  \/ (k' <> k /\ In (k', v') d).
Proof.
  unfold wf. induction d as [|[k0 v0] d IH]; intros Hnd; simpl.
  - split; [tauto|]. intros [[_ [v1 [[] _]]]|[_ []]].
  - inversion Hnd as [|? ? Hnin Hnd']; subst.
    destruct (String.eqb k k0) eqn:E.
    + apply String.eqb_eq in E. subst k0. simpl. split.
      * intros [H|H].
        -- inversion H; subst. left. split; auto. exists v0. auto.
        -- right. split; auto. intros ->. apply Hnin.
           change k with (fst (k, v')). now apply in_map.
      * intros [[-> [v1 [[H|H] ->]]]|[Hne [H|H]]].
        -- inversion H; subst. now left.
        -- exfalso. apply Hnin. change k with (fst (k, v1)).
           now apply in_map.
        -- inversion H; subst. congruence.
        -- now right.
    + apply String.eqb_neq in E. simpl. rewrite (IH Hnd'). split.
      * intros [H|[H|H]].
        -- inversion H; subst. right. split; auto.
        -- left. destruct H as [-> [v1 [H ->]]]. split; auto.
           exists v1. auto.
        -- right. tauto.
      * intros [[-> [v1 [[H|H] ->]]]|[Hne [H|H]]].
        -- inversion H; subst. congruence.
        -- right. left. split; auto. exists v1. auto.
        -- now left.
        -- right. right. auto.
Qed.
End Facts.
End DictFacts.


(** ** The model registry *)

Module RegistryFacts.
Import Registry DictFacts.

Ltac run :=
  unfold rollback_to_version, load_model, load_version, register_model,
    promote_model, set_champion, delete_model, get_champion_model,
    get_latest_model, get_model_metadata, list_models, _save_registry,
    _log_audit, log, set_models, set_files, _calculate_checksum,
    bind, gets, modify, ret in *;
  cbn [fst snd models files metadata_file audit_file logger] in *.

Section Facts.
Context {AR : Artifacts}.

(** [get_champion_model] only reads. *)
Lemma get_champion_model_pure r : snd (get_champion_model r) = r.
Proof.
  run. destruct (find champion (values (models r))); simpl; auto.
Qed.

Lemma load_version_registered r v metadata content :
  get v (models r) = Some metadata ->
  get (model_path v) (files r) = Some content ->
  load_version v r =
    if String.eqb (checksum metadata) (sha256_hexdigest content)
    then match pickle_load content with
         | Ok model => (Ok (Some model), snd (log (info_model_loaded v) r))
         | Raise e => (Raise e, r)
         end
    else (Ok None, snd (log (error_checksum_mismatch v) r)).
Proof.
  intros Hm Hf. run. rewrite Hf, Hm.
  destruct (String.eqb _ _); simpl; auto.
  destruct (pickle_load content); reflexivity.
Qed.

Lemma load_version_unregistered r v content :
  get v (models r) = None ->
  get (model_path v) (files r) = Some content ->
  load_version v r =
    match pickle_load content with
    | Ok model => (Ok (Some model), snd (log (info_model_loaded v) r))
    | Raise e => (Raise e, r)
    end.
Proof.
  intros Hm Hf. run. rewrite Hf, Hm. simpl.
  destruct (pickle_load content); reflexivity.
Qed.

Lemma load_version_missing r v :
  get (model_path v) (files r) = None ->
  load_version v r =
    (Ok None, snd (log (error_model_file_not_found (model_path v)) r)).
Proof. intros Hf. run. now rewrite Hf. Qed.

(** [load_model] is [load_version] at the resolved version. *)
Lemma load_model_resolved requested r v :
  resolved_version requested r = Some v ->
  load_model requested r = load_version v r.
Proof.
  destruct requested as [v'|]; simpl.
  - now intros [= ->].
  - unfold load_model, bind.
    pose proof (get_champion_model_pure r) as Hp.
    destruct (get_champion_model r) as [[md|] r0]; simpl in *;
      [|discriminate].
    intros [= <-]. now subst r0.
Qed.

(** C2.  On a registered version whose artifact file exists, [load_model]
    compares the recomputed checksum with the recorded one: when they
    differ it returns no model and logs the checksum mismatch, and
    whenever it does return a model the two checksums agree.  The version
    is the one asked for or, when none is given, the one the champion
    lookup resolves to. *)
Theorem load_model_integrity :
  forall (r : ModelRegistry) (requested : option string) (v : string)
         (metadata : ModelMetadata) (content : bytes),
    resolved_version requested r = Some v ->
    get v (models r) = Some metadata ->
    get (model_path v) (files r) = Some content ->
    (sha256_hexdigest content <> checksum metadata ->
       load_model requested r
       = (Ok None, snd (log (error_checksum_mismatch v) r)))
    /\ (forall model r',
          load_model requested r = (Ok (Some model), r') ->
          sha256_hexdigest content = checksum metadata).
Proof.
  intros r requested v metadata content Hres Hm Hf.
  rewrite (load_model_resolved _ _ Hres).
  rewrite (load_version_registered _ _ Hm Hf).
  destruct (String.eqb (checksum metadata) (sha256_hexdigest content)) eqn:E.
  - apply String.eqb_eq in E. split; [congruence|]. intros; congruence.
  - split; auto. intros model r' H. discriminate.
Qed.

(** C10.  For an artifact file that exists, the integrity check of
    [load_model] runs exactly when the version has a metadata record:
    without a record the outcome is that of unpickling the file, whatever
    its checksum; with a record the load is refused exactly when the
    checksums differ. *)
Theorem load_model_check_iff_registered :
  forall (r : ModelRegistry) (v : string) (content : bytes),
    get (model_path v) (files r) = Some content ->
    (get v (models r) = None ->
       load_model (Some v) r =
         match pickle_load content with
         | Ok model => (Ok (Some model), snd (log (info_model_loaded v) r))
         | Raise e => (Raise e, r)
         end)
    /\ (forall metadata,
          get v (models r) = Some metadata ->
          (fst (load_model (Some v) r) = Ok None
           <-> sha256_hexdigest content <> checksum metadata)).
Proof.
  intros r v content Hf. split.
  - intros Hm. simpl. now apply load_version_unregistered.
  - intros metadata Hm. simpl.
    rewrite (load_version_registered _ _ Hm Hf).
    destruct (String.eqb (checksum metadata) (sha256_hexdigest content)) eqn:E.
    + apply String.eqb_eq in E.
      destruct (pickle_load content); simpl; split;
        try discriminate; congruence.
    + apply String.eqb_neq in E. simpl. split; auto.
Qed.

(** C6 (as the code has it).  Registering under a version that is already
    present does not fail: the call returns the version, the artifact
    file holds the new pickle, and the record is replaced, in place, by
    the new metadata with the checksum of the new pickle. *)
Theorem register_model_overwrites :
  forall (r : ModelRegistry) (model : Model) (metadata : ModelMetadata),
    contains (version metadata) (models r) = true ->
    let v := version metadata in
    let r' := snd (register_model model metadata r) in
    fst (register_model model metadata r) = v
    /\ get (model_path v) (files r') = Some (pickle_dump model)
    /\ get v (models r')
       = Some (with_checksum (sha256_hexdigest (pickle_dump model)) metadata)
    /\ keys (models r') = keys (models r).
Proof.
  intros r model metadata Hc. run. simpl.
  repeat split.
  - apply get_set_same.
  - apply get_set_same.
  - apply keys_set_present. now apply contains_true_iff.
Qed.

(** C7.  [delete_model] refuses the version whose record carries the
    champion flag and leaves models, files, metadata file and audit file
    as they were; on a registered version without the flag it returns
    [True] and the version is gone from the table and from
    [list_models]. *)
Theorem delete_model_protects_champion :
  forall (r : ModelRegistry) (v : string) (metadata : ModelMetadata),
    coherent (models r) ->
    get v (models r) = Some metadata ->
    (champion metadata = true ->
       delete_model v r = (false, snd (log error_cannot_delete_champion r)))
    /\ (champion metadata = false ->
          let r' := snd (delete_model v r) in
          fst (delete_model v r) = true
          /\ get v (models r') = None
          /\ (forall m, In m (fst (list_models r')) -> version m <> v)
          /\ (forall m, In m (fst (list_models r')) ->
                        In m (fst (list_models r)))).
Proof.
  intros r v metadata Hco Hm. split; intros Hc.
  - run. now rewrite Hm, Hc.
  - run. rewrite Hm, Hc. simpl. repeat split.
    + apply get_del_same.
    + intros m Hin. unfold values in Hin. apply in_map_iff in Hin.
      destruct Hin as [[k m'] [Heq Hin]]. simpl in Heq. subst m'.
      apply In_del in Hin. destruct Hin as [Hin Hne].
      now rewrite (Hco _ _ Hin).
    + intros m Hin. unfold values in *. apply in_map_iff in Hin.
      destruct Hin as [[k m'] [Heq Hin]]. simpl in Heq. subst m'.
      apply In_del in Hin. destruct Hin as [Hin _].
      change m with (snd (k, m)). now apply in_map.
Qed.

End Facts.

(** A tampered artifact: the load of ["v1"] is refused. *)
Lemma load_model_integrity_witness :
  resolved_version (Some "v1") Examples.registry_v1_tampered = Some "v1"
  /\ get (model_path "v1") (files Examples.registry_v1_tampered)
     = Some Examples.artifact_b
  /\ load_model (AR := Examples.plain_artifacts) (Some "v1")
       Examples.registry_v1_tampered
     = (Ok None,
        snd (log (error_checksum_mismatch "v1") Examples.registry_v1_tampered)).
Proof.
  split; [reflexivity|]. split; [reflexivity|].
  refine (proj1 (@load_model_integrity Examples.plain_artifacts
                   Examples.registry_v1_tampered (Some "v1") "v1"
                   (with_checksum "a"
                      (Examples.metadata_of "v1" "2024-01-01T00:00:00"
                         (90 # 100) false))
                   Examples.artifact_b
                   eq_refl eq_refl eq_refl) _).
  vm_compute. discriminate.
Defined.

(** A file without a record is unpickled as it is. *)
Lemma load_model_check_iff_registered_witness :
  get (model_path "v0") (files Examples.registry_v1_stray)
  = Some Examples.artifact_b
  /\ load_model (AR := Examples.plain_artifacts) (Some "v0")
       Examples.registry_v1_stray
     = (Ok (Some Examples.artifact_b),
        snd (log (info_model_loaded "v0") Examples.registry_v1_stray)).
Proof.
  split; [reflexivity|].
  exact (proj1 (@load_model_check_iff_registered Examples.plain_artifacts
                  Examples.registry_v1_stray "v0" Examples.artifact_b
                  eq_refl) eq_refl).
Defined.

(** C6, as stated, fails: a second registration of ["v1"] returns the
    version and replaces both the artifact file and the record. *)
Lemma register_duplicate_replaces :
  let out :=
    register_model (AR := Examples.plain_artifacts) Examples.artifact_b
      (Examples.metadata_of "v1" "2024-01-03T00:00:00" (50 # 100) false)
      Examples.registry_v1 in
  contains "v1" (models Examples.registry_v1) = true
  /\ fst out = "v1"
  /\ get (model_path "v1") (files (snd out))
     <> get (model_path "v1") (files Examples.registry_v1)
  /\ get "v1" (models (snd out)) <> get "v1" (models Examples.registry_v1).
Proof.
  vm_compute. repeat split; discriminate.
Qed.

Lemma register_model_overwrites_witness :
  contains "v1" (models Examples.registry_v1) = true
  /\ get "v1"
       (models
          (snd (register_model (AR := Examples.plain_artifacts)
                  Examples.artifact_b
                  (Examples.metadata_of "v1" "2024-01-03T00:00:00"
                     (50 # 100) false)
                  Examples.registry_v1)))
     = Some (with_checksum "b"
               (Examples.metadata_of "v1" "2024-01-03T00:00:00"
                  (50 # 100) false)).
Proof.
  split; [reflexivity|].
  exact (proj1 (proj2 (proj2
           (@register_model_overwrites Examples.plain_artifacts
              Examples.registry_v1 Examples.artifact_b
              (Examples.metadata_of "v1" "2024-01-03T00:00:00"
                 (50 # 100) false)
              eq_refl)))).
Defined.

Lemma coherent_registry_v1_v2 : coherent (models Examples.registry_v1_v2).
Proof.
  intros k m H. vm_compute in H.
  destruct H as [H|[H|[]]]; inversion H; reflexivity.
Defined.

(** With ["v1"] champion and ["v2"] not: the first delete is refused, the
    second goes through. *)
Lemma delete_model_protects_champion_witness :
  coherent (models Examples.registry_v1_v2)
  /\ delete_model "v1" Examples.registry_v1_v2
     = (false, snd (log error_cannot_delete_champion Examples.registry_v1_v2))
  /\ fst (delete_model "v2" Examples.registry_v1_v2) = true
  /\ get "v2" (models (snd (delete_model "v2" Examples.registry_v1_v2)))
     = None.
Proof.
  split; [exact coherent_registry_v1_v2|]. split.
  - refine (proj1 (@delete_model_protects_champion
                     Examples.registry_v1_v2 "v1" _
                     coherent_registry_v1_v2 _) _);
      [vm_compute; reflexivity | reflexivity].
  - pose proof (proj2 (@delete_model_protects_champion
                         Examples.registry_v1_v2 "v2" _
                         coherent_registry_v1_v2 eq_refl)
                  eq_refl) as H.
    cbv zeta in H. split; [exact (proj1 H) | exact (proj1 (proj2 H))].
Defined.

End RegistryFacts.

(** ** The single-champion invariant *)

Module ChampionFacts.
Import Registry DictFacts RegistryFacts.


Lemma flagged_set d k m :
  champion m = false -> (flagged (set k m d) <= flagged d)%nat.
Proof.
  intros Hm. unfold flagged.
  induction d as [|[k0 m0] d IH]; simpl.
  - now rewrite Hm.
  - destruct (String.eqb k k0); simpl.
    + rewrite Hm. destruct (champion m0); simpl; lia.
    + destruct (champion m0); simpl; lia.
Qed.

Lemma flagged_update_keep d k f :
  (forall m, champion (f m) = champion m) ->
  flagged (update k f d) = flagged d.
Proof.
  intros Hf. unfold flagged.
  induction d as [|[k0 m0] d IH]; simpl; auto.
  destruct (String.eqb k k0); simpl.
  - rewrite Hf. destruct (champion m0); reflexivity.
  - destruct (champion m0); simpl; congruence.
Qed.

Lemma flagged_del d k : (flagged (del k d) <= flagged d)%nat.
Proof.
  unfold flagged, del.
  induction d as [|[k0 m0] d IH]; simpl; auto.
  destruct (String.eqb k k0); simpl; destruct (champion m0); simpl; lia.
Qed.

Lemma clear_champions_map d :
  wf d ->
  clear_champions d
  = List.map (fun kv => (fst kv, with_champion false (snd kv))) d.
Proof. apply fold_update_keys. Qed.

Lemma keys_clear_champions d : wf d -> keys (clear_champions d) = keys d.
Proof.
  intros H. rewrite clear_champions_map by assumption.
  unfold keys. rewrite map_map. reflexivity.
Qed.

(** After the clearing loop, flagging a key that is present leaves one
    flag. *)
Lemma flagged_crown d w :
  wf d -> In w (keys d) ->
  flagged (update w (with_champion true) (clear_champions d)) = 1%nat.
Proof.
  intros Hwf. rewrite clear_champions_map by assumption. clear Hwf.
  unfold flagged.
  induction d as [|[k0 m0] d IH]; simpl; [tauto|].
  intros Hin. destruct (String.eqb w k0) eqn:E; simpl.
  - f_equal. clear. induction d as [|[k m] d IH]; simpl; auto.
  - apply String.eqb_neq in E. apply IH. destruct Hin; congruence.
Qed.

Lemma crown_sole d w k m :
  wf d -> In w (keys d) ->
  In (k, m) (update w (with_champion true) (clear_champions d)) ->
  (champion m = true <-> k = w).
Proof.
  intros Hwf Hw Hin.
  assert (Hwf' : wf (clear_champions d)).
  { unfold wf. now rewrite keys_clear_champions. }
  apply (In_update _ _ _ _ Hwf') in Hin.
  rewrite clear_champions_map in Hin by assumption.
  destruct Hin as [[-> [m0 [_ ->]]]|[Hne Hin]].
  - simpl. tauto.
  - apply in_map_iff in Hin. destruct Hin as [[k1 m1] [Heq _]].
    inversion Heq; subst. simpl. split; [discriminate | tauto].
Qed.

Section Facts.
Context {AR : Artifacts}.

Lemma models_register model metadata r :
  models (snd (register_model model metadata r))
  = set (version metadata)
      (with_checksum (sha256_hexdigest (pickle_dump model)) metadata)
      (models r).
Proof. reflexivity. Qed.

Lemma models_promote v r :
  models (snd (promote_model v r))
  = if contains v (models r)
    then update v (with_promoted true) (models r) else models r.
Proof. run. destruct (contains v (models r)); reflexivity. Qed.

Lemma models_set_champion v r :
  models (snd (set_champion v r))
  = if contains v (models r)
    then update v (with_champion true) (clear_champions (models r))
    else models r.
Proof. run. destruct (contains v (models r)); reflexivity. Qed.

Lemma models_rollback v r :
  models (snd (rollback_to_version v r)) = models (snd (set_champion v r)).
Proof.
  run. destruct (contains v (models r)) eqn:E; simpl; rewrite ?E; reflexivity.
Qed.

Lemma models_delete v r :
  models (snd (delete_model v r))
  = match get v (models r) with
    | Some metadata =>
        if champion metadata then models r else del v (models r)
    | None => models r
    end.
Proof.
  run. destruct (get v (models r)) as [m|]; auto.
  destruct (champion m); reflexivity.
Qed.

Lemma models_perform op r :
  models (perform op r)
  = match op with
    | Register model metadata =>
        set (version metadata)
          (with_checksum (sha256_hexdigest (pickle_dump model)) metadata)
          (models r)
    | Promote v =>
        if contains v (models r)
        then update v (with_promoted true) (models r) else models r
    | SetChampion v | Rollback v =>
        if contains v (models r)
        then update v (with_champion true) (clear_champions (models r))
        else models r
    | Delete v =>
        match get v (models r) with
        | Some metadata =>
            if champion metadata then models r else del v (models r)
        | None => models r
        end
    end.
Proof.
  destruct op; simpl.
  - apply models_register.
  - apply models_promote.
  - apply models_set_champion.
  - rewrite models_rollback. apply models_set_champion.
  - apply models_delete.
Qed.

(** Keys stay distinct under every call. *)
Lemma perform_wf op r : wf (models r) -> wf (models (perform op r)).
Proof.
  intros Hwf. rewrite models_perform. destruct op.
  - now apply wf_set.
  - destruct (contains _ _); auto. now apply wf_update.
  - destruct (contains _ _); auto. apply wf_update.
    unfold wf. now rewrite keys_clear_champions.
  - destruct (contains _ _); auto. apply wf_update.
    unfold wf. now rewrite keys_clear_champions.
  - destruct (get _ _) as [m|]; auto. destruct (champion m); auto.
    now apply wf_del.
Qed.

(** Records stay under their own version under every call. *)
Lemma perform_coherent op r :
  wf (models r) -> coherent (models r) -> coherent (models (perform op r)).
Proof.
  intros Hwf Hco. rewrite models_perform. destruct op.
  - intros k m Hin.
    destruct (string_dec k (version metadata)) as [->|Hne].
    + apply In_get in Hin; [|now apply wf_set].
      rewrite get_set_same in Hin. now inversion Hin.
    + apply In_get in Hin; [|now apply wf_set].
      rewrite get_set_other in Hin by assumption.
      apply get_In in Hin. now apply Hco.
  - destruct (contains _ _); auto. intros k m Hin.
    apply In_update in Hin; auto.
    destruct Hin as [[-> [m0 [Hin ->]]]|[_ Hin]]; [|now apply Hco].
    simpl. now apply Hco.
  - destruct (contains _ _); auto. intros k m Hin.
    apply In_update in Hin;
      [|unfold wf; now rewrite keys_clear_champions].
    rewrite clear_champions_map in Hin by assumption.
    destruct Hin as [[-> [m0 [Hin ->]]]|[_ Hin]];
      apply in_map_iff in Hin; destruct Hin as [[k1 m1] [Heq Hin]];
      inversion Heq; subst; simpl; now apply Hco.
  - destruct (contains _ _); auto. intros k m Hin.
    apply In_update in Hin;
      [|unfold wf; now rewrite keys_clear_champions].
    rewrite clear_champions_map in Hin by assumption.
    destruct Hin as [[-> [m0 [Hin ->]]]|[_ Hin]];
      apply in_map_iff in Hin; destruct Hin as [[k1 m1] [Heq Hin]];
      inversion Heq; subst; simpl; now apply Hco.
  - destruct (get _ _) as [m0|]; auto. destruct (champion m0); auto.
    intros k m Hin. apply In_del in Hin. now apply Hco.
Qed.

Lemma perform_at_most_one op r :
  wf (models r) -> registers_plain op ->
  at_most_one_champion r -> at_most_one_champion (perform op r).
Proof.
  unfold at_most_one_champion, champions. intros Hwf Hplain Hone.
  fold (flagged (models r)) in Hone.
  fold (flagged (models (perform op r))).
  rewrite models_perform. destruct op; simpl in Hplain.
  - etransitivity; [apply flagged_set; exact Hplain | exact Hone].
  - destruct (contains _ _); auto.
    rewrite flagged_update_keep; auto.
  - destruct (contains _ _) eqn:E; auto.
    apply contains_true_iff in E. rewrite flagged_crown; auto.
  - destruct (contains _ _) eqn:E; auto.
    apply contains_true_iff in E. rewrite flagged_crown; auto.
  - destruct (get _ _) as [m|]; auto. destruct (champion m); auto.
    etransitivity; [apply flagged_del | exact Hone].
Qed.

Lemma trace_at_most_one ops :
  forall r, wf (models r) -> at_most_one_champion r ->
  Forall registers_plain ops ->
  Forall at_most_one_champion (trace ops r).
Proof.
  induction ops as [|op ops IH]; intros r Hwf Hone Hall; simpl.
  - constructor.
  - inversion Hall; subst. constructor.
    + now apply perform_at_most_one.
    + apply IH; auto.
      * now apply perform_wf.
      * now apply perform_at_most_one.
Qed.


End Facts.



End ChampionFacts.

(** ** The adaptive window detector *)

Module AdwinFacts.
Import Adwin.

Lemma of_nat_succ k : of_nat (S k) == of_nat k + 1.
Proof.
  unfold of_nat. rewrite Nat2Z.inj_succ, <- Z.add_1_r, inject_Z_plus.
  reflexivity.
Qed.

Lemma of_nat_pos k : (0 < k)%nat -> 0 < of_nat k.
Proof.
  intros H. unfold of_nat. change 0 with (inject_Z 0).
  rewrite <- Zlt_Qlt. lia.
Qed.

Lemma fold_plus_repeat x k : forall acc,
  fold_left Qplus (repeat x k) acc == acc + of_nat k * x.
Proof.
  induction k as [|k IH]; intros acc; simpl.
  - unfold of_nat. simpl. ring.
  - rewrite IH, of_nat_succ. ring.
Qed.

(** The mean of a non-empty run of one value is that value. *)
Lemma np_mean_repeat x k : (0 < k)%nat -> np_mean (repeat x k) == x.
Proof.
  intros Hk. unfold np_mean, Py.sum.
  rewrite fold_plus_repeat, repeat_length.
  pose proof (of_nat_pos Hk) as Hpos.
  field. intros H. rewrite H in Hpos. now apply Qlt_irrefl in Hpos.
Qed.

Lemma firstn_repeat {A} (x : A) i n :
  firstn i (repeat x n) = repeat x (Nat.min i n).
Proof.
  revert n. induction i as [|i IH]; intros [|n]; simpl; auto.
  now rewrite IH.
Qed.

Lemma skipn_repeat {A} (x : A) i n :
  skipn i (repeat x n) = repeat x (n - i).
Proof.
  revert n. induction i as [|i IH]; intros [|n]; simpl; auto.
Qed.

Lemma repeat_snoc {A} (x : A) k : repeat x k ++ [x] = repeat x (S k).
Proof. induction k as [|k IH]; simpl; [reflexivity | now rewrite IH]. Qed.

Section Facts.
Context {NP : Numpy} {NL : NumpyLaws NP}.

(** A bound that is a number is not negative. *)
Lemma hoeffding_nonneg delta n0 n1 e :
  hoeffding delta n0 n1 = Ok (Some e) -> 0 <= e.
Proof.
  unfold hoeffding, Py.div. destruct (Qeq_bool delta 0); simpl;
    [discriminate|].
  destruct (np_log (4 / delta)); intros [= H].
  eapply np_sqrt_nonneg; eauto.
Qed.

Lemma hoeffding_defined delta n0 n1 :
  ~ delta == 0 -> exists epsilon, hoeffding delta n0 n1 = Ok epsilon.
Proof.
  intros Hd. unfold hoeffding, Py.div.
  destruct (Qeq_bool delta 0) eqn:E.
  - apply Qeq_bool_iff in E. contradiction.
  - simpl. eauto.
Qed.

(** Equal means are never told apart. *)
Lemma significant_equal_means mean0 mean1 delta n0 n1 epsilon :
  mean0 == mean1 ->
  hoeffding delta n0 n1 = Ok epsilon ->
  significant mean0 mean1 epsilon = false.
Proof.
  intros Heq Hh. destruct epsilon as [e|]; simpl; auto.
  apply hoeffding_nonneg in Hh.
  unfold Py.lt. apply negb_false_iff, Qle_bool_iff.
  assert (H0 : Qabs (mean0 - mean1) == 0).
  { rewrite Heq. setoid_replace (mean1 - mean1) with 0 by ring.
    reflexivity. }
  now rewrite H0.
Qed.

(** On a window of one repeated value no split point qualifies. *)
Lemma scan_splits_constant (a : ADWIN) x n splits :
  ~ delta a == 0 ->
  scan_splits a (repeat x n) splits = Ok (false, a).
Proof.
  intros Hd. induction splits as [|i splits IH]; simpl; auto.
  destruct ((List.length (firstn i (repeat x n)) <? 5)%nat
            || (List.length (skipn i (repeat x n)) <? 5)%nat)%bool eqn:E;
    auto.
  apply orb_false_iff in E. destruct E as [E0 E1].
  apply Nat.ltb_ge in E0, E1.
  destruct (hoeffding_defined (List.length (firstn i (repeat x n)))
              (List.length (skipn i (repeat x n))) Hd) as [epsilon Hh].
  rewrite Hh. simpl.
  assert (Hsig : significant (np_mean (firstn i (repeat x n)))
                   (np_mean (skipn i (repeat x n))) epsilon = false).
  { eapply significant_equal_means; [|exact Hh].
    rewrite firstn_repeat, skipn_repeat in *.
    rewrite repeat_length in E0, E1.
    rewrite !np_mean_repeat by lia. reflexivity. }
  rewrite Hsig. exact IH.
Qed.


Lemma add_element_steady d x k a :
  ~ d == 0 -> steady d x k a ->
  exists a', add_element x a = Ok (false, a') /\ steady d x (S k) a'
             /\ drift_detected a' = false.
Proof.
  intros Hd (Hdelta & Hwin & Hwid & Hcount).
  unfold add_element.
  assert (Hstat : exists tv, update_statistics x a (width a + 1) = Ok tv).
  { unfold update_statistics. rewrite Hwid.
    destruct (Z.of_nat k + 1 =? 1)%Z eqn:E; [eauto|].
    apply Z.eqb_neq in E. unfold Py.div.
    destruct (Qeq_bool (inject_Z (Z.of_nat k + 1 - 1)) 0) eqn:E1.
    { apply Qeq_bool_iff in E1. unfold Qeq in E1. simpl in E1. lia. }
    simpl.
    destruct (Qeq_bool (inject_Z (Z.of_nat k + 1)) 0) eqn:E2.
    { apply Qeq_bool_iff in E2. unfold Qeq in E2. simpl in E2. lia. }
    simpl. eauto. }
  destruct Hstat as [[total' variance'] Hstat]. rewrite Hstat. simpl.
  rewrite Hwin, repeat_snoc.
  set (a1 := {| delta := delta a; window := repeat x (S k);
                total := total'; variance := variance';
                width := (width a + 1)%Z; drift_detected := false;
                drift_count := drift_count a |}).
  assert (Hs1 : steady d x (S k) a1).
  { unfold steady, a1. simpl. repeat split; auto. lia. }
  destruct (1 <? width a + 1)%Z.
  - unfold _detect_change.
    change (window a1) with (repeat x (S k)).
    rewrite scan_splits_constant.
    + simpl. exists a1. auto.
    + simpl. now rewrite Hdelta.
  - exists a1. auto.
Qed.

Lemma feed_steady d x n : forall k a,
  ~ d == 0 -> steady d x k a ->
  exists a', feed (repeat x n) a = Ok (repeat false n, a')
             /\ steady d x (k + n) a'.
Proof.
  induction n as [|n IH]; intros k a Hd Hs; simpl.
  - exists a. rewrite Nat.add_0_r. auto.
  - destruct (add_element_steady Hd Hs) as (a1 & Hadd & Hs1 & _).
    rewrite Hadd. simpl.
    destruct (IH (S k) a1 Hd Hs1) as (a2 & Hfeed & Hs2).
    rewrite Hfeed. simpl. exists a2. split; auto.
    now rewrite Nat.add_succ_r.
Qed.


End Facts.

(** The stand-ins obey the law of the square root. *)
Lemma approx_numpy_laws : NumpyLaws Examples.approx_numpy.
Proof.
  constructor. intros x y. simpl. unfold Examples.approx_sqrt.
  destruct (Py.lt x 0); [discriminate|]. intros [= <-].
  unfold Qle. simpl. rewrite Z.mul_1_r. apply Z.sqrt_nonneg.
Defined.


(** The detector does fire on a stream that shifts: with the stand-ins,
    on six zeros followed by six hundreds the tenth reading reports
    drift (five zeros against one zero and four hundreds) and the five
    oldest readings are dropped. *)
Example shifted_stream_drifts :
  match feed (NP := Examples.approx_numpy) Examples.shifted_stream
          (Adwin.init Adwin.default_delta) with
  | Ok (flags, a) =>
      flags = repeat false 9 ++ [true; false; false]
      /\ get_drift_count a = 1%nat /\ get_width a = 7%Z
  | Raise _ => False
  end.
Proof. vm_compute. auto. Qed.

(** A confidence parameter of zero makes the tenth reading raise. *)
Example zero_delta_raises :
  feed (NP := Examples.approx_numpy) (repeat 1 10) (Adwin.init 0)
  = Raise ZeroDivisionError.
Proof. vm_compute. reflexivity. Qed.

End AdwinFacts.

(** ** The drift engine *)

Module DriftFacts.
Import Adwin Drift.

Lemma lt_true_iff a b : Py.lt a b = true <-> a < b.
Proof.
  unfold Py.lt. rewrite negb_true_iff. split.
  - intros H. apply Qnot_le_lt. intros Hle.
    apply Qle_bool_iff in Hle. congruence.
  - intros H. destruct (Qle_bool b a) eqn:E; auto.
    apply Qle_bool_iff in E. exfalso. now apply (Qlt_not_le a b).
Qed.

Lemma lt_false_iff a b : Py.lt a b = false <-> b <= a.
Proof.
  unfold Py.lt. rewrite negb_false_iff. apply Qle_bool_iff.
Qed.

(** The builtins agree with the minimum and maximum of the rationals. *)
Lemma max_Qmax a b : Py.max a b == Qmax a b.
Proof.
  unfold Py.max. destruct (Py.lt a b) eqn:E.
  - apply lt_true_iff in E. symmetry. apply Q.max_r. now apply Qlt_le_weak.
  - apply lt_false_iff in E. symmetry. now apply Q.max_l.
Qed.

Lemma min_Qmin a b : Py.min a b == Qmin a b.
Proof.
  unfold Py.min. destruct (Py.lt b a) eqn:E.
  - apply lt_true_iff in E. symmetry. apply Q.min_r. now apply Qlt_le_weak.
  - apply lt_false_iff in E. symmetry. now apply Q.min_l.
Qed.

Lemma fold_left_plus xs : forall acc,
  fold_left Qplus xs acc == acc + fold_right Qplus 0 xs.
Proof.
  induction xs as [|x xs IH]; intros acc; simpl.
  - ring.
  - rewrite IH. ring.
Qed.

Lemma np_mean_arithmetic xs : np_mean xs == arithmetic_mean xs.
Proof.
  unfold np_mean, arithmetic_mean, Py.sum.
  rewrite fold_left_plus. apply Qdiv_comp; [ring | reflexivity].
Qed.

Lemma overall_nil : overall [] == 0.
Proof. reflexivity. Qed.

Lemma overall_clamped_mean xs :
  xs <> [] -> overall xs == clamp_0_100 (arithmetic_mean xs).
Proof.
  intros Hne. unfold overall, clamp_0_100.
  destruct xs as [|x xs]; [congruence|].
  rewrite min_Qmin, max_Qmax.
  apply Q.min_compat; [reflexivity|].
  apply Q.max_compat; [reflexivity|].
  apply np_mean_arithmetic.
Qed.

(** The score stays within the scale. *)
Lemma overall_range xs : 0 <= overall xs <= 100.
Proof.
  unfold overall. rewrite min_Qmin, max_Qmax. split.
  - apply Q.min_glb; [discriminate | apply Q.le_max_l].
  - apply Q.le_min_l.
Qed.

(** [_classify_drift_type], case by case. *)
Lemma classify_cases (details : Details) (affected : list nat) :
  let concept_high :=
    exists c, concept_drift details = Some c /\ 2 # 10 < cd_psi c in
  let prediction_high :=
    exists p, prediction_drift details = Some p /\ 2 # 10 < pd_psi p in
  (affected = [] -> _classify_drift_type details affected = "none")
  /\ (affected <> [] ->
      (concept_high ->
       _classify_drift_type details affected = "concept_drift")
      /\ (~ concept_high -> prediction_high ->
          _classify_drift_type details affected = "prediction_drift")
      /\ (~ concept_high -> ~ prediction_high ->
          _classify_drift_type details affected = "data_drift")).
Proof.
  intros concept_high prediction_high. unfold _classify_drift_type. split.
  - intros ->. reflexivity.
  - intros Hne. destruct affected as [|j affected]; [congruence|]. simpl.
    assert (Hc : match concept_drift details with
                 | Some c => Py.lt (2 # 10) (cd_psi c)
                 | None => false
                 end = true <-> concept_high).
    { unfold concept_high. destruct (concept_drift details) as [c|].
      - rewrite lt_true_iff. split.
        + intros H. exists c. auto.
        + intros [c' [[= <-] H]]. exact H.
      - split; [discriminate|]. intros [c' [[=] _]]. }
    assert (Hp : match prediction_drift details with
                 | Some p => Py.lt (2 # 10) (pd_psi p)
                 | None => false
                 end = true <-> prediction_high).
    { unfold prediction_high. destruct (prediction_drift details) as [p|].
      - rewrite lt_true_iff. split.
        + intros H. exists p. auto.
        + intros [p' [[= <-] H]]. exact H.
      - split; [discriminate|]. intros [p' [[=] _]]. }
    destruct (match concept_drift details with
              | Some c => Py.lt (2 # 10) (cd_psi c)
              | None => false
              end).
    + repeat split; intros; auto; exfalso; tauto.
    + destruct (match prediction_drift details with
                | Some p => Py.lt (2 # 10) (pd_psi p)
                | None => false
                end).
      * repeat split; intros; auto; exfalso;
          try (apply Hc in H; discriminate); tauto.
      * repeat split; intros; auto; exfalso.
        -- apply Hc in H. discriminate.
        -- apply Hp in H0. discriminate.
Qed.



Lemma listed_snoc_old affected i f :
  (feature_index f < i)%nat ->
  listed (affected ++ [i]) f = listed affected f.
Proof.
  intros Hlt. unfold listed. rewrite existsb_app. simpl.
  destruct (Nat.eqb_spec (feature_index f) i); [lia|].
  now rewrite !orb_false_r.
Qed.

Lemma filter_listed_snoc affected i entries :
  (forall f, In f entries -> (feature_index f < i)%nat) ->
  filter (listed (affected ++ [i])) entries
  = filter (listed affected) entries.
Proof.
  intros H. apply filter_ext_in. intros f Hin.
  apply listed_snoc_old. auto.
Qed.

Lemma listed_fresh affected i f :
  (forall j, In j affected -> (j < i)%nat) ->
  feature_index f = i -> listed affected f = false.
Proof.
  intros H Hi. unfold listed.
  destruct (existsb (Nat.eqb (feature_index f)) affected) eqn:E; auto.
  apply existsb_exists in E. destruct E as [j [Hin Hj]].
  apply Nat.eqb_eq in Hj. specialize (H _ Hin). lia.
Qed.

Section Facts.
Context {NP : Numpy} {ST : StatTests}.

Lemma feature_iteration_invariant d reference current i acc acc' :
  loop_invariant i acc ->
  feature_iteration d reference current i acc = Ok acc' ->
  loop_invariant (S i) acc'.
Proof.
  intros (Hf & Ha & Hs). unfold feature_iteration.
  destruct (column i reference) as [ref_feature|]; simpl; [|discriminate].
  destruct (column i current) as [curr_feature|]; simpl; [|discriminate].
  destruct (population_stability_index ref_feature curr_feature) as [psi|];
    simpl; [|discriminate].
  destruct (kolmogorov_smirnov_test ref_feature curr_feature)
    as [[[ks_stat ks_pval] ks_drift]|]; simpl; [|discriminate].
  destruct (kl_divergence ref_feature curr_feature) as [kl_div|];
    simpl; [|discriminate].
  destruct (index (adwin_detectors d) i) as [detector|]; simpl;
    [|discriminate].
  destruct (Py.lt (drift_threshold d) psi || ks_drift
            || drift_detected detector)%bool;
    intros [= <-]; unfold loop_invariant; simpl; repeat split.
  - intros f Hin. apply in_app_or in Hin. destruct Hin as [Hin|[<-|[]]].
    + specialize (Hf _ Hin). lia.
    + simpl. lia.
  - intros j Hin. apply in_app_or in Hin. destruct Hin as [Hin|[<-|[]]].
    + specialize (Ha _ Hin). lia.
    + lia.
  - rewrite filter_app, map_app. simpl.
    rewrite filter_listed_snoc by assumption. rewrite Hs.
    unfold listed at 1. simpl. rewrite existsb_app. simpl.
    rewrite Nat.eqb_refl, orb_true_r. reflexivity.
  - intros f Hin. apply in_app_or in Hin. destruct Hin as [Hin|[<-|[]]].
    + specialize (Hf _ Hin). lia.
    + simpl. lia.
  - intros j Hin. specialize (Ha _ Hin). lia.
  - rewrite filter_app, map_app. simpl.
    rewrite listed_fresh with (i := i) by auto.
    simpl. rewrite app_nil_r. exact Hs.
Qed.

Lemma feature_loop_invariant d reference current len :
  forall start acc acc',
    loop_invariant start acc ->
    feature_loop d reference current (seq start len) acc = Ok acc' ->
    loop_invariant (start + len) acc'.
Proof.
  induction len as [|len IH]; intros start acc acc' Hinv; simpl.
  - intros [= <-]. now rewrite Nat.add_0_r.
  - destruct (feature_iteration d reference current start acc)
      as [acc1|] eqn:E; simpl; [|discriminate].
    intros Hloop. rewrite Nat.add_succ_r.
    apply (IH (S start) acc1 acc'); auto.
    eapply feature_iteration_invariant; eauto.
Qed.

(** The shape of a full report. *)
Lemma detect_drift_full d reference r d' :
  reference_features d = Some reference ->
  (30 <= List.length (current_features d))%nat ->
  detect_drift d = Ok (r, d') ->
  exists acc pred concept,
    loop_invariant (n_features d) acc
    /\ affected_features r = loop_affected acc
    /\ details r
       = {| error := None; current_samples := None;
            feature_drift := Some (feature_drifts acc);
            prediction_drift := pred; concept_drift := concept |}
    /\ drift_score r
       = overall
           (loop_scores acc
            ++ match pred with Some p => [pd_drift_score p] | None => [] end
            ++ match concept with
               | Some c => [cd_drift_score c]
               | None => []
               end)
    /\ drift_type r
       = _classify_drift_type (details r) (affected_features r)
    /\ severity r = _classify_severity (drift_score r)
    /\ d' = log_history r d.
Proof.
  intros Href Hlen. unfold detect_drift. rewrite Href.
  apply Nat.ltb_ge in Hlen. rewrite Hlen.
  destruct (feature_loop d reference (current_features d)
              (seq 0 (n_features d))
              {| feature_drifts := []; loop_affected := [];
                 loop_scores := [] |}) as [acc|] eqn:Eloop;
    simpl; [|discriminate].
  destruct (prediction_step d) as [pred|]; simpl; [|discriminate].
  destruct (concept_step d) as [concept|]; simpl; [|discriminate].
  intros [= <- <-]. exists acc, pred, concept. simpl.
  assert (Hinv : loop_invariant (0 + n_features d) acc).
  { eapply feature_loop_invariant; [|exact Eloop].
    unfold loop_invariant. simpl. repeat split; intros ? []. }
  repeat split; auto; apply Hinv.
Qed.

Lemma detect_drift_scores d reference r d' :
  reference_features d = Some reference ->
  (30 <= List.length (current_features d))%nat ->
  detect_drift d = Ok (r, d') ->
  drift_score r = overall (affected_signal_scores r).
Proof.
  intros Href Hlen Hrun.
  destruct (detect_drift_full _ Href Hlen Hrun)
    as (acc & pred & concept & (_ & _ & Hs) & Haff & Hdet & Hscore & _).
  rewrite Hscore. f_equal.
  unfold affected_signal_scores, feature_entries, stream_scores.
  rewrite Hdet, Haff. simpl.
  unfold listed in Hs. now rewrite Hs.
Qed.


(** C5 (as the code has it).  On a full report the drift type is [none]
    when no feature is listed as affected; otherwise it is
    [concept_drift] when the label-stream PSI exceeds 0.2, else
    [prediction_drift] when the prediction-stream PSI exceeds 0.2, else
    [data_drift]. *)
Theorem drift_type_priority :
  forall (d d' : DriftDetector) (reference : list (list Q)) (r : Report),
    reference_features d = Some reference ->
    (30 <= List.length (current_features d))%nat ->
    detect_drift d = Ok (r, d') ->
    (affected_features r = [] -> drift_type r = "none")
    /\ (affected_features r <> [] ->
        (concept_psi_high r -> drift_type r = "concept_drift")
        /\ (~ concept_psi_high r -> prediction_psi_high r ->
            drift_type r = "prediction_drift")
        /\ (~ concept_psi_high r -> ~ prediction_psi_high r ->
            drift_type r = "data_drift")).
Proof.
  intros d d' reference r Href Hlen Hrun.
  destruct (detect_drift_full _ Href Hlen Hrun)
    as (acc & pred & concept & _ & _ & _ & _ & Htype & _).
  rewrite Htype. apply classify_cases.
Qed.

End Facts.




(** C5, as stated, fails: with a label-stream PSI of 0.5 and no feature
    affected, the classification is [none]. *)
Lemma concept_shift_without_features :
  concept_drift Examples.label_shift_details
  = Some {| cd_psi := 1 # 2; cd_drift_score := 250 |}
  /\ 2 # 10 < 1 # 2
  /\ _classify_drift_type Examples.label_shift_details [] = "none"
  /\ _classify_drift_type Examples.label_shift_details [] <> "concept_drift".
Proof.
  repeat split; try reflexivity. discriminate.
Qed.

Lemma drift_type_priority_witness :
  exists d r d',
    Examples.jump_detector = Ok d
    /\ reference_features d = Some Examples.jump_rows
    /\ (30 <= List.length (current_features d))%nat
    /\ detect_drift (ST := Examples.identical_sample_tests) d = Ok (r, d')
    /\ affected_features r <> []
    /\ ~ concept_psi_high r /\ ~ prediction_psi_high r
    /\ drift_type r = "data_drift".
Proof.
  destruct Examples.jump_detector as [d|] eqn:Ed;
    [|vm_compute in Ed; discriminate].
  destruct (detect_drift (ST := Examples.identical_sample_tests) d)
    as [[r d']|] eqn:Er.
  2:{ vm_compute in Ed. inversion Ed; subst. vm_compute in Er.
      discriminate. }
  assert (Href : reference_features d = Some Examples.jump_rows).
  { vm_compute in Ed. inversion Ed; subst. reflexivity. }
  assert (Hlen : (30 <= List.length (current_features d))%nat).
  { vm_compute in Ed. inversion Ed; subst. simpl. lia. }
  assert (Hne : affected_features r <> []).
  { vm_compute in Ed. inversion Ed; subst. vm_compute in Er.
    inversion Er; subst. discriminate. }
  assert (Hc : ~ concept_psi_high r).
  { vm_compute in Ed. inversion Ed; subst. vm_compute in Er.
    inversion Er; subst. intros [c [H _]]. discriminate. }
  assert (Hp : ~ prediction_psi_high r).
  { vm_compute in Ed. inversion Ed; subst. vm_compute in Er.
    inversion Er; subst. intros [p [H _]]. discriminate. }
  exists d, r, d'. repeat (split; [assumption || reflexivity|]).
  exact (proj2 (proj2 (proj2 (@drift_type_priority
                  Examples.identical_sample_tests d d' Examples.jump_rows r
                  Href Hlen Er) Hne)) Hc Hp).
Defined.

End DriftFacts.

(** ** The retraining engine *)

Module RetrainFacts.
Import Registry Retrain DictFacts RegistryFacts.

Lemma insert_desc_nonempty x l : insert_desc x l <> [].
Proof.
  destruct l as [|y l]; simpl; [discriminate|].
  destruct (String.ltb _ _); discriminate.
Qed.

Lemma sorted_desc_nonempty x l : sorted_desc (x :: l) <> [].
Proof. apply insert_desc_nonempty. Qed.

(** On a table that is not empty [get_champion_model] finds a record:
    the first flagged one, or else the latest. *)
Lemma get_champion_model_some r :
  models r <> [] -> exists metadata, get_champion_model r = (Some metadata, r).
Proof.
  intros Hne. run.
  destruct (find champion (values (models r))) as [m|]; simpl; eauto.
  destruct (models r) as [|x l] eqn:E; [congruence|].
  pose proof (@sorted_desc_nonempty x l) as Hs.
  destruct (sorted_desc (x :: l)) as [|first rest]; [congruence|].
  eauto.
Qed.

(** A flagged record is the answer of [get_champion_model]. *)
Lemma get_champion_model_flagged r metadata :
  find champion (values (models r)) = Some metadata ->
  get_champion_model r = (Some metadata, r).
Proof. intros H. run. now rewrite H. Qed.

Lemma set_nonempty {V} k (v : V) d : set k v d <> [].
Proof.
  destruct d as [|[k0 v0] d]; simpl; [discriminate|].
  destruct (String.eqb k k0); discriminate.
Qed.

Lemma find_app {A} (f : A -> bool) l l' :
  find f (l ++ l') = match find f l with
                     | Some x => Some x
                     | None => find f l'
                     end.
Proof.
  induction l as [|x l IH]; simpl; auto. destruct (f x); auto.
Qed.

Section Facts.
Context {AR : Artifacts} {TR : Trainer}.

Lemma load_version_models v r :
  models (snd (load_version v r)) = models r.
Proof.
  run. destruct (get (model_path v) (files r)) as [content|]; simpl; auto.
  destruct (match get v (models r) with
            | Some metadata =>
                negb (String.eqb (checksum metadata) (sha256_hexdigest content))
            | None => false
            end); simpl; auto.
  destruct (pickle_load content); reflexivity.
Qed.

Lemma registry_run {A} (c : Registry.M A) e a r :
  c (model_registry e) = (a, r) -> registry c e = (a, with_registry r e).
Proof. intros H. unfold registry. now rewrite H. Qed.

(** [trigger_retraining] up to the champion lookup, when the data
    suffice and the candidate loads. *)
Lemma trigger_retraining_steps drift_score reason now e model metadata
    new_model r2 current :
  let X_train := generate_synthetic_data 500 3 (drift_score / 100) in
  let r1 := snd (register_model model metadata (model_registry e)) in
  (len X_train <? min_training_samples (config e))%nat = false ->
  candidate (config e) X_train reason drift_score now = (model, metadata) ->
  load_model (Some (version metadata)) r1 = (Ok new_model, r2) ->
  fst (get_champion_model r2) = Some current ->
  trigger_retraining drift_score reason now e
  = match validate_model new_model (generate_synthetic_data 200 3 0)
            ["feature_0"; "feature_1"; "feature_2"] with
    | Raise ex => (Raise ex, with_registry r2 e)
    | Ok validation_result =>
        if negb (passed validation_result) then
          (Ok {| success := false;
                 Retrain.reason := Some "validation_failed";
                 samples := None;
                 result_version := Some (version metadata);
                 Retrain.promoted := Some false;
                 validation := Some validation_result;
                 result_drift_score := None;
                 result_accuracy := None; message := None;
                 Retrain.improvement := None |}, with_registry r2 e)
        else
          compare_and_decide reason drift_score (version metadata)
            current validation_result (with_registry r2 e)
    end.
Proof.
  intros X_train r1 Hlen Hc Hl Hg.
  unfold trigger_retraining, bind at 1, gets at 1. cbv beta iota zeta.
  fold X_train. rewrite Hlen.
  unfold bind at 1. unfold _train_and_register, bind at 1, gets at 1.
  cbv beta iota zeta. fold X_train. rewrite Hc.
  unfold bind at 1.
  rewrite (@registry_run _ (register_model model metadata) e
             (version metadata) r1) by reflexivity.
  unfold ret at 1. cbv beta iota.
  unfold bind at 1.
  rewrite (@registry_run _ (load_model (Some (version metadata)))
             (with_registry r1 e) (Ok new_model) r2) by exact Hl.
  cbv beta iota. unfold bind at 1.
  pose proof (get_champion_model_pure r2) as Hp.
  destruct (get_champion_model r2) as [found r3] eqn:Eg.
  simpl in Hg, Hp. subst found r3.
  rewrite (@registry_run _ get_champion_model
             (with_registry r2 (with_registry r1 e)) (Some current) r2)
    by exact Eg.
  cbv beta iota.
  change (with_registry r2 (with_registry r2 (with_registry r1 e)))
    with (with_registry r2 e).
  destruct (validate_model new_model _ _) as [validation_result|ex];
    [|reflexivity].
  destruct (negb (passed validation_result)); reflexivity.
Qed.

Lemma compare_and_decide_reason reason drift_score new_version current
    validation_result e res e' :
  compare_and_decide reason drift_score new_version current
    validation_result e = (Ok res, e') ->
  Retrain.reason res = None.
Proof.
  unfold compare_and_decide, bind at 1.
  destruct (registry (get_model_metadata new_version) e)
    as [[new_metadata|] e1]; [|intros [=]].
  unfold bind at 1, gets at 1. cbv beta iota.
  unfold bind at 1.
  destruct (if Py.ge _ _ then _ else _) as [flag e2].
  unfold bind, record_event, modify, ret. intros [= <- _]. reflexivity.
Qed.

(** The branch "No current model, auto-promote" is never taken: by the
    time the champion is looked up, the candidate is in the table. *)
Lemma cold_start_unreachable drift_score reason now e res e' :
  trigger_retraining drift_score reason now e = (Ok res, e') ->
  Retrain.reason res <> Some "no_previous_champion".
Proof.
  set (X_train := generate_synthetic_data 500 3 (drift_score / 100)).
  destruct (len X_train <? min_training_samples (config e))%nat eqn:Hlen.
  { unfold trigger_retraining, bind, gets, ret. cbv beta iota zeta.
    fold X_train. rewrite Hlen. intros [= <- _]. simpl. discriminate. }
  destruct (candidate (config e) X_train reason drift_score now)
    as [model metadata] eqn:Ec.
  set (r1 := snd (register_model model metadata (model_registry e))).
  destruct (load_model (Some (version metadata)) r1) as [loaded r2] eqn:El.
  destruct loaded as [new_model|ex].
  - assert (Hm : models r2 <> []).
    { replace r2 with (snd (load_version (version metadata) r1))
        by (simpl in El; now rewrite El).
      rewrite load_version_models. unfold r1. simpl. apply set_nonempty. }
    destruct (@get_champion_model_some r2 Hm) as [current Hg].
    rewrite (@trigger_retraining_steps drift_score reason now e model
               metadata new_model r2 current Hlen Ec El)
      by (now rewrite Hg).
    destruct (validate_model new_model _ _) as [validation_result|];
      [|intros [=]].
    destruct (negb (passed validation_result)).
    + intros [= <- _]. simpl. discriminate.
    + intros H. apply compare_and_decide_reason in H. congruence.
  - unfold trigger_retraining, bind at 1, gets at 1. cbv beta iota zeta.
    fold X_train. rewrite Hlen.
    unfold bind at 1. unfold _train_and_register, bind at 1, gets at 1.
    cbv beta iota zeta. fold X_train. rewrite Ec.
    unfold bind at 1.
    rewrite (@registry_run _ (register_model model metadata) e
               (version metadata) r1) by reflexivity.
    unfold ret at 1. cbv beta iota. unfold bind at 1.
    rewrite (@registry_run _ (load_model (Some (version metadata)))
               (with_registry r1 e) (Raise ex) r2) by exact El.
    cbv beta iota. unfold ret. intros [=].
Qed.

Lemma ge_false_iff a b : Py.ge a b = false <-> a < b.
Proof.
  unfold Py.ge. split.
  - intros H. apply Qnot_le_lt. intros Hle.
    apply Qle_bool_iff in Hle. congruence.
  - intros H. destruct (Qle_bool b a) eqn:E; auto.
    apply Qle_bool_iff in E. exfalso. now apply (Qlt_not_le a b).
Qed.

(** Below the margin [compare_and_decide] reports no promotion and does
    not touch the registry. *)
Lemma compare_and_decide_kept reason drift_score new_version current
    validation_result e new_metadata :
  get new_version (models (model_registry e)) = Some new_metadata ->
  accuracy new_metadata - accuracy current
    < improvement_margin (thresholds e) ->
  exists res e',
    compare_and_decide reason drift_score new_version current
      validation_result e = (Ok res, e')
    /\ Retrain.promoted res = Some false
    /\ success res = false
    /\ model_registry e' = model_registry e.
Proof.
  intros Hget Hlt. apply ge_false_iff in Hlt.
  unfold compare_and_decide, bind at 1.
  rewrite (@registry_run _ (get_model_metadata new_version) e
             (Some new_metadata) (model_registry e))
    by (unfold get_model_metadata, gets; now rewrite Hget).
  unfold bind at 1, gets at 1. cbv beta iota.
  change (thresholds (with_registry (model_registry e) e))
    with (thresholds e).
  rewrite Hlt. unfold bind, ret, record_event, modify. cbv beta iota.
  eexists. eexists. split; [reflexivity|]. simpl. auto.
Qed.

Lemma find_flagged_entry d :
  find champion (values d) = option_map snd (flagged_entry d).
Proof.
  unfold flagged_entry, values.
  induction d as [|[k m] d IH]; simpl; auto.
  destruct (champion m); auto.
Qed.

(** Writing an unflagged record under another key leaves the first
    flagged record where it is. *)
Lemma flagged_entry_set_other d k current v metadata :
  flagged_entry d = Some (k, current) ->
  k <> v -> champion metadata = false ->
  flagged_entry (set v metadata d) = Some (k, current).
Proof.
  unfold flagged_entry. intros Hfind Hne Hflag.
  induction d as [|[k0 m0] d IH]; simpl in *; [discriminate|].
  destruct (String.eqb v k0) eqn:E; simpl.
  - apply String.eqb_eq in E. subst k0. rewrite Hflag.
    destruct (champion m0); [|exact Hfind].
    inversion Hfind; subst. congruence.
  - destruct (champion m0); auto.
Qed.

(** The candidate is built with the default flags. *)
Lemma candidate_unflagged cfg X reason drift_score now model metadata :
  candidate cfg X reason drift_score now = (model, metadata) ->
  champion metadata = false
  /\ version metadata = ("v" ++ strftime now)%string.
Proof.
  unfold candidate. destruct (train_test_split X _ _) as [X_train X_val].
  intros [= _ <-]. auto.
Qed.


End Facts.


(** Why the candidate's version must not be the champion's: a retrain
    within the second of the initial training gets the same time-derived
    version, the registration replaces the champion's record by an
    unflagged one, and no record is flagged afterwards. *)
Example same_second_retrain_unflags_champion :
  option_map fst
    (flagged_entry (models (model_registry Examples.engine_initial_model)))
  = Some "v20240301_120000"
  /\ flagged_entry
       (models
          (model_registry
             (snd (trigger_retraining (TR := Examples.steady_trainer) 80
                     "drift_detected" Examples.clock_0301
                     Examples.engine_initial_model))))
     = None.
Proof. split; vm_compute; reflexivity. Qed.

(** C3.  A retrain triggered with a drift score of 85 on an empty
    registry does not take the cold-start path: the candidate, once
    registered, is what the champion lookup falls back to, so it is
    validated and compared with itself; the gain is 0, the result says
    [promoted = False] without the reason [no_previous_champion], and no
    record is flagged champion afterwards. *)
Theorem cold_start_candidate_not_promoted :
  champions (model_registry Examples.fresh_engine) = 0%nat
  /\ models (model_registry Examples.fresh_engine) = []
  /\ exists res e',
       trigger_retraining (TR := Examples.steady_trainer) 85
         "drift_detected" Examples.clock_0301 Examples.fresh_engine
       = (Ok res, e')
       /\ Retrain.promoted res = Some false
       /\ success res = false
       /\ Retrain.reason res = None
       /\ Retrain.improvement res = Some (0 # 10000)
       /\ champions (model_registry e') = 0%nat.
Proof.
  split; [reflexivity|]. split; [reflexivity|].
  eexists. eexists. split; [vm_compute; reflexivity|].
  repeat split.
Qed.

End RetrainFacts.


(** ** More on the adaptive window detector *)

Module AdwinInvariants.
Import Adwin AdwinFacts.

Lemma sum_fold_right xs : Py.sum xs == fold_right Qplus 0 xs.
Proof.
  unfold Py.sum. rewrite DriftFacts.fold_left_plus. ring.
Qed.

Lemma sum_nil : Py.sum [] == 0.
Proof. reflexivity. Qed.

Lemma sum_cons x xs : Py.sum (x :: xs) == x + Py.sum xs.
Proof. rewrite !sum_fold_right. reflexivity. Qed.

Lemma sum_app xs ys : Py.sum (xs ++ ys) == Py.sum xs + Py.sum ys.
Proof.
  induction xs as [|x xs IH]; simpl.
  - rewrite sum_nil. ring.
  - rewrite !sum_cons, IH. ring.
Qed.

Lemma of_nat_nonzero n : (0 < n)%nat -> ~ of_nat n == 0.
Proof.
  intros H E. pose proof (of_nat_pos H) as Hp. rewrite E in Hp.
  now apply Qlt_irrefl in Hp.
Qed.

Lemma inject_Z_nonzero z : z <> 0%Z -> Qeq_bool (inject_Z z) 0 = false.
Proof.
  intros Hz. destruct (Qeq_bool (inject_Z z) 0) eqn:E; auto.
  apply Qeq_bool_iff in E. unfold Qeq in E. cbn [Qnum Qden inject_Z] in E.
  lia.
Qed.

(** Squared deviations from any centre, through the sum and the sum of
    squares. *)
Lemma sum_squares_shift c xs :
  Py.sum (List.map (fun x => (x - c) * (x - c)) xs)
  == Py.sum (List.map (fun x => x * x) xs)
     - 2 * c * Py.sum xs + of_nat (List.length xs) * c * c.
Proof.
  induction xs as [|x xs IH].
  - simpl. rewrite !sum_nil. unfold of_nat. simpl. ring.
  - cbn [List.map List.length]. rewrite !sum_cons, IH, of_nat_succ. ring.
Qed.

Lemma squared_deviations_moments xs :
  xs <> [] ->
  squared_deviations xs
  == Py.sum (List.map (fun x => x * x) xs)
     - Py.sum xs * Py.sum xs / of_nat (List.length xs).
Proof.
  intros Hne. unfold squared_deviations. rewrite sum_squares_shift.
  unfold np_mean.
  assert (Hn : ~ of_nat (List.length xs) == 0).
  { apply of_nat_nonzero. destruct xs; [congruence | simpl; lia]. }
  field. exact Hn.
Qed.

Lemma squared_deviations_single x : squared_deviations [x] == 0.
Proof.
  rewrite squared_deviations_moments by discriminate.
  simpl. rewrite !sum_cons, sum_nil. unfold of_nat. simpl. field.
Qed.

(** The incremental update of [add_element] keeps the variance
    accumulator equal to the sum of squared deviations. *)
Lemma welford_step xs v t var :
  xs <> [] ->
  t == Py.sum xs ->
  var == squared_deviations xs ->
  var + (v - t / of_nat (List.length xs))
        * (v - (t + v) / of_nat (S (List.length xs)))
  == squared_deviations (xs ++ [v]).
Proof.
  intros Hne Ht Hvar.
  rewrite Hvar, Ht.
  rewrite (squared_deviations_moments Hne).
  rewrite squared_deviations_moments by (destruct xs; discriminate).
  rewrite map_app, !sum_app, length_app. simpl.
  rewrite !sum_cons, !sum_nil.
  replace (List.length xs + 1)%nat with (S (List.length xs)) by lia.
  assert (Hn : ~ of_nat (List.length xs) == 0).
  { apply of_nat_nonzero. destruct xs; [congruence | simpl; lia]. }
  assert (Hn1 : ~ of_nat (S (List.length xs)) == 0).
  { apply of_nat_nonzero. lia. }
  rewrite of_nat_succ in *.
  field. split; assumption.
Qed.

(** [np.var] times the length is the sum of squared deviations. *)
Lemma np_var_times_length xs :
  xs <> [] ->
  np_var xs * of_nat (List.length xs) == squared_deviations xs.
Proof.
  intros Hne. unfold np_var, squared_deviations.
  unfold np_mean at 1. rewrite length_map.
  assert (Hn : ~ of_nat (List.length xs) == 0).
  { apply of_nat_nonzero. destruct xs; [congruence | simpl; lia]. }
  field. exact Hn.
Qed.

Section Facts.
Context {NP : Numpy}.

Lemma drop_oldest_spec i : forall a,
  (i <= List.length (window a))%nat ->
  window (drop_oldest i a) = skipn i (window a)
  /\ width (drop_oldest i a) = (width a - Z.of_nat i)%Z
  /\ total (drop_oldest i a) == total a - Py.sum (firstn i (window a))
  /\ delta (drop_oldest i a) = delta a
  /\ drift_count (drop_oldest i a) = drift_count a.
Proof.
  induction i as [|i IH]; intros a Hle.
  - simpl. repeat split; try lia. rewrite sum_nil. ring.
  - simpl. destruct (window a) as [|removed rest] eqn:Ew; [simpl in Hle; lia|].
    simpl in Hle.
    destruct (IH {| delta := delta a; window := rest;
                    total := total a - removed; variance := variance a;
                    width := (width a - 1)%Z;
                    drift_detected := drift_detected a;
                    drift_count := drift_count a |})
      as (Hw & Hwid & Htot & Hd & Hc); [simpl; lia|].
    simpl in *. repeat split; auto.
    + rewrite Hwid. lia.
    + rewrite Htot, sum_cons. ring.
Qed.

Lemma recalculate_variance_frame a :
  window (recalculate_variance a) = window a
  /\ width (recalculate_variance a) = width a
  /\ total (recalculate_variance a) = total a
  /\ delta (recalculate_variance a) = delta a
  /\ drift_count (recalculate_variance a) = drift_count a
  /\ drift_detected (recalculate_variance a) = drift_detected a.
Proof.
  unfold recalculate_variance. destruct (0 <? width a)%Z; simpl; auto 10.
Qed.

(** Cutting a consistent detector at a split that keeps something gives
    a consistent detector. *)
Lemma cut_consistent a i :
  width a = Z.of_nat (List.length (window a)) ->
  total a == Py.sum (window a) ->
  (i < List.length (window a))%nat ->
  consistent (recalculate_variance (drop_oldest i a)).
Proof.
  intros Hwid Htot Hlt.
  destruct (@drop_oldest_spec i a) as (Hw & Hwd & Ht & _); [lia|].
  assert (Hlen : List.length (skipn i (window a))
                 = (List.length (window a) - i)%nat)
    by apply length_skipn.
  unfold consistent, recalculate_variance.
  rewrite Hwd, Hwid.
  destruct (0 <? Z.of_nat (List.length (window a)) - Z.of_nat i)%Z eqn:E0;
    [|apply Z.ltb_ge in E0; lia].
  simpl. rewrite ?Hw, ?Hwd, ?Hwid, ?Hlen. repeat split.
  - lia.
  - rewrite Ht, Htot.
    rewrite <- (firstn_skipn i (window a)) at 1. rewrite sum_app. ring.
  - destruct (1 <? Z.of_nat (List.length (window a)) - Z.of_nat i)%Z eqn:E1.
    + rewrite <- np_var_times_length.
      * rewrite Hlen. unfold of_nat.
        replace (Z.of_nat (List.length (window a) - i))
          with (Z.of_nat (List.length (window a)) - Z.of_nat i)%Z by lia.
        reflexivity.
      * intros Hnil. rewrite Hnil in Hlen. simpl in Hlen. lia.
    + apply Z.ltb_ge in E1.
      destruct (skipn i (window a)) as [|x [|y rest]] eqn:Es;
        simpl in Hlen; try lia.
      symmetry. apply squared_deviations_single.
Qed.

(** A window of fewer than ten readings has no split with five readings
    on each side. *)
Lemma scan_splits_short a w splits :
  (List.length w < 10)%nat -> scan_splits a w splits = Ok (false, a).
Proof.
  intros Hlen. induction splits as [|i splits IH]; simpl; auto.
  assert (H : ((List.length (firstn i w) <? 5)%nat
               || (List.length (skipn i w) <? 5)%nat)%bool = true).
  { rewrite length_firstn, length_skipn. apply orb_true_iff.
    destruct (Nat.ltb_spec (Nat.min i (List.length w)) 5); auto.
    right. apply Nat.ltb_lt. lia. }
  now rewrite H.
Qed.

(** The scan either finds nothing or cuts at one of the proposed split
    points, with five readings or more on each side. *)
Lemma scan_splits_outcome a w splits :
  ~ delta a == 0 ->
  scan_splits a w splits = Ok (false, a)
  \/ exists i,
       In i splits
       /\ (5 <= i)%nat /\ (5 <= List.length w - i)%nat
       /\ scan_splits a w splits
          = Ok (true, recalculate_variance (drop_oldest i a)).
Proof.
  intros Hd. induction splits as [|i splits IH]; simpl; auto.
  destruct ((List.length (firstn i w) <? 5)%nat
            || (List.length (skipn i w) <? 5)%nat)%bool eqn:E.
  - destruct IH as [IH|(j & Hin & H0 & H1 & IH)]; auto.
    right. exists j. auto.
  - apply orb_false_iff in E. destruct E as [E0 E1].
    apply Nat.ltb_ge in E0, E1.
    rewrite length_firstn in E0. rewrite length_skipn in E1.
    destruct (hoeffding_defined (List.length (firstn i w))
                (List.length (skipn i w)) Hd) as [epsilon Hh].
    rewrite Hh. simpl.
    destruct (significant _ _ epsilon).
    + right. exists i. repeat split; auto; lia.
    + destruct IH as [IH|(j & Hin & H0 & H1 & IH)]; auto.
      right. exists j. auto.
Qed.

Lemma update_statistics_consistent v a :
  consistent a ->
  exists total' variance',
    update_statistics v a (width a + 1) = Ok (total', variance')
    /\ total' == Py.sum (window a ++ [v])
    /\ variance' == squared_deviations (window a ++ [v]).
Proof.
  intros (Hwid & Htot & Hvar). unfold update_statistics. rewrite Hwid.
  destruct (window a) as [|x xs] eqn:Ew.
  - simpl. exists v, 0. repeat split.
    + unfold Py.sum. simpl. ring.
    + symmetry. apply squared_deviations_single.
  - set (n := List.length (x :: xs)).
    assert (Hn : (0 < n)%nat) by (unfold n; simpl; lia).
    destruct (Z.of_nat n + 1 =? 1)%Z eqn:E; [apply Z.eqb_eq in E; lia|].
    unfold Py.div.
    rewrite (inject_Z_nonzero (z := Z.of_nat n + 1 - 1)) by lia.
    cbn [rbind].
    rewrite (inject_Z_nonzero (z := Z.of_nat n + 1)) by lia.
    cbn [rbind]. eexists. eexists. split; [reflexivity|]. split.
    + rewrite Htot, sum_app, (sum_cons v []), sum_nil. ring.
    + replace (Z.of_nat n + 1 - 1)%Z with (Z.of_nat n) by lia.
      replace (Z.of_nat n + 1)%Z with (Z.of_nat (S n)) by lia.
      apply (@welford_step (x :: xs) v (total a) (variance a));
        [discriminate | exact Htot | exact Hvar].
Qed.

(** One [add_element] on a consistent detector. *)
Lemma add_element_step :
  forall (v : Q) (a : ADWIN),
    consistent a -> ~ delta a == 0 ->
    exists flag a',
      add_element v a = Ok (flag, a')
      /\ consistent a'
      /\ delta a' = delta a
      /\ drift_detected a' = flag
      /\ (flag = false ->
          window a' = window a ++ [v] /\ drift_count a' = drift_count a)
      /\ (flag = true ->
          exists i, (5 <= i)%nat /\ (5 <= List.length (window a'))%nat
                    /\ window a' = skipn i (window a ++ [v])
                    /\ drift_count a' = S (drift_count a)).
Proof.
  intros v a Hcons Hd.
  destruct (update_statistics_consistent v Hcons)
    as (total' & variance' & Hstat & Htot' & Hvar').
  destruct Hcons as (Hwid & _ & _).
  unfold add_element. rewrite Hstat. simpl.
  set (a1 := {| delta := delta a; window := window a ++ [v];
                total := total'; variance := variance';
                width := (width a + 1)%Z; drift_detected := false;
                drift_count := drift_count a |}).
  assert (Hw1 : width a1 = Z.of_nat (List.length (window a1))).
  { simpl. rewrite length_app. simpl. lia. }
  assert (Hc1 : consistent a1) by (unfold consistent; auto).
  destruct (1 <? width a + 1)%Z.
  - unfold _detect_change.
    destruct (@scan_splits_outcome a1 (window a1)
                (seq 1 (List.length (window a1) - 1)) Hd)
      as [Hs|(i & Hin & H0 & H1 & Hs)]; rewrite Hs; simpl.
    + exists false, a1. repeat split; auto; try apply Hc1; discriminate.
    + apply in_seq in Hin.
      assert (Hlt : (i < List.length (window a1))%nat) by lia.
      pose proof (@cut_consistent a1 i Hw1 Htot' Hlt) as Hcut.
      destruct (@drop_oldest_spec i a1) as (Hdw & _ & _ & Hdd & Hdc);
        [lia|].
      destruct (recalculate_variance_frame (drop_oldest i a1))
        as (Hrw & _ & _ & Hrd & Hrc & _).
      eexists. eexists. split; [reflexivity|].
      repeat split; simpl; try apply Hcut.
      * now rewrite Hrd, Hdd.
      * discriminate.
      * discriminate.
      * intros _. exists i. rewrite Hrw, Hdw, Hrc, Hdc.
        rewrite length_skipn. repeat split; auto.
  - exists false, a1. repeat split; auto; try apply Hc1; discriminate.
Qed.


(** X1.  Below ten readings [add_element] cannot report drift, whatever
    the confidence parameter: the reading is appended and the call
    returns [False]. *)
Theorem add_element_floor :
  forall (v : Q) (a : ADWIN),
    consistent a ->
    (List.length (window a) < 9)%nat ->
    exists a',
      add_element v a = Ok (false, a')
      /\ window a' = window a ++ [v]
      /\ drift_count a' = drift_count a
      /\ drift_detected a' = false
      /\ consistent a'.
Proof.
  intros v a Hcons Hlen.
  destruct (update_statistics_consistent v Hcons)
    as (total' & variance' & Hstat & Htot' & Hvar').
  destruct Hcons as (Hwid & _ & _).
  unfold add_element. rewrite Hstat. simpl.
  set (a1 := {| delta := delta a; window := window a ++ [v];
                total := total'; variance := variance';
                width := (width a + 1)%Z; drift_detected := false;
                drift_count := drift_count a |}).
  assert (Hc1 : consistent a1).
  { unfold consistent. simpl. rewrite length_app. simpl.
    repeat split; auto. lia. }
  destruct (1 <? width a + 1)%Z.
  - unfold _detect_change. rewrite scan_splits_short.
    + simpl. exists a1. auto.
    + simpl. rewrite length_app. simpl. lia.
  - exists a1. auto.
Qed.

Lemma init_consistent d : consistent (Adwin.init d).
Proof.
  unfold consistent. simpl. repeat split; reflexivity.
Qed.

Lemma feed_consistent_from values : forall a,
  consistent a -> ~ delta a == 0 ->
  exists flags a',
    feed values a = Ok (flags, a')
    /\ List.length flags = List.length values
    /\ consistent a'
    /\ delta a' = delta a
    /\ drift_count a' = (drift_count a + count_true flags)%nat
    /\ exists k, window a' = skipn k (window a ++ values).
Proof.
  induction values as [|v values IH]; intros a Hcons Hd; simpl.
  - exists [], a. split; [reflexivity|]. split; [reflexivity|].
    split; [exact Hcons|]. split; [reflexivity|].
    split; [unfold count_true; simpl; lia|].
    exists 0%nat. simpl. now rewrite app_nil_r.
  - destruct (@add_element_step v a Hcons Hd)
      as (flag & a1 & Hadd & Hc1 & Hd1 & _ & Hno & Hyes).
    rewrite Hadd. simpl.
    assert (Hd1' : ~ delta a1 == 0) by now rewrite Hd1.
    destruct (IH a1 Hc1 Hd1')
      as (flags & a2 & Hfeed & Hlen & Hc2 & Hd2 & Hcount & k & Hk).
    rewrite Hfeed. simpl. exists (flag :: flags), a2.
    split; [reflexivity|]. split; [simpl; lia|]. split; [exact Hc2|].
    split; [congruence|].
    destruct flag.
    + destruct (Hyes eq_refl) as (i & _ & Hkeep & Hw & Hcnt).
      split; [unfold count_true in *; simpl; lia|].
      exists (k + i)%nat. rewrite Hk, Hw.
      assert (Hi : (i - List.length (window a ++ [v]) = 0)%nat).
      { rewrite Hw, length_skipn in Hkeep. lia. }
      rewrite <- skipn_skipn.
      replace (window a ++ v :: values)
        with ((window a ++ [v]) ++ values)
        by (rewrite <- app_assoc; reflexivity).
      rewrite (skipn_app i (window a ++ [v]) values), Hi. reflexivity.
    + destruct (Hno eq_refl) as (Hw & Hcnt).
      split; [unfold count_true in *; simpl; lia|].
      exists k. rewrite Hk, Hw, <- app_assoc. reflexivity.
Qed.


End Facts.

(** X4.  On a consistent detector [get_mean] is the mean of the window
    (0 when it is empty) and [get_variance] its unbiased sample variance
    (0 below two readings). *)
Theorem getters_report_window :
  forall (a : ADWIN),
    consistent a ->
    let n := List.length (window a) in
    get_width a = Z.of_nat n
    /\ (n = 0%nat -> get_mean a == 0)
    /\ ((0 < n)%nat -> get_mean a == np_mean (window a))
    /\ ((n < 2)%nat -> get_variance a == 0)
    /\ ((2 <= n)%nat ->
        get_variance a == squared_deviations (window a) / of_nat (n - 1)).
Proof.
  intros a (Hwid & Htot & Hvar) n. unfold get_width, get_mean, get_variance.
  rewrite Hwid. fold n. split; [reflexivity|]. split; [|split; [|split]].
  - intros ->. reflexivity.
  - intros Hn. destruct (0 <? Z.of_nat n)%Z eqn:E;
      [|apply Z.ltb_ge in E; lia].
    unfold np_mean. fold n. rewrite Htot. reflexivity.
  - intros Hn. destruct (Z.of_nat n <? 2)%Z eqn:E;
      [reflexivity | apply Z.ltb_ge in E; lia].
  - intros Hn. destruct (Z.of_nat n <? 2)%Z eqn:E;
      [apply Z.ltb_lt in E; lia|].
    rewrite Hvar. unfold of_nat.
    replace (Z.of_nat (n - 1)) with (Z.of_nat n - 1)%Z by lia.
    reflexivity.
Qed.

Lemma detector_123_consistent : consistent Cases.detector_123.
Proof.
  unfold consistent. split; [reflexivity|]. split; vm_compute; reflexivity.
Defined.

Lemma getters_report_window_witness :
  consistent Cases.detector_123
  /\ get_mean Cases.detector_123 == 2
  /\ get_variance Cases.detector_123 == 1.
Proof.
  split; [exact detector_123_consistent|].
  destruct (@getters_report_window Cases.detector_123
              detector_123_consistent) as (_ & _ & Hm & _ & Hv).
  split.
  - rewrite Hm by (simpl; lia). vm_compute. reflexivity.
  - rewrite Hv by (simpl; lia). vm_compute. reflexivity.
Defined.

Lemma add_element_floor_witness :
  consistent Cases.detector_123
  /\ (List.length (window Cases.detector_123) < 9)%nat
  /\ exists a',
       add_element (NP := Examples.approx_numpy) 100 Cases.detector_123
       = Ok (false, a')
       /\ window a' = [1; 2; 3; 100].
Proof.
  split; [exact detector_123_consistent|].
  assert (Hlen : (List.length (window Cases.detector_123) < 9)%nat)
    by (simpl; lia).
  split; [exact Hlen|].
  destruct (@add_element_floor Examples.approx_numpy 100 Cases.detector_123
              detector_123_consistent Hlen) as (a' & Hadd & Hw & _).
  exists a'. split; [exact Hadd | exact Hw].
Defined.



End AdwinInvariants.

(** ** More on the drift engine *)

Module DriftMore.
Import Adwin Drift DriftFacts.

(** What [xs[-limit:]] is, by the sign of the limit. *)
Lemma slice_last {A} (limit : Z) (xs : list A) :
  ((0 < limit)%Z ->
     slice_from (- limit) xs
     = skipn (List.length xs - Z.to_nat limit) xs)
  /\ (limit = 0%Z -> slice_from (- limit) xs = xs)
  /\ ((limit < 0)%Z -> slice_from (- limit) xs = skipn (Z.to_nat (- limit)) xs).
Proof.
  unfold slice_from. repeat split.
  - intros Hpos. destruct (- limit <? 0)%Z eqn:E;
      [|apply Z.ltb_ge in E; lia].
    f_equal. lia.
  - intros ->. simpl. rewrite Z.min_l by lia. reflexivity.
  - intros Hneg. destruct (- limit <? 0)%Z eqn:E;
      [apply Z.ltb_lt in E; lia|].
    destruct (Z.min_spec (- limit) (Z.of_nat (List.length xs)))
      as [[_ ->]|[Hle ->]]; [reflexivity|].
    rewrite Nat2Z.id, skipn_all.
    symmetry. apply skipn_all2. lia.
Qed.

(** X5.  [get_drift_history] and [get_retrain_history] return the last
    [limit] entries for a positive limit (all of them when there are
    fewer); a limit of 0 returns the whole history, and a negative limit
    drops that many of the oldest entries. *)
Theorem history_slices :
  forall (limit : Z) (d : DriftDetector) (e : Retrain.RetrainEngine),
    ((0 < limit)%Z ->
       List.length (get_drift_history limit d)
       = Nat.min (Z.to_nat limit) (List.length (drift_history d))
       /\ (exists older,
             drift_history d = older ++ get_drift_history limit d)
       /\ List.length (Retrain.get_retrain_history limit e)
          = Nat.min (Z.to_nat limit) (List.length (Retrain.retrain_history e))
       /\ exists older,
            Retrain.retrain_history e
            = older ++ Retrain.get_retrain_history limit e)
    /\ get_drift_history 0 d = drift_history d
    /\ Retrain.get_retrain_history 0 e = Retrain.retrain_history e
    /\ ((limit < 0)%Z ->
          get_drift_history limit d
          = skipn (Z.to_nat (- limit)) (drift_history d)
          /\ Retrain.get_retrain_history limit e
             = skipn (Z.to_nat (- limit)) (Retrain.retrain_history e)).
Proof.
  intros limit d e. unfold get_drift_history, Retrain.get_retrain_history.
  split; [|split; [|split]].
  - intros Hpos.
    rewrite (proj1 (slice_last limit (drift_history d)) Hpos).
    rewrite (proj1 (slice_last limit (Retrain.retrain_history e)) Hpos).
    rewrite !length_skipn. repeat split; try lia.
    + eexists. symmetry. apply firstn_skipn.
    + eexists. symmetry. apply firstn_skipn.
  - exact (proj1 (proj2 (slice_last 0 (drift_history d))) eq_refl).
  - exact (proj1 (proj2 (slice_last 0 (Retrain.retrain_history e))) eq_refl).
  - intros Hneg.
    rewrite (proj2 (proj2 (slice_last limit (drift_history d))) Hneg).
    rewrite (proj2 (proj2 (slice_last limit (Retrain.retrain_history e)))
               Hneg).
    auto.
Qed.

Lemma py_ge_true a b : Py.ge a b = true <-> b <= a.
Proof. unfold Py.ge. apply Qle_bool_iff. Qed.

Lemma py_ge_false a b : Py.ge a b = false <-> a < b.
Proof.
  unfold Py.ge. split.
  - intros H. apply Qnot_le_lt. intros Hle.
    apply Qle_bool_iff in Hle. congruence.
  - intros H. destruct (Qle_bool b a) eqn:E; auto.
    apply Qle_bool_iff in E. exfalso. now apply (Qlt_not_le a b).
Qed.

(** X6.  The severity is decided by the bands 70, 40 and 20, and it
    never goes down when the score goes up. *)
Theorem severity_bands :
  forall (s1 s2 : Q),
    (_classify_severity s1 = "high" <-> 70 <= s1)
    /\ (_classify_severity s1 = "moderate" <-> 40 <= s1 /\ s1 < 70)
    /\ (_classify_severity s1 = "low" <-> 20 <= s1 /\ s1 < 40)
    /\ (_classify_severity s1 = "none" <-> s1 < 20)
    /\ (s1 <= s2 ->
        (severity_rank (_classify_severity s1)
         <= severity_rank (_classify_severity s2))%nat).
Proof.
  intros s1 s2.
  assert (Hcases : forall s,
             (70 <= s /\ _classify_severity s = "high")
             \/ (40 <= s /\ s < 70 /\ _classify_severity s = "moderate")
             \/ (20 <= s /\ s < 40 /\ _classify_severity s = "low")
             \/ (s < 20 /\ _classify_severity s = "none")).
  { intros s. unfold _classify_severity.
    destruct (Py.ge s 70) eqn:E70.
    { apply py_ge_true in E70. auto. }
    apply py_ge_false in E70.
    destruct (Py.ge s 40) eqn:E40.
    { apply py_ge_true in E40. auto. }
    apply py_ge_false in E40.
    destruct (Py.ge s 20) eqn:E20.
    { apply py_ge_true in E20. auto 6. }
    apply py_ge_false in E20. auto 7. }
  repeat split.
  - intros H. destruct (Hcases s1) as [[? _]|[(_ & _ & E)|[(_ & _ & E)|(_ & E)]]];
      auto; congruence.
  - intros H. destruct (Hcases s1) as [[_ E]|[(? & ? & E)|[(? & ? & E)|(? & E)]]];
      auto; lra.
  - destruct (Hcases s1) as [[_ E]|[(? & ? & E)|[(? & ? & E)|(? & E)]]];
      auto; congruence.
  - destruct (Hcases s1) as [[_ E]|[(? & ? & E)|[(? & ? & E)|(? & E)]]];
      auto; congruence.
  - intros [? ?].
    destruct (Hcases s1) as [[? E]|[(? & ? & E)|[(? & ? & E)|(? & E)]]];
      auto; lra.
  - destruct (Hcases s1) as [[_ E]|[(? & ? & E)|[(? & ? & E)|(? & E)]]];
      auto; congruence.
  - destruct (Hcases s1) as [[_ E]|[(? & ? & E)|[(? & ? & E)|(? & E)]]];
      auto; congruence.
  - intros [? ?].
    destruct (Hcases s1) as [[? E]|[(? & ? & E)|[(? & ? & E)|(? & E)]]];
      auto; lra.
  - destruct (Hcases s1) as [[_ E]|[(? & ? & E)|[(? & ? & E)|(? & E)]]];
      auto; congruence.
  - intros ?.
    destruct (Hcases s1) as [[? E]|[(? & ? & E)|[(? & ? & E)|(? & E)]]];
      auto; lra.
  - intros Hle.
    destruct (Hcases s1) as [[? E1]|[(? & ? & E1)|[(? & ? & E1)|(? & E1)]]];
      destruct (Hcases s2) as [[? E2]|[(? & ? & E2)|[(? & ? & E2)|(? & E2)]]];
      rewrite E1, E2; unfold severity_rank; simpl;
      first [lia | exfalso; lra].
Qed.

Lemma replace_length {A} i (x : A) xs :
  List.length (Py.replace i x xs) = List.length xs.
Proof.
  revert i. induction xs as [|y xs IH]; intros [|i]; simpl; auto.
Qed.

Lemma replace_Forall {A} (P : A -> Prop) i x xs :
  P x -> Forall P xs -> Forall P (Py.replace i x xs).
Proof.
  intros Hx. revert i. induction xs as [|y xs IH]; intros [|i] Hall; simpl;
    auto; inversion Hall; subst; constructor; auto.
Qed.

Lemma index_Forall {A} (P : A -> Prop) xs i x :
  Forall P xs -> Py.index xs i = Ok x -> P x.
Proof.
  unfold Py.index. intros Hall.
  destruct (nth_error xs i) as [y|] eqn:E; intros [= <-].
  rewrite Forall_forall in Hall. apply Hall.
  eapply nth_error_In; eauto.
Qed.

Lemma index_defined {A} (xs : list A) i :
  (i < List.length xs)%nat -> exists x, Py.index xs i = Ok x.
Proof.
  intros Hlt. unfold Py.index.
  destruct (nth_error xs i) as [x|] eqn:E; eauto.
  apply nth_error_None in E. lia.
Qed.

Lemma index_out_of_range {A} (xs : list A) i :
  (List.length xs <= i)%nat -> Py.index xs i = Raise IndexError.
Proof.
  intros Hle. unfold Py.index.
  apply nth_error_None in Hle. now rewrite Hle.
Qed.

Section Facts.
Context {NP : Numpy} {ST : StatTests}.

Lemma add_element_healthy v a :
  healthy a -> exists flag a', add_element v a = Ok (flag, a') /\ healthy a'.
Proof.
  intros [Hc Hd].
  destruct (@AdwinInvariants.add_element_step NP v a Hc Hd)
    as (flag & a' & Hadd & Hc' & Hd' & _).
  exists flag, a'. split; auto. split; auto. now rewrite Hd'.
Qed.

(** The detector loop of [add_sample]: it goes through when every
    feature has a detector and stops with [IndexError] otherwise. *)
Lemma feed_detectors_outcome features : forall i detectors,
  Forall healthy detectors ->
  ((i + List.length features <= List.length detectors)%nat ->
   exists detectors',
     feed_detectors i features detectors = Ok detectors'
     /\ Forall healthy detectors'
     /\ List.length detectors' = List.length detectors)
  /\ ((i <= List.length detectors < i + List.length features)%nat ->
      feed_detectors i features detectors = Raise IndexError).
Proof.
  induction features as [|f features IH]; intros i detectors Hall; simpl.
  - split; [eauto | lia].
  - split.
    + intros Hle.
      destruct (@index_defined _ detectors i) as [detector Hi]; [lia|].
      rewrite Hi. simpl.
      destruct (@add_element_healthy f detector) as (flag & det' & Hadd & Hh).
      { eapply index_Forall; eauto. }
      rewrite Hadd. simpl.
      destruct (IH (S i) (Py.replace i det' detectors)) as [Hok _].
      { now apply replace_Forall. }
      destruct Hok as (detectors' & Hfeed & Hall' & Hlen).
      { rewrite replace_length. lia. }
      exists detectors'. rewrite replace_length in Hlen. auto.
    + intros Hgt.
      destruct (Nat.lt_ge_cases i (List.length detectors)) as [Hlt|Hge].
      * destruct (@index_defined _ detectors i) as [detector Hi]; [lia|].
        rewrite Hi. simpl.
        destruct (@add_element_healthy f detector)
          as (flag & det' & Hadd & Hh).
        { eapply index_Forall; eauto. }
        rewrite Hadd. simpl.
        destruct (IH (S i) (Py.replace i det' detectors)) as [_ Hraise].
        { now apply replace_Forall. }
        apply Hraise. rewrite replace_length. lia.
      * now rewrite index_out_of_range.
Qed.

Lemma feed_last_outcome error detectors :
  Forall healthy detectors -> detectors <> [] ->
  exists detectors',
    feed_last error detectors = Ok detectors'
    /\ Forall healthy detectors'
    /\ List.length detectors' = List.length detectors.
Proof.
  intros Hall Hne. unfold feed_last.
  destruct (@index_defined _ detectors (List.length detectors - 1))
    as [detector Hi].
  { destruct detectors; [congruence | simpl; lia]. }
  rewrite Hi. simpl.
  destruct (@add_element_healthy error detector) as (flag & det' & Hadd & Hh).
  { eapply index_Forall; eauto. }
  rewrite Hadd. simpl. eexists. split; [reflexivity|].
  split; [now apply replace_Forall | apply replace_length].
Qed.

(** When [add_sample] returns and when it raises. *)
Lemma add_sample_guard :
  forall (features : list Q) (label prediction : option Q) (error : Q)
         (d : DriftDetector),
    Forall healthy (adwin_detectors d) ->
    adwin_detectors d <> [] ->
    ((List.length features <= List.length (adwin_detectors d))%nat ->
     exists d',
       add_sample features label prediction error d = Ok d'
       /\ Forall healthy (adwin_detectors d')
       /\ List.length (adwin_detectors d')
          = List.length (adwin_detectors d))
    /\ ((List.length (adwin_detectors d) < List.length features)%nat ->
        add_sample features label prediction error d = Raise IndexError).
Proof.
  intros features label prediction error d Hall Hne.
  destruct (@feed_detectors_outcome features 0 (adwin_detectors d) Hall)
    as [Hok Hraise].
  unfold add_sample. split.
  - intros Hle. destruct (Hok Hle) as (detectors1 & Hfeed & Hall1 & Hlen1).
    rewrite Hfeed. simpl.
    destruct (@feed_last_outcome error detectors1 Hall1)
      as (detectors2 & Hlast & Hall2 & Hlen2).
    { intros ->. destruct (adwin_detectors d); [congruence | discriminate]. }
    rewrite Hlast. simpl. eexists. split; [reflexivity|]. simpl.
    split; [exact Hall2 | congruence].
  - intros Hgt. rewrite Hraise by lia. reflexivity.
Qed.

(** X7.  [add_sample] on healthy detectors: with one detector or more
    and no more features than detectors the call returns, otherwise a
    sample with more features than detectors raises [IndexError]. *)
Theorem add_sample_raises_iff_too_wide :
  forall (features : list Q) (label prediction : option Q) (error : Q)
         (d : DriftDetector),
    Forall healthy (adwin_detectors d) ->
    adwin_detectors d <> [] ->
    ((List.length features <= List.length (adwin_detectors d))%nat ->
     exists d',
       add_sample features label prediction error d = Ok d'
       /\ Forall healthy (adwin_detectors d')
       /\ List.length (adwin_detectors d')
          = List.length (adwin_detectors d))
    /\ ((List.length (adwin_detectors d) < List.length features)%nat ->
        add_sample features label prediction error d = Raise IndexError).
Proof. exact (@add_sample_guard). Qed.

(** The windows after [add_sample]. *)
Lemma add_sample_shift :
  forall (features : list Q) (label prediction : option Q) (error : Q)
         (d d' : DriftDetector),
    add_sample features label prediction error d = Ok d' ->
    current_features d'
    = (if (window_size d <? S (List.length (current_features d)))%nat
       then tl (current_features d ++ [features])
       else current_features d ++ [features])
    /\ ((List.length (current_features d) <= window_size d)%nat ->
        (List.length (current_features d') <= window_size d')%nat)
    /\ ((List.length (current_labels d)
         <= List.length (current_features d))%nat ->
        (List.length (current_labels d')
         <= List.length (current_features d'))%nat)
    /\ ((List.length (current_predictions d)
         <= List.length (current_features d))%nat ->
        (List.length (current_predictions d')
         <= List.length (current_features d'))%nat)
    /\ window_size d' = window_size d
    /\ reference_features d' = reference_features d
    /\ reference_labels d' = reference_labels d
    /\ reference_predictions d' = reference_predictions d
    /\ drift_history d' = drift_history d.
Proof.
  intros features label prediction error d d'. unfold add_sample.
  destruct (feed_detectors 0 features (adwin_detectors d))
    as [detectors1|]; simpl; [|discriminate].
  destruct (feed_last error detectors1) as [detectors2|]; simpl;
    [|discriminate].
  intros [= <-]. simpl. rewrite length_app. simpl.
  replace (List.length (current_features d) + 1)%nat
    with (S (List.length (current_features d))) by lia.
  assert (Htl : forall (A : Type) (xs : list A),
             List.length (tl xs) = (List.length xs - 1)%nat).
  { intros A [|x xs]; simpl; lia. }
  assert (Hlab : (List.length
                    match label with
                    | Some l => current_labels d ++ [l]
                    | None => current_labels d
                    end <= S (List.length (current_labels d)))%nat).
  { destruct label; rewrite ?length_app; simpl; lia. }
  assert (Hpred : (List.length
                     match prediction with
                     | Some p => current_predictions d ++ [p]
                     | None => current_predictions d
                     end <= S (List.length (current_predictions d)))%nat).
  { destruct prediction; rewrite ?length_app; simpl; lia. }
  split; [reflexivity|].
  destruct (window_size d <? S (List.length (current_features d)))%nat
    eqn:E; unfold pop0; rewrite ?Htl, ?length_app; simpl.
  - apply Nat.ltb_lt in E. repeat split; auto; intros; lia.
  - apply Nat.ltb_ge in E. repeat split; auto; intros; lia.
Qed.

(** X8.  What a successful [add_sample] does to the windows: the sample
    goes last, the oldest entry leaves exactly when the capacity is
    exceeded, a window within its capacity stays within it, the label
    and prediction windows never outgrow the feature window, and
    reference and history are not touched. *)
Theorem add_sample_window :
  forall (features : list Q) (label prediction : option Q) (error : Q)
         (d d' : DriftDetector),
    add_sample features label prediction error d = Ok d' ->
    current_features d'
    = (if (window_size d <? S (List.length (current_features d)))%nat
       then tl (current_features d ++ [features])
       else current_features d ++ [features])
    /\ ((List.length (current_features d) <= window_size d)%nat ->
        (List.length (current_features d') <= window_size d')%nat)
    /\ ((List.length (current_labels d)
         <= List.length (current_features d))%nat ->
        (List.length (current_labels d')
         <= List.length (current_features d'))%nat)
    /\ ((List.length (current_predictions d)
         <= List.length (current_features d))%nat ->
        (List.length (current_predictions d')
         <= List.length (current_features d'))%nat)
    /\ window_size d' = window_size d
    /\ reference_features d' = reference_features d
    /\ reference_labels d' = reference_labels d
    /\ reference_predictions d' = reference_predictions d
    /\ drift_history d' = drift_history d.
Proof. exact (@add_sample_shift). Qed.

(** X9.  Every report of [detect_drift] has a score from 0 to 100; its
    severity is [insufficient_data] exactly when a reference is set and
    fewer than 30 samples are held, and the band of the score
    otherwise. *)
Theorem detect_drift_score_and_severity :
  forall (d d' : DriftDetector) (r : Report),
    detect_drift d = Ok (r, d') ->
    0 <= drift_score r <= 100
    /\ ((reference_features d <> None
         /\ (List.length (current_features d) < 30)%nat) ->
        severity r = "insufficient_data"
        /\ current_samples (details r)
           = Some (List.length (current_features d)))
    /\ (~ (reference_features d <> None
           /\ (List.length (current_features d) < 30)%nat) ->
        severity r = _classify_severity (drift_score r)).
Proof.
  intros d d' r Hrun.
  destruct (reference_features d) as [reference|] eqn:Href.
  - destruct (Nat.lt_ge_cases (List.length (current_features d)) 30)
      as [Hlt|Hge].
    + unfold detect_drift in Hrun. rewrite Href in Hrun.
      apply Nat.ltb_lt in Hlt. rewrite Hlt in Hrun.
      inversion Hrun; subst. simpl. apply Nat.ltb_lt in Hlt.
      split; [split; discriminate|]. split.
      * intros _. split; reflexivity.
      * intros H. exfalso. apply H. split; [discriminate | exact Hlt].
    + destruct (detect_drift_full _ Href Hge Hrun)
        as (acc & pred & concept & _ & _ & _ & Hscore & _ & Hsev & _).
      split; [rewrite Hscore; apply overall_range|]. split.
      * intros [_ Hlt]. lia.
      * intros _. exact Hsev.
  - unfold detect_drift in Hrun. rewrite Href in Hrun.
    inversion Hrun; subst. simpl.
    split; [split; discriminate|]. split.
    + intros [H _]. congruence.
    + intros _. reflexivity.
Qed.

(** X10.  [detect_drift] changes nothing but the history: a soft failure
    (no reference, or fewer than 30 samples) returns a zero report and
    leaves the detector as it was, history included; a full run appends
    its report to the history and leaves the rest alone. *)
Theorem detect_drift_effect :
  forall (d d' : DriftDetector) (r : Report),
    detect_drift d = Ok (r, d') ->
    ((reference_features d = None
      \/ (List.length (current_features d) < 30)%nat) ->
     d' = d /\ drift_score r = 0 /\ drift_type r = "none"
     /\ affected_features r = [] /\ recommended_action r = None)
    /\ ((reference_features d <> None
         /\ (30 <= List.length (current_features d))%nat) ->
        drift_history d' = drift_history d ++ [r]
        /\ recommended_action r
           = Some (_get_recommendation (drift_score r) (severity r)))
    /\ current_features d' = current_features d
    /\ current_labels d' = current_labels d
    /\ current_predictions d' = current_predictions d
    /\ adwin_detectors d' = adwin_detectors d
    /\ reference_features d' = reference_features d
    /\ reference_labels d' = reference_labels d
    /\ reference_predictions d' = reference_predictions d.
Proof.
  intros d d' r. unfold detect_drift.
  assert (Hnone : (None : option (list (list Q))) <> None -> False)
    by congruence.
  destruct (reference_features d) as [reference|] eqn:Href.
  - destruct (List.length (current_features d) <? 30)%nat eqn:Hlen.
    + intros [= <- <-]. simpl. rewrite Href.
      apply Nat.ltb_lt in Hlen. repeat split; auto.
      all: repeat match goal with
                  | H : _ /\ _ |- _ => destruct H
                  | H : _ \/ _ |- _ => destruct H
                  end; first [lia | congruence | discriminate].
    + apply Nat.ltb_ge in Hlen.
      destruct (feature_loop _ _ _ _ _) as [acc|]; simpl; [|discriminate].
      destruct (prediction_step d) as [pred|]; simpl; [|discriminate].
      destruct (concept_step d) as [concept|]; simpl; [|discriminate].
      intros [= <- <-]. simpl. rewrite Href. repeat split; auto.
      all: repeat match goal with
                  | H : _ /\ _ |- _ => destruct H
                  | H : _ \/ _ |- _ => destruct H
                  end; first [lia | congruence | discriminate].
  - intros [= <- <-]. simpl. rewrite Href. repeat split; auto.
    all: repeat match goal with
                | H : _ /\ _ |- _ => destruct H
                | H : _ \/ _ |- _ => destruct H
                end; first [lia | congruence | discriminate].
Qed.

(** X11.  After [reset] the windows are empty, every window detector is
    empty with its drift counter kept, reference and history are kept,
    and with a reference set the next [detect_drift] answers
    [insufficient_data] for 0 samples without touching the detector. *)
Theorem reset_then_detect :
  forall (d : DriftDetector),
    current_features (reset d) = []
    /\ current_labels (reset d) = []
    /\ current_predictions (reset d) = []
    /\ reference_features (reset d) = reference_features d
    /\ drift_history (reset d) = drift_history d
    /\ Forall (fun a => window a = [] /\ get_width a = 0%Z
                        /\ drift_detected a = false)
         (adwin_detectors (reset d))
    /\ List.map get_drift_count (adwin_detectors (reset d))
       = List.map get_drift_count (adwin_detectors d)
    /\ (reference_features d <> None ->
        exists r,
          detect_drift (reset d) = Ok (r, reset d)
          /\ severity r = "insufficient_data"
          /\ current_samples (details r) = Some 0%nat
          /\ drift_score r = 0).
Proof.
  intros d. unfold reset. simpl. repeat split; auto.
  - apply Forall_forall. intros a Hin. apply in_map_iff in Hin.
    destruct Hin as [a0 [<- _]]. simpl. auto.
  - rewrite map_map. reflexivity.
  - intros Href. unfold detect_drift. simpl.
    destruct (reference_features d) as [reference|]; [|congruence].
    simpl. eexists. split; [reflexivity|]. simpl. auto.
Qed.

Lemma tl_app_skipn {A} (l r : list A) :
  l <> [] -> tl l ++ r = skipn 1 (l ++ r).
Proof. destruct l; [congruence | reflexivity]. Qed.

Lemma init_detectors_healthy n :
  Forall healthy (adwin_detectors (Drift.init n))
  /\ List.length (adwin_detectors (Drift.init n)) = S n.
Proof.
  simpl. split.
  - apply Forall_forall. intros a Hin. apply in_map_iff in Hin.
    destruct Hin as [k [<- _]]. split.
    + apply AdwinInvariants.init_consistent.
    + simpl. discriminate.
  - rewrite length_map, length_seq. lia.
Qed.

Lemma add_samples_window rows : forall d,
  Forall healthy (adwin_detectors d) ->
  adwin_detectors d <> [] ->
  Forall (fun row => (List.length row <= List.length (adwin_detectors d))%nat)
    rows ->
  (List.length (current_features d) <= window_size d)%nat ->
  exists d',
    add_samples rows d = Ok d'
    /\ current_features d'
       = skipn (List.length (current_features d ++ rows) - window_size d)
           (current_features d ++ rows)
    /\ window_size d' = window_size d
    /\ Forall healthy (adwin_detectors d').
Proof.
  induction rows as [|row rows IH]; intros d Hall Hne Hrows Hlen; simpl.
  - exists d. rewrite app_nil_r.
    replace (List.length (current_features d) - window_size d)%nat
      with 0%nat by lia.
    auto.
  - inversion Hrows as [|? ? Hrow Hrest]; subst.
    destruct (@add_sample_guard row None None 0 d Hall Hne)
      as [Hok _].
    destruct (Hok Hrow) as (d1 & Hadd & Hall1 & Hlen1).
    rewrite Hadd. simpl.
    destruct (@add_sample_shift row None None 0 d d1 Hadd)
      as (Hcur & Hbound & _ & _ & Hws & _).
    destruct (IH d1) as (d2 & Hrun & Hcur2 & Hws2 & Hall2); auto.
    { intros E. rewrite E in Hlen1. simpl in Hlen1.
      destruct (adwin_detectors d); [congruence | discriminate]. }
    { rewrite Hlen1. exact Hrest. }
    exists d2. split; [exact Hrun|]. split; [|split; [congruence | exact Hall2]].
    rewrite Hcur2, Hws, Hcur.
    replace (current_features d ++ row :: rows)
      with ((current_features d ++ [row]) ++ rows)
      by (rewrite <- app_assoc; reflexivity).
    destruct (window_size d <? S (List.length (current_features d)))%nat
      eqn:E.
    + apply Nat.ltb_lt in E.
      assert (Hfull : List.length (current_features d) = window_size d)
        by lia.
      rewrite tl_app_skipn by (destruct (current_features d); discriminate).
      rewrite skipn_skipn. f_equal.
      rewrite length_skipn, !length_app. simpl. lia.
    + apply Nat.ltb_ge in E. reflexivity.
Qed.

(** X12.  A fresh engine for [n] features takes any batch of samples
    with at most [n + 1] values each without raising, and ends up
    holding the last 100 of them in order. *)
Theorem ingest_keeps_last_window :
  forall (n : nat) (rows : list (list Q)),
    Forall (fun row => (List.length row <= S n)%nat) rows ->
    exists d,
      add_samples rows (Drift.init n) = Ok d
      /\ current_features d = skipn (List.length rows - 100) rows
      /\ (List.length (current_features d) <= 100)%nat.
Proof.
  intros n rows Hrows.
  destruct (init_detectors_healthy n) as [Hall Hlen].
  destruct (@add_samples_window rows (Drift.init n)) as (d & Hrun & Hcur & _).
  - exact Hall.
  - intros E. rewrite E in Hlen. discriminate.
  - rewrite Hlen. exact Hrows.
  - simpl. lia.
  - exists d. split; [exact Hrun|]. simpl in Hcur. rewrite Hcur.
    split; [reflexivity|]. rewrite length_skipn. lia.
Qed.

End Facts.

Lemma history_slices_witness :
  get_drift_history 2 Cases.detector_three_reports
  = [Cases.short_report 2; Cases.short_report 3]
  /\ get_drift_history 0 Cases.detector_three_reports
     = drift_history Cases.detector_three_reports
  /\ get_drift_history (-1) Cases.detector_three_reports
     = [Cases.short_report 2; Cases.short_report 3].
Proof.
  destruct (history_slices 2 Cases.detector_three_reports
              Examples.fresh_engine) as (Hpos & _).
  destruct (history_slices (-1) Cases.detector_three_reports
              Examples.fresh_engine) as (_ & Hzero & _ & Hneg).
  split; [reflexivity|]. split; [exact Hzero|].
  rewrite (proj1 (Hneg eq_refl)). reflexivity.
Defined.

Lemma severity_bands_witness :
  70 <= 85 /\ _classify_severity 85 = "high"
  /\ (severity_rank (_classify_severity 25)
      <= severity_rank (_classify_severity 85))%nat.
Proof.
  destruct (severity_bands 85 25) as (Hhigh & _).
  destruct (severity_bands 25 85) as (_ & _ & _ & _ & Hmono).
  assert (H : 70 <= 85) by (vm_compute; discriminate).
  split; [exact H|]. split; [exact (proj2 Hhigh H)|].
  apply Hmono. vm_compute. discriminate.
Defined.

Lemma three_reports_healthy :
  Forall healthy (adwin_detectors Cases.detector_three_reports).
Proof. exact (proj1 (init_detectors_healthy 2)). Defined.

Lemma add_sample_raises_iff_too_wide_witness :
  Forall healthy (adwin_detectors Cases.detector_three_reports)
  /\ adwin_detectors Cases.detector_three_reports <> []
  /\ add_sample (NP := Examples.approx_numpy) [1; 2; 3; 4] None None 0
       Cases.detector_three_reports
     = Raise IndexError
  /\ exists d',
       add_sample (NP := Examples.approx_numpy) [1; 2] None None 0
         Cases.detector_three_reports = Ok d'.
Proof.
  assert (Hne : adwin_detectors Cases.detector_three_reports <> [])
    by discriminate.
  split; [exact three_reports_healthy|]. split; [exact Hne|].
  split.
  - apply (@add_sample_raises_iff_too_wide Examples.approx_numpy
             [1; 2; 3; 4] None None 0 Cases.detector_three_reports
             three_reports_healthy Hne).
    simpl. lia.
  - destruct (proj1 (@add_sample_raises_iff_too_wide Examples.approx_numpy
                       [1; 2] None None 0 Cases.detector_three_reports
                       three_reports_healthy Hne))
      as (d' & Hadd & _); [simpl; lia|].
    exists d'. exact Hadd.
Defined.

Lemma add_sample_window_witness :
  exists d',
    add_sample (NP := Examples.approx_numpy) [3; 4] (Some 1) None 0
      Cases.detector_three_reports = Ok d'
    /\ current_features d' = [[1; 2]; [3; 4]]
    /\ drift_history d' = drift_history Cases.detector_three_reports.
Proof.
  destruct (add_sample (NP := Examples.approx_numpy) [3; 4] (Some 1) None 0
              Cases.detector_three_reports) as [d'|] eqn:E;
    [|vm_compute in E; discriminate].
  exists d'. split; [reflexivity|].
  destruct (@add_sample_window Examples.approx_numpy [3; 4] (Some 1) None 0
              Cases.detector_three_reports d' E)
    as (Hcur & _ & _ & _ & _ & _ & _ & _ & Hhist).
  split; [rewrite Hcur; reflexivity | exact Hhist].
Defined.

Lemma detect_drift_score_and_severity_witness :
  exists r d',
    detect_drift (ST := Examples.identical_sample_tests)
      Cases.detector_three_reports = Ok (r, d')
    /\ 0 <= drift_score r <= 100
    /\ severity r = "insufficient_data".
Proof.
  destruct (detect_drift (ST := Examples.identical_sample_tests)
              Cases.detector_three_reports) as [[r d']|] eqn:E;
    [|vm_compute in E; discriminate].
  exists r, d'. split; [reflexivity|].
  destruct (@detect_drift_score_and_severity
              Examples.identical_sample_tests
              Cases.detector_three_reports d' r E) as (Hrange & Hshort & _).
  split; [exact Hrange|]. apply Hshort.
  split; [discriminate | simpl; lia].
Defined.

Lemma detect_drift_effect_witness :
  exists r d',
    detect_drift (ST := Examples.identical_sample_tests)
      Cases.detector_three_reports = Ok (r, d')
    /\ d' = Cases.detector_three_reports.
Proof.
  destruct (detect_drift (ST := Examples.identical_sample_tests)
              Cases.detector_three_reports) as [[r d']|] eqn:E;
    [|vm_compute in E; discriminate].
  exists r, d'. split; [reflexivity|].
  destruct (@detect_drift_effect Examples.identical_sample_tests
              Cases.detector_three_reports d' r E) as (Hsoft & _).
  apply Hsoft. right. simpl. lia.
Defined.

Lemma reset_then_detect_witness :
  reference_features Cases.detector_three_reports <> None
  /\ exists r,
       detect_drift (ST := Examples.identical_sample_tests)
         (reset Cases.detector_three_reports)
       = Ok (r, reset Cases.detector_three_reports)
       /\ severity r = "insufficient_data".
Proof.
  assert (H : reference_features Cases.detector_three_reports <> None)
    by discriminate.
  split; [exact H|].
  destruct (@reset_then_detect Examples.identical_sample_tests
              Cases.detector_three_reports)
    as (_ & _ & _ & _ & _ & _ & _ & Hdetect).
  destruct (Hdetect H) as (r & Hrun & Hsev & _).
  exists r. auto.
Defined.

Lemma ingest_keeps_last_window_witness :
  Forall (fun row => (List.length row <= 3)%nat) Examples.jump_rows
  /\ exists d,
       add_samples (NP := Examples.approx_numpy) Examples.jump_rows
         (Drift.init 2) = Ok d
       /\ current_features d = Examples.jump_rows.
Proof.
  assert (H : Forall (fun row => (List.length row <= 3)%nat)
                Examples.jump_rows).
  { apply Forall_forall. intros row Hin. unfold Examples.jump_rows in Hin.
    apply in_map_iff in Hin. destruct Hin as [k [<- _]]. simpl. lia. }
  split; [exact H|].
  destruct (@ingest_keeps_last_window Examples.approx_numpy 2
              Examples.jump_rows H) as (d & Hrun & Hcur & _).
  exists d. split; [exact Hrun|]. rewrite Hcur. reflexivity.
Defined.

End DriftMore.

(** ** More on the model registry *)

Module RegistryMore.
Import Registry DictFacts RegistryFacts ChampionFacts.

Lemma string_length_append a b :
  String.length (a ++ b)%string = (String.length a + String.length b)%nat.
Proof. induction a as [|c a IH]; simpl; auto. Qed.

Lemma string_append_inv_tail a b s :
  (a ++ s)%string = (b ++ s)%string -> a = b.
Proof.
  revert b. induction a as [|c a IH]; intros [|c' b] H; simpl in *; auto.
  - apply (f_equal String.length) in H. simpl in H.
    rewrite string_length_append in H. lia.
  - apply (f_equal String.length) in H. simpl in H.
    rewrite string_length_append in H. lia.
  - inversion H; subst. f_equal. auto.
Qed.

(** Two versions never share an artifact file. *)
Lemma model_path_injective v w : model_path v = model_path w -> v = w.
Proof.
  unfold model_path. intros H. simpl in H.
  inversion H as [H']. now apply string_append_inv_tail in H'.
Qed.

Section Facts.
Context {AR : Artifacts}.

(** X13.  A model that was registered loads back: the integrity check
    passes on the file just written, and the answer is what [pickle]
    reads from its own dump; the record carries the digest of that dump.
    If the file is then replaced by bytes with another digest, the load
    is refused. *)
Theorem register_then_load :
  forall (r : ModelRegistry) (model model' : Model) (metadata : ModelMetadata),
    pickle_load (pickle_dump model) = Ok model' ->
    let v := version metadata in
    let r1 := snd (register_model model metadata r) in
    load_model (Some v) r1
    = (Ok (Some model'), snd (log (info_model_loaded v) r1))
    /\ option_map checksum (fst (get_model_metadata v r1))
       = Some (sha256_hexdigest (pickle_dump model))
    /\ forall content,
         sha256_hexdigest content <> sha256_hexdigest (pickle_dump model) ->
         fst (load_model (Some v)
                (snd (set_files (set (model_path v) content) r1)))
         = Ok None.
Proof.
  intros r model model' metadata Hpickle v r1.
  set (stored := with_checksum (sha256_hexdigest (pickle_dump model)) metadata).
  assert (Hm : get v (models r1) = Some stored).
  { unfold r1. rewrite models_register. apply get_set_same. }
  assert (Hf : get (model_path v) (files r1) = Some (pickle_dump model)).
  { unfold r1. simpl. apply get_set_same. }
  split; [|split].
  - simpl. rewrite (load_version_registered _ _ Hm Hf).
    unfold stored at 1. simpl. now rewrite String.eqb_refl, Hpickle.
  - change (fst (get_model_metadata v r1)) with (get v (models r1)).
    now rewrite Hm.
  - intros content Hdiff. simpl.
    rewrite (@load_version_registered _ _ v stored content).
    + unfold stored. simpl.
      destruct (String.eqb _ _) eqn:E; [|reflexivity].
      apply String.eqb_eq in E. congruence.
    + exact Hm.
    + simpl. apply get_set_same.
Qed.

(** X14.  Calls on a version that is not registered: [promote_model],
    [set_champion], [rollback_to_version] and [delete_model] return
    [False] and leave table, files, metadata file and audit file as
    they were. *)
Theorem unknown_version_refused :
  forall (r : ModelRegistry) (v : string),
    get v (models r) = None ->
    let same (out : bool * ModelRegistry) :=
      fst out = false
      /\ models (snd out) = models r
      /\ files (snd out) = files r
      /\ metadata_file (snd out) = metadata_file r
      /\ audit_file (snd out) = audit_file r in
    same (promote_model v r)
    /\ same (set_champion v r)
    /\ same (rollback_to_version v r)
    /\ same (delete_model v r).
Proof.
  intros r v Hget same.
  assert (Hc : contains v (models r) = false).
  { unfold contains. now rewrite Hget. }
  unfold same. run. rewrite Hc, Hget. simpl. auto 20.
Qed.

(** X15.  The audit file only grows, by the entries of the call: one for
    a registration, a promotion, a champion switch or a deletion that
    went through, two for a rollback (the champion switch, then the
    rollback), none for a call that was refused; each entry names the
    version of the call. *)
Theorem audit_file_appended :
  forall (op : Operation) (r : ModelRegistry),
    let target :=
      match op with
      | Register _ metadata => version metadata
      | Promote v | SetChampion v | Rollback v | Delete v => v
      end in
    let actions :=
      match op with
      | Register _ _ => ["register"]
      | Promote v => if contains v (models r) then ["promote"] else []
      | SetChampion v =>
          if contains v (models r) then ["set_champion"] else []
      | Rollback v =>
          if contains v (models r) then ["set_champion"; "rollback"] else []
      | Delete v =>
          match get v (models r) with
          | Some metadata => if champion metadata then [] else ["delete"]
          | None => []
          end
      end in
    exists entries,
      audit_file (perform op r) = audit_file r ++ entries
      /\ List.map action entries = actions
      /\ Forall (fun entry => audit_version entry = target) entries.
Proof.
  intros op r. destruct op as [model metadata|v|v|v|v]; simpl.
  - eexists. split; [reflexivity|]. split; [reflexivity|].
    repeat constructor.
  - run. destruct (contains v (models r)); simpl.
    + eexists. split; [reflexivity|]. split; [reflexivity|].
      repeat constructor.
    + exists []. rewrite app_nil_r. auto.
  - run. destruct (contains v (models r)); simpl.
    + eexists. split; [reflexivity|]. split; [reflexivity|].
      repeat constructor.
    + exists []. rewrite app_nil_r. auto.
  - run. destruct (contains v (models r)) eqn:E; simpl.
    + rewrite ?E. simpl. rewrite <- app_assoc. simpl.
      eexists. split; [reflexivity|]. split; [reflexivity|].
      repeat constructor.
    + exists []. rewrite app_nil_r. auto.
  - run. destruct (get v (models r)) as [m|]; simpl.
    + destruct (champion m); simpl.
      * exists []. rewrite app_nil_r. auto.
      * eexists. split; [reflexivity|]. split; [reflexivity|].
        repeat constructor.
    + exists []. rewrite app_nil_r. auto.
Qed.

(** X16.  The table on disk follows the table in memory: if a restart
    would find the current table, it still does after any call, and
    after a call that went through the metadata file is the table. *)
Theorem restart_finds_table :
  forall (op : Operation) (r : ModelRegistry),
    models (reopen r) = models r ->
    models (reopen (perform op r)) = models (perform op r)
    /\ (models (perform op r) <> models r ->
        metadata_file (perform op r) = Some (models (perform op r))).
Proof.
  intros op r. unfold reopen, init. simpl.
  destruct op as [model metadata|v|v|v|v]; simpl.
  - intros _. auto.
  - run. destruct (contains v (models r)); simpl; auto.
    intros H. split; [exact H | congruence].
  - run. destruct (contains v (models r)); simpl; auto.
    intros H. split; [exact H | congruence].
  - run. destruct (contains v (models r)) eqn:E; simpl; rewrite ?E; simpl;
      auto.
    intros H. split; [exact H | congruence].
  - run. destruct (get v (models r)) as [m|]; simpl.
    + destruct (champion m); simpl; auto.
      intros H. split; [exact H | congruence].
    + intros H. split; [exact H | congruence].
Qed.

(** What [load_model] answers depends on the file and the record of the
    version only. *)
Lemma load_version_local v r r' :
  get (model_path v) (files r') = get (model_path v) (files r) ->
  get v (models r') = get v (models r) ->
  fst (load_version v r') = fst (load_version v r).
Proof.
  intros Hf Hm. run. rewrite Hf.
  destruct (get (model_path v) (files r)) as [content|]; simpl; auto.
  rewrite Hm.
  destruct (match get v (models r) with
            | Some metadata =>
                negb (String.eqb (checksum metadata) (sha256_hexdigest content))
            | None => false
            end); simpl; auto.
  destruct (pickle_load content); reflexivity.
Qed.

Lemma flagged_del_unflagged d v :
  wf d -> (forall m, get v d = Some m -> champion m = false) ->
  flagged (del v d) = flagged d.
Proof.
  unfold flagged, del. intros Hwf Hun.
  induction d as [|[k m] d IH]; simpl; auto.
  assert (Hwf' : wf d) by (unfold wf in *; simpl in Hwf; now inversion Hwf).
  destruct (String.eqb v k) eqn:E; simpl.
  - apply String.eqb_eq in E. subst k.
    assert (Hm : champion m = false).
    { apply Hun. simpl. now rewrite String.eqb_refl. }
    rewrite Hm. apply IH; auto.
    intros m' Hget. apply get_In in Hget. exfalso.
    unfold wf in Hwf. simpl in Hwf. inversion Hwf as [|? ? Hnin _]; subst.
    apply Hnin. change v with (fst (v, m')). now apply in_map.
  - assert (IH' : List.length
                    (filter champion
                       (values (filter (fun kv => negb (String.eqb v (fst kv))) d)))
                  = List.length (filter champion (values d))).
    { apply IH; auto. intros m' Hget. apply Hun. simpl. now rewrite E. }
    destruct (champion m); simpl; congruence.
Qed.

(** X17.  Deleting a registered version that is not champion touches
    that version only: its load now fails on the missing file, while
    every other version keeps its record, its file and the answer of
    its load, and the number of champions is the same. *)
Theorem delete_model_frame :
  forall (r : ModelRegistry) (v : string) (metadata : ModelMetadata),
    wf (models r) ->
    get v (models r) = Some metadata ->
    champion metadata = false ->
    let r' := snd (delete_model v r) in
    load_model (Some v) r'
    = (Ok None, snd (log (error_model_file_not_found (model_path v)) r'))
    /\ champions r' = champions r
    /\ forall w, w <> v ->
         get w (models r') = get w (models r)
         /\ get (model_path w) (files r') = get (model_path w) (files r)
         /\ fst (load_model (Some w) r') = fst (load_model (Some w) r).
Proof.
  intros r v metadata Hwf Hget Hflag r'.
  assert (Hm : models r' = del v (models r)).
  { unfold r'. rewrite models_delete, Hget, Hflag. reflexivity. }
  assert (Hf : files r' = del (model_path v) (files r)).
  { unfold r'. run. rewrite Hget, Hflag. reflexivity. }
  split; [|split].
  - simpl. apply load_version_missing. rewrite Hf. apply get_del_same.
  - unfold champions. rewrite Hm. apply flagged_del_unflagged; auto.
    intros m Hm'. congruence.
  - intros w Hne.
    assert (Hp : model_path w <> model_path v).
    { intros E. apply model_path_injective in E. contradiction. }
    assert (H1 : get w (models r') = get w (models r)).
    { rewrite Hm. now apply get_del_other. }
    assert (H2 : get (model_path w) (files r')
                 = get (model_path w) (files r)).
    { rewrite Hf. now apply get_del_other. }
    split; [exact H1|]. split; [exact H2|].
    simpl. now apply load_version_local.
Qed.

Lemma values_app {V} (d d' : dict V) : values (d ++ d') = values d ++ values d'.
Proof. unfold values. apply map_app. Qed.


(** X19.  [promote_model] on a registered version returns [True] and
    sets the [promoted] field of that record; no other record, no file
    and no champion flag changes. *)
Theorem promote_model_frame :
  forall (r : ModelRegistry) (v : string) (metadata : ModelMetadata),
    get v (models r) = Some metadata ->
    let r' := snd (promote_model v r) in
    fst (promote_model v r) = true
    /\ get v (models r') = Some (with_promoted true metadata)
    /\ (forall w, w <> v -> get w (models r') = get w (models r))
    /\ files r' = files r
    /\ champions r' = champions r
    /\ keys (models r') = keys (models r).
Proof.
  intros r v metadata Hget r'.
  assert (Hc : contains v (models r) = true).
  { unfold contains. now rewrite Hget. }
  assert (Hm : models r' = update v (with_promoted true) (models r)).
  { unfold r'. rewrite models_promote, Hc. reflexivity. }
  split; [run; now rewrite Hc|].
  split; [rewrite Hm, get_update_same, Hget; reflexivity|].
  split; [intros w Hne; rewrite Hm; now apply get_update_other|].
  split; [unfold r'; run; now rewrite Hc|].
  split; [unfold champions; rewrite Hm; now apply flagged_update_keep|].
  rewrite Hm. apply keys_update.
Qed.

Lemma get_map_values (f : ModelMetadata -> ModelMetadata) v d :
  get v (List.map (fun kv => (fst kv, f (snd kv))) d)
  = option_map f (get v d).
Proof.
  induction d as [|[k m] d IH]; simpl; auto.
  destruct (String.eqb v k); auto.
Qed.

(** The champion lookup after [set_champion] on a registered version. *)
Lemma crowned_lookup r v metadata :
  wf (models r) ->
  get v (models r) = Some metadata ->
  fst (get_champion_model (snd (set_champion v r)))
  = Some (with_champion true metadata).
Proof.
  intros Hwf Hget. set (r' := snd (set_champion v r)).
  assert (Hc : contains v (models r) = true).
  { unfold contains. now rewrite Hget. }
  assert (Hk : In v (keys (models r))) by now apply contains_true_iff.
  assert (Hm : models r'
               = update v (with_champion true) (clear_champions (models r))).
  { unfold r'. rewrite models_set_champion, Hc. reflexivity. }
  assert (Hwf' : wf (models r')).
  { rewrite Hm. apply wf_update. unfold wf.
    now rewrite keys_clear_champions. }
  assert (Hv : get v (models r') = Some (with_champion true metadata)).
  { rewrite Hm, get_update_same, clear_champions_map by assumption.
    rewrite get_map_values, Hget. reflexivity. }
  unfold get_champion_model, Py.bind, Py.gets. cbn [fst snd].
  destruct (find champion (values (models r'))) as [m|] eqn:Ef.
  - simpl. f_equal.
    destruct (find_some _ _ Ef) as [Hin Hflag].
    unfold values in Hin. apply in_map_iff in Hin.
    destruct Hin as [[k m'] [Heq Hin]]. simpl in Heq. subst m'.
    assert (Hkv : k = v).
    { rewrite Hm in Hin. apply (@crown_sole _ _ _ _ Hwf Hk Hin).
      exact Hflag. }
    subst k. apply (@In_get _ _ _ _ Hwf') in Hin. congruence.
  - exfalso.
    assert (Hin : In (with_champion true metadata) (values (models r'))).
    { apply get_In in Hv. unfold values.
      change (with_champion true metadata)
        with (snd (v, with_champion true metadata)).
      now apply in_map. }
    pose proof (find_none _ _ Ef _ Hin) as Hno. discriminate.
Qed.

(** X20.  After [set_champion] on a registered version the champion
    lookup answers with that record, flagged; it is the only flagged
    record, every other record is the one from before with the flag
    off, and no file is touched. *)
Theorem set_champion_then_lookup :
  forall (r : ModelRegistry) (v : string) (metadata : ModelMetadata),
    wf (models r) ->
    get v (models r) = Some metadata ->
    let r' := snd (set_champion v r) in
    fst (set_champion v r) = true
    /\ fst (get_champion_model r') = Some (with_champion true metadata)
    /\ get v (models r') = Some (with_champion true metadata)
    /\ champions r' = 1%nat
    /\ (forall w, w <> v ->
          get w (models r')
          = option_map (with_champion false) (get w (models r)))
    /\ files r' = files r.
Proof.
  intros r v metadata Hwf Hget r'.
  assert (Hc : contains v (models r) = true).
  { unfold contains. now rewrite Hget. }
  assert (Hk : In v (keys (models r))) by now apply contains_true_iff.
  assert (Hm : models r'
               = update v (with_champion true) (clear_champions (models r))).
  { unfold r'. rewrite models_set_champion, Hc. reflexivity. }
  assert (Hwf' : wf (models r')).
  { rewrite Hm. apply wf_update. unfold wf.
    now rewrite keys_clear_champions. }
  assert (Hv : get v (models r') = Some (with_champion true metadata)).
  { rewrite Hm, get_update_same, clear_champions_map by assumption.
    rewrite get_map_values, Hget. reflexivity. }
  split; [run; now rewrite Hc|]. split; [|split; [exact Hv|split; [|split]]].
  - now apply crowned_lookup.
  - unfold champions. rewrite Hm. now apply flagged_crown.
  - intros w Hne. rewrite Hm, get_update_other by assumption.
    rewrite clear_champions_map by assumption. apply get_map_values.
  - unfold r'. run. now rewrite Hc.
Qed.

End Facts.

Lemma string_compare_as_OT a b :
  String.compare a b = String_as_OT.compare a b.
Proof.
  revert b. induction a as [|c a IH]; intros [|c' b]; simpl; auto.
Qed.

(** "Not before" on strings is transitive. *)
Lemma ltb_false_trans a b c :
  String.ltb a b = false -> String.ltb b c = false -> String.ltb a c = false.
Proof.
  unfold String.ltb.
  rewrite (string_compare_as_OT a b), (string_compare_as_OT b c),
    (string_compare_as_OT a c).
  intros Hab Hbc.
  destruct (String_as_OT.compare_spec a c) as [?|Hac|?]; auto.
  exfalso.
  destruct (String_as_OT.compare_spec b c) as [Heq|Hlt|Hgt].
  - unfold String_as_OT.eq in Heq. subst c.
    unfold String_as_OT.lt in Hac. now rewrite Hac in Hab.
  - discriminate.
  - assert (Hlt' : String_as_OT.lt a b).
    { eapply (@StrictOrder_Transitive _ _ String_as_OT.lt_strorder); eauto. }
    unfold String_as_OT.lt in Hlt'. now rewrite Hlt' in Hab.
Qed.

Lemma ltb_irrefl a : String.ltb a a = false.
Proof.
  unfold String.ltb. rewrite string_compare_as_OT.
  destruct (String_as_OT.compare_spec a a) as [?|H|?]; auto.
  exfalso. now apply (@StrictOrder_Irreflexive _ _ String_as_OT.lt_strorder a).
Qed.

Lemma In_insert_desc x y l : In x (insert_desc y l) <-> x = y \/ In x l.
Proof.
  induction l as [|z l IH]; simpl.
  - intuition.
  - destruct (String.ltb _ _); simpl; rewrite ?IH; intuition.
Qed.

(** The head of the sorted items is one of them, and none is later. *)
Lemma sorted_desc_head items :
  items <> [] ->
  exists first rest,
    sorted_desc items = first :: rest
    /\ In first items
    /\ forall x, In x items ->
         String.ltb (created_at (snd first)) (created_at (snd x)) = false.
Proof.
  induction items as [|y items IH]; [congruence|]. intros _.
  destruct items as [|z items'].
  - simpl. exists y, []. repeat split; auto.
    intros x [<-|[]]. apply ltb_irrefl.
  - destruct IH as (h & t & Hs & Hin & Hmax); [discriminate|].
    change (sorted_desc (y :: z :: items'))
      with (insert_desc y (sorted_desc (z :: items'))).
    rewrite Hs. simpl.
    destruct (String.ltb (created_at (snd y)) (created_at (snd h))) eqn:E.
    + exists h, (insert_desc y t). split; [reflexivity|].
      split; [now right|].
      intros x [<-|Hx]; auto.
      unfold String.ltb in *. rewrite String.compare_antisym.
      destruct (String.compare (created_at (snd y)) (created_at (snd h)));
        try discriminate. reflexivity.
    + exists y, (h :: t). split; [reflexivity|]. split; [now left|].
      intros x [<-|Hx]; [apply ltb_irrefl|].
      eapply ltb_false_trans; eauto.
Qed.

(** X21.  The lookups on the table.  An empty table has neither a latest
    record nor a champion.  Otherwise [get_latest_model] returns a
    record of the table such that no record has a later [created_at],
    and [get_champion_model] returns the first flagged record or, when
    none is flagged, that latest record. *)
Theorem lookups_on_table :
  forall (r : ModelRegistry),
    (models r = [] ->
       fst (get_latest_model r) = None /\ fst (get_champion_model r) = None)
    /\ (models r <> [] ->
        exists latest,
          fst (get_latest_model r) = Some latest
          /\ In latest (fst (list_models r))
          /\ (forall m, In m (fst (list_models r)) ->
                String.ltb (created_at latest) (created_at m) = false)
          /\ (flagged_entry (models r) = None ->
              fst (get_champion_model r) = Some latest))
    /\ (forall k m, flagged_entry (models r) = Some (k, m) ->
          fst (get_champion_model r) = Some m).
Proof.
  intros r. split; [|split].
  - intros E. run. rewrite !E. simpl. rewrite ?E. auto.
  - intros Hne.
    destruct (sorted_desc_head Hne) as (first & rest & Hs & Hin & Hmax).
    exists (snd first).
    assert (Hl : fst (get_latest_model r) = Some (snd first)).
    { run. destruct (models r) as [|x l] eqn:E; [congruence|].
      now rewrite Hs. }
    split; [exact Hl|]. split; [|split].
    + change (fst (list_models r)) with (values (models r)).
      unfold values. now apply in_map.
    + intros m Hm. change (fst (list_models r)) with (values (models r)) in Hm.
      unfold values in Hm. apply in_map_iff in Hm.
      destruct Hm as [x [<- Hx]]. now apply Hmax.
    + intros Hnone.
      unfold get_champion_model, Py.bind, Py.gets. cbn [fst snd].
      rewrite RetrainFacts.find_flagged_entry, Hnone. simpl. exact Hl.
  - intros k m Hf.
    unfold get_champion_model, Py.bind, Py.gets. cbn [fst snd].
    rewrite RetrainFacts.find_flagged_entry, Hf. reflexivity.
Qed.

Lemma wf_registry_v1_v2 : wf (models Examples.registry_v1_v2).
Proof.
  unfold wf. vm_compute. repeat constructor; simpl; intuition discriminate.
Defined.

Lemma register_then_load_witness :
  pickle_load (Artifacts := Examples.plain_artifacts)
    (pickle_dump (Artifacts := Examples.plain_artifacts) Examples.artifact_a)
  = Ok Examples.artifact_a
  /\ fst (load_model (AR := Examples.plain_artifacts) (Some "v1")
            Examples.registry_v1)
     = Ok (Some Examples.artifact_a).
Proof.
  split; [reflexivity|].
  pose proof (proj1 (@register_then_load Examples.plain_artifacts
                       Examples.empty_registry Examples.artifact_a
                       Examples.artifact_a
                       (Examples.metadata_of "v1" "2024-01-01T00:00:00"
                          (90 # 100) false) eq_refl)) as H.
  cbv zeta in H. change (version _) with "v1" in H.
  unfold Examples.registry_v1. now rewrite H.
Defined.

Lemma unknown_version_refused_witness :
  get "v9" (models Examples.registry_v1_v2) = None
  /\ set_champion "v9" Examples.registry_v1_v2
     = (false,
        snd (log (error_model_version_not_found "v9")
               Examples.registry_v1_v2))
  /\ models (snd (delete_model "v9" Examples.registry_v1_v2))
     = models Examples.registry_v1_v2.
Proof.
  split; [reflexivity|].
  destruct (@unknown_version_refused Examples.registry_v1_v2 "v9" eq_refl)
    as (_ & _ & _ & Hdel).
  split; [reflexivity | exact (proj1 (proj2 Hdel))].
Defined.

Lemma restart_finds_table_witness :
  models (reopen Examples.registry_v1_v2) = models Examples.registry_v1_v2
  /\ models (reopen (perform (AR := Examples.plain_artifacts)
                       (SetChampion "v2") Examples.registry_v1_v2))
     = models (perform (AR := Examples.plain_artifacts)
                 (SetChampion "v2") Examples.registry_v1_v2).
Proof.
  split; [reflexivity|].
  exact (proj1 (@restart_finds_table Examples.plain_artifacts
                  (SetChampion "v2") Examples.registry_v1_v2 eq_refl)).
Defined.

Lemma delete_model_frame_witness :
  wf (models Examples.registry_v1_v2)
  /\ fst (load_model (AR := Examples.plain_artifacts) (Some "v2")
            (snd (delete_model "v2" Examples.registry_v1_v2)))
     = Ok None
  /\ fst (load_model (AR := Examples.plain_artifacts) (Some "v1")
            (snd (delete_model "v2" Examples.registry_v1_v2)))
     = fst (load_model (AR := Examples.plain_artifacts) (Some "v1")
              Examples.registry_v1_v2).
Proof.
  split; [exact wf_registry_v1_v2|].
  destruct (@delete_model_frame Examples.plain_artifacts
              Examples.registry_v1_v2 "v2"
              (with_checksum "b"
                 (Examples.metadata_of "v2" "2024-01-02T00:00:00"
                    (91 # 100) false))
              wf_registry_v1_v2 eq_refl eq_refl) as (Hgone & _ & Hother).
  split.
  - rewrite Hgone. reflexivity.
  - apply (Hother "v1"). discriminate.
Defined.


Lemma promote_model_frame_witness :
  fst (promote_model "v2" Examples.registry_v1_v2) = true
  /\ champions (snd (promote_model "v2" Examples.registry_v1_v2))
     = champions Examples.registry_v1_v2.
Proof.
  destruct (@promote_model_frame Examples.registry_v1_v2 "v2"
              (with_checksum "b"
                 (Examples.metadata_of "v2" "2024-01-02T00:00:00"
                    (91 # 100) false)) eq_refl)
    as (Hret & _ & _ & _ & Hch & _).
  split; [exact Hret | exact Hch].
Defined.

Lemma set_champion_then_lookup_witness :
  wf (models Examples.registry_v1_v2)
  /\ option_map version
       (fst (get_champion_model
               (snd (set_champion "v2" Examples.registry_v1_v2))))
     = Some "v2".
Proof.
  split; [exact wf_registry_v1_v2|].
  destruct (@set_champion_then_lookup Examples.registry_v1_v2 "v2"
              (with_checksum "b"
                 (Examples.metadata_of "v2" "2024-01-02T00:00:00"
                    (91 # 100) false))
              wf_registry_v1_v2 eq_refl) as (_ & Hlook & _).
  rewrite Hlook. reflexivity.
Defined.

Lemma lookups_on_table_witness :
  models Examples.registry_v1 <> []
  /\ flagged_entry (models Examples.registry_v1) = None
  /\ exists latest,
       fst (get_champion_model Examples.registry_v1) = Some latest
       /\ version latest = "v1".
Proof.
  assert (Hne : models Examples.registry_v1 <> []) by discriminate.
  split; [exact Hne|]. split; [reflexivity|].
  destruct (proj1 (proj2 (lookups_on_table Examples.registry_v1)) Hne)
    as (latest & Hl & Hin & _ & Hchamp).
  exists latest. split; [apply Hchamp; reflexivity|].
  vm_compute in Hin. destruct Hin as [<-|[]]. reflexivity.
Defined.

End RegistryMore.

(** ** Rollback *)

Module RollbackMore.
Import Registry DictFacts RegistryFacts ChampionFacts.

(** The champion lookup reads the table only. *)
Lemma get_champion_model_table r r' :
  models r = models r' ->
  fst (get_champion_model r) = fst (get_champion_model r').
Proof.
  intros H. run. rewrite H.
  destruct (find champion (values (models r'))); simpl; [reflexivity|].
  now rewrite H.
Qed.

(** X29.  [rollback_to_version] on a registered version of a
    well-formed table returns [True]; afterwards the champion lookup
    answers with that version's record, flagged, it is the only flagged
    record, the saved table is the one in memory, the files are as
    before and the last audit entry is the rollback with that record.
    On a version that is not registered it returns [False] and only
    writes to the log. *)
Theorem rollback_to_version_effect :
  forall (r : ModelRegistry) (v : string),
    wf (models r) ->
    let r' := snd (rollback_to_version v r) in
    match get v (models r) with
    | Some metadata =>
        fst (rollback_to_version v r) = true
        /\ fst (get_champion_model r') = Some (with_champion true metadata)
        /\ champions r' = 1%nat
        /\ metadata_file r' = Some (models r')
        /\ files r' = files r
        /\ exists before,
             audit_file r'
             = before
               ++ [{| action := "rollback"; audit_version := v;
                      audit_metadata :=
                        Some (with_champion true metadata) |}]
    | None =>
        fst (rollback_to_version v r) = false
        /\ models r' = models r /\ files r' = files r
        /\ metadata_file r' = metadata_file r
        /\ audit_file r' = audit_file r
        /\ logger r' = logger r ++ [error_cannot_rollback v]
    end.
Proof.
  intros r v Hwf r'.
  destruct (get v (models r)) as [metadata|] eqn:Hget.
  - assert (Hc : contains v (models r) = true).
    { unfold contains. now rewrite Hget. }
    assert (Hm : models r'
                 = update v (with_champion true)
                     (clear_champions (models r))).
    { unfold r'. rewrite models_rollback, models_set_champion, Hc.
      reflexivity. }
    assert (Hv : get v (models r') = Some (with_champion true metadata)).
    { rewrite Hm, get_update_same, clear_champions_map by assumption.
      rewrite RegistryMore.get_map_values, Hget. reflexivity. }
    split.
    { run. rewrite Hc. simpl. rewrite ?Hc. reflexivity. }
    split.
    { rewrite (@get_champion_model_table r' (snd (set_champion v r))).
      - now apply RegistryMore.crowned_lookup.
      - unfold r'. apply models_rollback. }
    split.
    { unfold champions. rewrite Hm.
      apply flagged_crown; [exact Hwf|]. now apply contains_true_iff. }
    assert (Hc' : contains v
                    (update v (with_champion true)
                       (clear_champions (models r))) = true).
    { unfold contains. rewrite <- Hm, Hv. reflexivity. }
    rewrite Hm in Hv.
    split; [|split].
    + unfold r'. run. rewrite Hc. simpl. rewrite ?Hc. reflexivity.
    + unfold r'. run. rewrite Hc. simpl. rewrite ?Hc. reflexivity.
    + unfold r'. run. rewrite Hc. simpl. rewrite ?Hc. simpl.
      rewrite Hv. eexists. reflexivity.
  - assert (Hc : contains v (models r) = false).
    { unfold contains. now rewrite Hget. }
    unfold r'. run. rewrite Hc. simpl. repeat split.
Qed.

(** Back to ["v1"] after ["v2"] took over. *)
Lemma rollback_to_version_effect_witness :
  fst (rollback_to_version "v1"
         (snd (set_champion "v2" Examples.registry_v1_v2))) = true
  /\ option_map version
       (fst (get_champion_model
               (snd (rollback_to_version "v1"
                       (snd (set_champion "v2"
                               Examples.registry_v1_v2))))))
     = Some "v1"
  /\ champions (snd (rollback_to_version "v1"
                       (snd (set_champion "v2" Examples.registry_v1_v2))))
     = 1%nat.
Proof.
  pose proof (@rollback_to_version_effect
                (snd (set_champion "v2" Examples.registry_v1_v2)) "v1")
    as H.
  assert (Hwf : wf (models (snd (set_champion "v2"
                                   Examples.registry_v1_v2)))).
  { unfold wf. vm_compute. repeat constructor; simpl; intuition discriminate. }
  specialize (H Hwf). cbv zeta in H.
  change (get "v1"
            (models (snd (set_champion "v2" Examples.registry_v1_v2))))
    with (Some (with_champion false
                  (with_champion true
                     (with_checksum "a"
                        (Examples.metadata_of "v1" "2024-01-01T00:00:00"
                           (90 # 100) false))))) in H.
  destruct H as (Hret & Hlook & Hone & _).
  split; [exact Hret|]. split; [now rewrite Hlook|exact Hone].
Defined.

End RollbackMore.

(* ------------------------------------------------------------------ *)
(** ** More on the retraining engine *)

Module RetrainMore.
Import Registry Retrain DictFacts RegistryFacts ChampionFacts RetrainFacts.

Section Facts.
Context {AR : Artifacts} {TR : Trainer}.

(** What the comparison stage can do. *)
Lemma compare_and_decide_outcome reason drift_score new_version current
    validation_result e :
  (get new_version (models (model_registry e)) = None
   /\ compare_and_decide reason drift_score new_version current
        validation_result e = (Raise AttributeError, e))
  \/ exists new_metadata res e' event,
       get new_version (models (model_registry e)) = Some new_metadata
       /\ compare_and_decide reason drift_score new_version current
            validation_result e = (Ok res, e')
       /\ ev_promoted event
          = Py.ge (accuracy new_metadata - accuracy current)
              (improvement_margin (thresholds e))
       /\ success res = ev_promoted event
       /\ Retrain.promoted res = Some (ev_promoted event)
       /\ Retrain.reason res = None
       /\ Retrain.improvement res
          = Some (accuracy new_metadata - accuracy current)
       /\ ev_improvement event = accuracy new_metadata - accuracy current
       /\ Retrain.new_version event = new_version
       /\ old_version event = version current
       /\ ev_reason event = reason
       /\ ev_drift_score event = drift_score
       /\ result_version res = Some new_version
       /\ retrain_history e' = retrain_history e ++ [event]
       /\ retraining_events_file e' = retraining_events_file e ++ [event]
       /\ config e' = config e /\ thresholds e' = thresholds e
       /\ model_registry e'
          = if ev_promoted event
            then snd (set_champion new_version (model_registry e))
            else model_registry e.
Proof.
  destruct (get new_version (models (model_registry e)))
    as [new_metadata|] eqn:Hget.
  - right. exists new_metadata.
    set (gain := accuracy new_metadata - accuracy current).
    assert (Hstart :
      compare_and_decide reason drift_score new_version current
        validation_result e
      = (let (flag, e1) :=
           (if Py.ge gain (improvement_margin (thresholds e))
            then bind (registry (set_champion new_version))
                   (fun _ => ret true)
            else ret false) (with_registry (model_registry e) e) in
         bind (record_event
                 {| ev_reason := reason; ev_drift_score := drift_score;
                    old_version := version current;
                    Retrain.new_version := new_version;
                    old_accuracy := accuracy current;
                    Retrain.new_accuracy := accuracy new_metadata;
                    ev_improvement := gain; ev_promoted := flag;
                    ev_validation := validation_result |})
           (fun _ =>
              ret (Ok {| success := flag; Retrain.reason := None;
                         samples := None;
                         result_version := Some new_version;
                         Retrain.promoted := Some flag;
                         validation := Some validation_result;
                         result_drift_score := Some drift_score;
                         result_accuracy := Some (accuracy new_metadata);
                         message :=
                           Some (if flag
                                 then "Retraining triggered successfully"
                                 else
                                   "Retraining completed, but model not promoted");
                         Retrain.improvement := Some gain |})) e1)).
    { unfold compare_and_decide, bind at 1.
      rewrite (@registry_run _ (get_model_metadata new_version) e
                 (Some new_metadata) (model_registry e))
        by (unfold get_model_metadata, gets; now rewrite Hget).
      reflexivity. }
    rewrite Hstart. clear Hstart.
    destruct (Py.ge gain (improvement_margin (thresholds e))) eqn:Hge.
    + unfold bind at 1.
      rewrite (@registry_run _ (set_champion new_version)
                 (with_registry (model_registry e) e)
                 (fst (set_champion new_version (model_registry e)))
                 (snd (set_champion new_version (model_registry e))))
        by (simpl; now destruct (set_champion new_version (model_registry e))).
      unfold ret at 1. unfold bind, record_event, modify, ret.
      cbv beta iota.
      eexists. eexists.
      exists {| ev_reason := reason; ev_drift_score := drift_score;
                old_version := version current;
                Retrain.new_version := new_version;
                old_accuracy := accuracy current;
                Retrain.new_accuracy := accuracy new_metadata;
                ev_improvement := gain; ev_promoted := true;
                ev_validation := validation_result |}.
      split; [reflexivity|]. split; [reflexivity|]. simpl.
      repeat split; reflexivity.
    + unfold bind, record_event, modify, ret. cbv beta iota.
      eexists. eexists.
      exists {| ev_reason := reason; ev_drift_score := drift_score;
                old_version := version current;
                Retrain.new_version := new_version;
                old_accuracy := accuracy current;
                Retrain.new_accuracy := accuracy new_metadata;
                ev_improvement := gain; ev_promoted := false;
                ev_validation := validation_result |}.
      split; [reflexivity|]. split; [reflexivity|]. simpl.
      repeat split; reflexivity.
  - left. split; [reflexivity|].
    unfold compare_and_decide, bind at 1.
    rewrite (@registry_run _ (get_model_metadata new_version) e
               None (model_registry e))
      by (unfold get_model_metadata, gets; now rewrite Hget).
    unfold ret. destruct e; reflexivity.
Qed.

Lemma load_version_files v r :
  files (snd (load_version v r)) = files r.
Proof.
  run. destruct (get (model_path v) (files r)) as [content|]; simpl; auto.
  destruct (match get v (models r) with
            | Some metadata =>
                negb (String.eqb (checksum metadata) (sha256_hexdigest content))
            | None => false
            end); simpl; auto.
  destruct (pickle_load content); reflexivity.
Qed.

(** The ways through [trigger_retraining]: too few data; the candidate
    registered and its load raising; the candidate registered and
    loaded, a record found as current champion, and the validation and
    comparison stages run on it. *)
Lemma trigger_retraining_cases drift_score reason now e model metadata :
  let X_train := generate_synthetic_data 500 3 (drift_score / 100) in
  let r1 := snd (register_model model metadata (model_registry e)) in
  candidate (config e) X_train reason drift_score now = (model, metadata) ->
  ((len X_train <? min_training_samples (config e))%nat = true
   /\ trigger_retraining drift_score reason now e
      = (Ok {| success := false;
               Retrain.reason := Some "insufficient_data";
               samples := Some (len X_train);
               result_version := None; Retrain.promoted := None;
               validation := None; result_drift_score := None;
               result_accuracy := None; message := None;
               Retrain.improvement := None |}, e))
  \/ ((len X_train <? min_training_samples (config e))%nat = false
      /\ exists ex r2,
           models r2 = models r1 /\ files r2 = files r1
           /\ trigger_retraining drift_score reason now e
              = (Raise ex, with_registry r2 e))
  \/ ((len X_train <? min_training_samples (config e))%nat = false
      /\ exists new_model r2 current,
           load_model (Some (version metadata)) r1 = (Ok new_model, r2)
           /\ models r2 = models r1 /\ files r2 = files r1
           /\ get_champion_model r2 = (Some current, r2)
           /\ trigger_retraining drift_score reason now e
              = match validate_model new_model
                        (generate_synthetic_data 200 3 0)
                        ["feature_0"; "feature_1"; "feature_2"] with
                | Raise ex => (Raise ex, with_registry r2 e)
                | Ok validation_result =>
                    if negb (passed validation_result) then
                      (Ok {| success := false;
                             Retrain.reason := Some "validation_failed";
                             samples := None;
                             result_version := Some (version metadata);
                             Retrain.promoted := Some false;
                             validation := Some validation_result;
                             result_drift_score := None;
                             result_accuracy := None; message := None;
                             Retrain.improvement := None |},
                       with_registry r2 e)
                    else
                      compare_and_decide reason drift_score
                        (version metadata) current validation_result
                        (with_registry r2 e)
                end).
Proof.
  intros X_train r1 Ec.
  destruct (len X_train <? min_training_samples (config e))%nat eqn:Hlen.
  { left. split; [reflexivity|].
    unfold trigger_retraining, bind, gets, ret. cbv beta iota zeta.
    fold X_train. rewrite Hlen. reflexivity. }
  right.
  destruct (load_model (Some (version metadata)) r1) as [loaded r2] eqn:El.
  assert (Hr2 : r2 = snd (load_version (version metadata) r1)).
  { simpl in El. now rewrite El. }
  assert (Hmod : models r2 = models r1).
  { rewrite Hr2. apply load_version_models. }
  assert (Hfiles : files r2 = files r1).
  { rewrite Hr2. apply load_version_files. }
  clear Hr2.
  destruct loaded as [new_model|ex].
  - right. split; [reflexivity|].
    assert (Hm : models r2 <> []).
    { rewrite Hmod. unfold r1. simpl. apply set_nonempty. }
    destruct (@get_champion_model_some r2 Hm) as [current Hg].
    exists new_model, r2, current.
    split; [reflexivity|]. split; [exact Hmod|]. split; [exact Hfiles|].
    split; [exact Hg|].
    apply (@trigger_retraining_steps _ _ drift_score reason now e model
             metadata new_model r2 current Hlen Ec El).
    now rewrite Hg.
  - left. split; [reflexivity|]. exists ex, r2.
    split; [exact Hmod|]. split; [exact Hfiles|].
    unfold trigger_retraining, bind at 1, gets at 1. cbv beta iota zeta.
    fold X_train. rewrite Hlen.
    unfold bind at 1. unfold _train_and_register, bind at 1, gets at 1.
    cbv beta iota zeta. fold X_train. rewrite Ec.
    unfold bind at 1.
    rewrite (@registry_run _ (register_model model metadata) e
               (version metadata) r1) by reflexivity.
    unfold ret at 1. cbv beta iota. unfold bind at 1.
    rewrite (@registry_run _ (load_model (Some (version metadata)))
               (with_registry r1 e) (Raise ex) r2) by exact El.
    cbv beta iota. unfold ret. reflexivity.
Qed.

(** X22.  In every result that [trigger_retraining] returns, [success]
    is [True] exactly when [promoted] is [True]: a retrain that ran to
    the end but kept the champion reports [success = False]. *)
Theorem success_iff_promoted :
  forall (drift_score : Q) (reason : string) (now : Clock)
         (e e' : RetrainEngine) (res : RetrainResult),
    trigger_retraining drift_score reason now e = (Ok res, e') ->
    (success res = true <-> Retrain.promoted res = Some true).
Proof.
  intros drift_score reason now e e' res Hrun.
  destruct (candidate (config e)
              (generate_synthetic_data 500 3 (drift_score / 100))
              reason drift_score now) as [model metadata] eqn:Ec.
  destruct (@trigger_retraining_cases drift_score reason now e model
              metadata Ec)
    as [(_ & H0)
       |[(_ & ex & r2 & _ & _ & H0)
        |(_ & new_model & r2 & current & _ & _ & _ & _ & H0)]];
    rewrite H0 in Hrun.
  - injection Hrun as <- _. simpl. split; discriminate.
  - discriminate.
  - destruct (validate_model new_model _ _) as [vr|]; [|discriminate].
    destruct (negb (passed vr)).
    + injection Hrun as <- _. simpl. split; discriminate.
    + destruct (compare_and_decide_outcome reason drift_score
                  (version metadata) current vr (with_registry r2 e))
        as [[_ H1]|(nm & res1 & e1 & ev & _ & H1 & _ & Hs & Hp & _)];
        rewrite H1 in Hrun; [discriminate|].
      injection Hrun as <- _. rewrite Hs, Hp.
      split; [intros ->; reflexivity|intros [= ->]; reflexivity].
Qed.


(** [_train_and_register], run: the candidate goes to the registry and
    its version comes back. *)
Lemma train_and_register_run X reason drift_score now e model metadata :
  candidate (config e) X reason drift_score now = (model, metadata) ->
  _train_and_register X reason drift_score now e
  = (version metadata,
     with_registry (snd (register_model model metadata (model_registry e)))
       e).
Proof.
  intros Ec. unfold _train_and_register, bind at 1, gets at 1.
  cbv beta iota zeta. rewrite Ec. unfold bind at 1.
  rewrite (@registry_run _ (register_model model metadata) e
             (version metadata)
             (snd (register_model model metadata (model_registry e))))
    by reflexivity.
  reflexivity.
Qed.

Lemma files_set_champion v r : files (snd (set_champion v r)) = files r.
Proof. run. destruct (contains v (models r)); reflexivity. Qed.

(** The first flagged record is in the table under its key. *)
Lemma flagged_entry_get d k current :
  wf d -> flagged_entry d = Some (k, current) -> get k d = Some current.
Proof.
  intros Hwf Hf. apply In_get; [exact Hwf|].
  unfold flagged_entry in Hf. now destruct (find_some _ _ Hf).
Qed.

(** [trigger_retraining] on a registry with a flagged champion, up to
    the validation of a candidate that loads. *)
Lemma trigger_retraining_with_champion drift_score reason now e model
    new_model metadata current k :
  let X_train := generate_synthetic_data 500 3 (drift_score / 100) in
  let stored :=
    with_checksum (sha256_hexdigest (pickle_dump model)) metadata in
  let r2 :=
    snd (log (info_model_loaded (version metadata))
           (snd (register_model model metadata (model_registry e)))) in
  (min_training_samples (config e) <= len X_train)%nat ->
  candidate (config e) X_train reason drift_score now = (model, metadata) ->
  flagged_entry (models (model_registry e)) = Some (k, current) ->
  k <> version metadata ->
  pickle_load (pickle_dump model) = Ok new_model ->
  models r2 = set (version metadata) stored (models (model_registry e))
  /\ files r2
     = set (model_path (version metadata)) (pickle_dump model)
         (files (model_registry e))
  /\ flagged_entry (models r2) = Some (k, current)
  /\ get_champion_model r2 = (Some current, r2)
  /\ trigger_retraining drift_score reason now e
     = match validate_model (Some new_model)
               (generate_synthetic_data 200 3 0)
               ["feature_0"; "feature_1"; "feature_2"] with
       | Raise ex => (Raise ex, with_registry r2 e)
       | Ok validation_result =>
           if negb (passed validation_result) then
             (Ok {| success := false;
                    Retrain.reason := Some "validation_failed";
                    samples := None;
                    result_version := Some (version metadata);
                    Retrain.promoted := Some false;
                    validation := Some validation_result;
                    result_drift_score := None;
                    result_accuracy := None; message := None;
                    Retrain.improvement := None |},
              with_registry r2 e)
           else
             compare_and_decide reason drift_score (version metadata)
               current validation_result (with_registry r2 e)
       end.
Proof.
  intros X_train stored r2 Hlen Hc Hchamp Hother Hpickle.
  apply Nat.ltb_ge in Hlen.
  destruct (candidate_unflagged _ _ _ _ _ Hc) as [Hflag _].
  set (v := version metadata) in *.
  set (r1 := snd (register_model model metadata (model_registry e))).
  assert (Hm1 : models r1 = set v stored (models (model_registry e))).
  { unfold r1. now rewrite models_register. }
  assert (Hload : load_model (Some v) r1 = (Ok (Some new_model), r2)).
  { simpl. rewrite (@load_version_registered _ r1 v stored (pickle_dump model)).
    - unfold stored at 1. simpl. rewrite String.eqb_refl, Hpickle.
      reflexivity.
    - rewrite Hm1. apply get_set_same.
    - unfold r1. simpl. apply get_set_same. }
  assert (Hentry : flagged_entry (models r2) = Some (k, current)).
  { replace (models r2) with (models r1) by reflexivity.
    rewrite Hm1. now apply flagged_entry_set_other. }
  assert (Hg : get_champion_model r2 = (Some current, r2)).
  { apply get_champion_model_flagged.
    now rewrite find_flagged_entry, Hentry. }
  split; [exact Hm1|]. split; [reflexivity|].
  split; [exact Hentry|]. split; [exact Hg|].
  apply (@trigger_retraining_steps _ _ drift_score reason now e model
           metadata (Some new_model) r2 current Hlen Hc Hload).
  now rewrite Hg.
Qed.


(** X25.  With a flagged champion in the registry and a candidate under
    another version that loads but fails validation,
    [trigger_retraining] answers [validation_failed] without success or
    promotion; the champion is the same record as before, the rejected
    candidate stays registered with its file, and no event is
    recorded. *)
Theorem validation_failure_keeps_champion :
  forall (e : RetrainEngine) (drift_score : Q) (reason : string)
         (now : Clock) (model new_model : Model)
         (metadata current : ModelMetadata) (k : string)
         (validation_result : ValidationResult),
    let X_train := generate_synthetic_data 500 3 (drift_score / 100) in
    let stored :=
      with_checksum (sha256_hexdigest (pickle_dump model)) metadata in
    (min_training_samples (config e) <= len X_train)%nat ->
    candidate (config e) X_train reason drift_score now = (model, metadata) ->
    flagged_entry (models (model_registry e)) = Some (k, current) ->
    k <> version metadata ->
    pickle_load (pickle_dump model) = Ok new_model ->
    validate_model (Some new_model) (generate_synthetic_data 200 3 0)
      ["feature_0"; "feature_1"; "feature_2"] = Ok validation_result ->
    passed validation_result = false ->
    exists res e',
      trigger_retraining drift_score reason now e = (Ok res, e')
      /\ success res = false
      /\ Retrain.promoted res = Some false
      /\ Retrain.reason res = Some "validation_failed"
      /\ validation res = Some validation_result
      /\ fst (get_champion_model (model_registry e')) = Some current
      /\ flagged_entry (models (model_registry e')) = Some (k, current)
      /\ get (version metadata) (models (model_registry e')) = Some stored
      /\ get (model_path (version metadata)) (files (model_registry e'))
         = Some (pickle_dump model)
      /\ retrain_history e' = retrain_history e
      /\ retraining_events_file e' = retraining_events_file e.
Proof.
  intros e drift_score reason now model new_model metadata current k
    validation_result X_train stored Hlen Hc Hchamp Hother Hpickle
    Hval Hpass.
  destruct (@trigger_retraining_with_champion drift_score reason now e
              model new_model metadata current k Hlen Hc Hchamp Hother
              Hpickle)
    as (Hm2 & Hf2 & Hentry & Hg & Hrun).
  set (r2 := snd (log (info_model_loaded (version metadata))
                    (snd (register_model model metadata
                            (model_registry e))))) in *.
  rewrite Hrun, Hval, Hpass. cbv beta iota. simpl negb. cbv iota.
  eexists. exists (with_registry r2 e). split; [reflexivity|].
  change (model_registry (with_registry r2 e)) with r2.
  split; [reflexivity|]. split; [reflexivity|]. split; [reflexivity|].
  split; [reflexivity|].
  split; [now rewrite Hg|]. split; [exact Hentry|].
  split; [rewrite Hm2; apply get_set_same|].
  split; [rewrite Hf2; apply get_set_same|].
  split; reflexivity.
Qed.

(** X26.  [train_initial_model] on a well-formed table returns the
    time-derived version; afterwards the champion lookup answers with
    the new record, flagged, it is the only flagged record, loading
    without a version gives the model that was trained (when its pickle
    reads back), and the retraining history is as before. *)
Theorem train_initial_model_crowns :
  forall (now : Clock) (e : RetrainEngine) (model new_model : Model)
         (metadata : ModelMetadata),
    let stored :=
      with_checksum (sha256_hexdigest (pickle_dump model)) metadata in
    let e' := snd (train_initial_model now e) in
    wf (models (model_registry e)) ->
    candidate (config e) (generate_synthetic_data 1000 3 0)
      "initial_training" 0 now = (model, metadata) ->
    pickle_load (pickle_dump model) = Ok new_model ->
    fst (train_initial_model now e) = ("v" ++ strftime now)%string
    /\ fst (get_champion_model (model_registry e'))
       = Some (with_champion true stored)
    /\ champions (model_registry e') = 1%nat
    /\ fst (load_model None (model_registry e')) = Ok (Some new_model)
    /\ retrain_history e' = retrain_history e.
Proof.
  intros now e model new_model metadata stored e' Hwf Hc Hpickle.
  destruct (candidate_unflagged _ _ _ _ _ Hc) as [_ Hv].
  set (v := version metadata) in *.
  set (r1 := snd (register_model model metadata (model_registry e))).
  assert (Hrun : train_initial_model now e
                 = (v, with_registry (snd (set_champion v r1)) e)).
  { unfold train_initial_model. cbv zeta. unfold bind at 1.
    rewrite (@train_and_register_run _ _ _ _ _ _ _ Hc). fold v r1.
    unfold bind at 1.
    rewrite (@registry_run _ (set_champion v) (with_registry r1 e)
               (fst (set_champion v r1)) (snd (set_champion v r1)))
      by (simpl; now destruct (set_champion v r1)).
    reflexivity. }
  assert (He' : e' = with_registry (snd (set_champion v r1)) e).
  { unfold e'. now rewrite Hrun. }
  set (r' := snd (set_champion v r1)) in *.
  assert (Hm1 : models r1 = set v stored (models (model_registry e))).
  { unfold r1. now rewrite models_register. }
  assert (Hgetv : get v (models r1) = Some stored).
  { rewrite Hm1. apply get_set_same. }
  assert (Hwf1 : wf (models r1)).
  { rewrite Hm1. now apply wf_set. }
  assert (Hcont : contains v (models r1) = true).
  { unfold contains. now rewrite Hgetv. }
  assert (Hlook : fst (get_champion_model r')
                  = Some (with_champion true stored)).
  { now apply RegistryMore.crowned_lookup. }
  rewrite Hrun, He'. simpl fst. simpl model_registry.
  simpl retrain_history.
  split; [exact Hv|]. split; [exact Hlook|].
  split.
  { unfold champions, r'. rewrite models_set_champion, Hcont.
    apply flagged_crown; [exact Hwf1|]. now apply contains_true_iff. }
  split; [|reflexivity].
  assert (Hg : get_champion_model r'
               = (Some (with_champion true stored), r')).
  { pose proof (get_champion_model_pure r') as Hp.
    destruct (get_champion_model r') as [found r'']. simpl in *.
    congruence. }
  unfold load_model. unfold bind at 1. rewrite Hg. cbv beta iota.
  change (version (with_champion true stored)) with v.
  rewrite (@load_version_registered _ r' v (with_champion true stored)
             (pickle_dump model)).
  - simpl checksum. rewrite String.eqb_refl, Hpickle. reflexivity.
  - unfold r'. rewrite models_set_champion, Hcont.
    rewrite get_update_same, clear_champions_map by exact Hwf1.
    rewrite RegistryMore.get_map_values, Hgetv. reflexivity.
  - unfold r'. rewrite files_set_champion. unfold r1. simpl.
    apply get_set_same.
Qed.

(** X27.  A result says [insufficient_data] exactly when the training
    window is shorter than [min_training_samples]; the call then leaves
    the engine and its registry as they were, and names no version. *)
Theorem insufficient_data_iff :
  forall (drift_score : Q) (reason : string) (now : Clock)
         (e e' : RetrainEngine) (res : RetrainResult),
    let X_train := generate_synthetic_data 500 3 (drift_score / 100) in
    trigger_retraining drift_score reason now e = (Ok res, e') ->
    (Retrain.reason res = Some "insufficient_data"
     <-> (len X_train < min_training_samples (config e))%nat)
    /\ ((len X_train < min_training_samples (config e))%nat ->
        e' = e /\ success res = false
        /\ samples res = Some (len X_train)
        /\ result_version res = None).
Proof.
  intros drift_score reason now e e' res X_train Hrun.
  destruct (candidate (config e) X_train reason drift_score now)
    as [model metadata] eqn:Ec.
  destruct (@trigger_retraining_cases drift_score reason now e model
              metadata Ec)
    as [(Hlen & H0)
       |[(Hlen & ex & r2 & _ & _ & H0)
        |(Hlen & new_model & r2 & current & _ & _ & _ & _ & H0)]];
    fold X_train in Hlen; rewrite H0 in Hrun.
  - apply Nat.ltb_lt in Hlen. injection Hrun as <- <-. simpl.
    split; [tauto|]. intros _. auto.
  - discriminate.
  - apply Nat.ltb_ge in Hlen.
    assert (Hr : Retrain.reason res <> Some "insufficient_data").
    { destruct (validate_model new_model _ _) as [vr|]; [|discriminate].
      destruct (negb (passed vr)).
      - injection Hrun as <- _. simpl. discriminate.
      - apply compare_and_decide_reason in Hrun. rewrite Hrun.
        discriminate. }
    split; [split; [tauto|lia]|lia].
Qed.


End Facts.

(** A champion ["v1"] at 70% and a candidate at 81%: the result reports
    success and promotion together. *)
Lemma success_iff_promoted_witness :
  exists res e',
    trigger_retraining (TR := Examples.steady_trainer) 80
      "drift_detected" Examples.clock_0301 Cases.engine_champion_70
    = (Ok res, e')
    /\ (success res = true <-> Retrain.promoted res = Some true).
Proof.
  eexists. eexists. split; [vm_compute; reflexivity|].
  refine (@success_iff_promoted Examples.plain_artifacts
            Examples.steady_trainer 80 "drift_detected"
            Examples.clock_0301 Cases.engine_champion_70 _ _ _).
  vm_compute. reflexivity.
Defined.



(** A champion ["v1"] at 80% and a candidate that the validator turns
    down: ["v1"] stays champion and the candidate stays registered. *)
Lemma validation_failure_keeps_champion_witness :
  exists res e',
    trigger_retraining (TR := Cases.strict_trainer) 80
      "drift_detected" Examples.clock_0301 Examples.engine_champion_80
    = (Ok res, e')
    /\ success res = false
    /\ Retrain.reason res = Some "validation_failed"
    /\ option_map fst (flagged_entry (models (model_registry e')))
       = Some "v1"
    /\ contains "v20240301_120000" (models (model_registry e')) = true
    /\ retrain_history e' = retrain_history Examples.engine_champion_80.
Proof.
  destruct (@validation_failure_keeps_champion Examples.plain_artifacts
              Cases.strict_trainer Examples.engine_champion_80 80
              "drift_detected" Examples.clock_0301
              Examples.artifact_b Examples.artifact_b
              (snd (candidate (TR := Cases.strict_trainer)
                      (config Examples.engine_champion_80) 500%nat
                      "drift_detected" 80 Examples.clock_0301))
              (with_champion true
                 (with_checksum "a"
                    (Examples.metadata_of "v1" "2024-01-01T00:00:00"
                       (80 # 100) false)))
              "v1"
              {| passed := false; failures := ["performance"] |})
    as (res & e' & Hrun & Hs & _ & Hr & _ & _ & Hentry & Hget & _ & Hh & _);
    try reflexivity.
  - vm_compute. lia.
  - vm_compute. discriminate.
  - exists res, e'. split; [exact Hrun|]. split; [exact Hs|].
    split; [exact Hr|]. rewrite Hentry. split; [reflexivity|].
    split; [|exact Hh].
    unfold contains.
    change "v20240301_120000"
      with (version (snd (candidate (TR := Cases.strict_trainer)
                            (config Examples.engine_champion_80) 500%nat
                            "drift_detected" 80 Examples.clock_0301))).
    now rewrite Hget.
Defined.

(** The initial training on an empty registry. *)
Lemma train_initial_model_crowns_witness :
  fst (train_initial_model (TR := Examples.steady_trainer)
         Examples.clock_0301 Examples.fresh_engine)
  = "v20240301_120000"
  /\ champions (model_registry Examples.engine_initial_model) = 1%nat
  /\ fst (load_model (AR := Examples.plain_artifacts) None
            (model_registry Examples.engine_initial_model))
     = Ok (Some Examples.artifact_b).
Proof.
  destruct (@train_initial_model_crowns Examples.plain_artifacts
              Examples.steady_trainer Examples.clock_0301
              Examples.fresh_engine Examples.artifact_b
              Examples.artifact_b
              (snd (candidate (TR := Examples.steady_trainer)
                      (config Examples.fresh_engine) 1000%nat
                      "initial_training" 0 Examples.clock_0301)))
    as (Hv & _ & Hone & Hload & _); try reflexivity.
  - constructor.
  - split; [exact Hv|]. split; [exact Hone|exact Hload].
Defined.

(** An engine that wants 1000 samples gets 500: nothing is trained. *)
Lemma insufficient_data_iff_witness :
  exists res,
    trigger_retraining (TR := Examples.steady_trainer) 80
      "drift_detected" Examples.clock_0301 Cases.engine_wants_1000
    = (Ok res, Cases.engine_wants_1000)
    /\ Retrain.reason res = Some "insufficient_data"
    /\ samples res = Some 500%nat.
Proof.
  eexists. split; [vm_compute; reflexivity|].
  destruct (@insufficient_data_iff Examples.plain_artifacts
              Examples.steady_trainer 80 "drift_detected"
              Examples.clock_0301 Cases.engine_wants_1000
              Cases.engine_wants_1000 _ eq_refl)
    as [Hiff Hrest].
  assert (Hshort : (500 < 1000)%nat) by lia.
  split; [apply Hiff; exact Hshort|].
  now destruct (Hrest Hshort) as (_ & _ & Hsamples & _).
Defined.


End RetrainMore.

(* ------------------------------------------------------------------ *)
(** ** The validator *)

Module ValidatorFacts.
Import Validator.

Lemma lt_fold_min t xs x :
  t < fold_left Py.min xs x <-> t < x /\ Forall (fun y => t < y) xs.
Proof.
  revert x. induction xs as [|a xs IH]; intros x; simpl.
  - split; [intros H; split; [exact H|constructor]|tauto].
  - rewrite IH. unfold Py.min.
    destruct (Py.lt a x) eqn:E.
    + apply DriftFacts.lt_true_iff in E. split.
      * intros [Ha Hxs]. split; [now apply Qlt_trans with a|].
        now constructor.
      * intros [_ Hall]. inversion Hall; subst. tauto.
    + apply DriftFacts.lt_false_iff in E. split.
      * intros [Hx Hxs]. split; [exact Hx|]. constructor; [|exact Hxs].
        now apply Qlt_le_trans with x.
      * intros [Hx Hall]. inversion Hall; subst. tauto.
Qed.

(** A share of [n] in [len] is above [1/k] when [k * n] is above
    [len]. *)
Lemma share_above (k : positive) (n len : nat) :
  (0 < len)%nat ->
  (1 # k) < of_nat n / of_nat len <-> (Pos.to_nat k * n > len)%nat.
Proof.
  intros Hlen.
  assert (Hpos : 0 < of_nat len).
  { unfold of_nat, Qlt. simpl. lia. }
  assert (Hcross : (1 # k) * of_nat len < of_nat n
                   <-> (Pos.to_nat k * n > len)%nat).
  { unfold of_nat, Qlt, Qmult, inject_Z. cbn [Qnum Qden].
    rewrite Pos.mul_1_r. lia. }
  rewrite <- Hcross. split.
  - intros H. apply (Qmult_lt_compat_r _ _ (of_nat len)) in H; [|exact Hpos].
    setoid_replace (of_nat n / of_nat len * of_nat len) with (of_nat n)
      in H; [exact H|].
    field. intros Hz. rewrite Hz in Hpos. now apply (Qlt_irrefl 0).
  - intros H. now apply Qlt_shift_div_l.
Qed.

Lemma top_label_nonneg y : (0 <= top_label y)%Z.
Proof. unfold top_label. induction y; simpl; lia. Qed.

Lemma note_passed b name results :
  passed (note b name results) = b && passed results.
Proof. unfold note. destruct b; reflexivity. Qed.

Lemma note_failures b name results :
  failures (note b name results)
  = failures results ++ (if b then [] else [name]).
Proof. unfold note. destruct b; simpl; [now rewrite app_nil_r|reflexivity]. Qed.

Section Facts.
Context {AR : Artifacts} {SC : Scoring}.

(** The fairness check passes on balanced predictions only. *)
Lemma check_fairness_balanced y_pred check :
  _check_fairness y_pred = Ok check ->
  (fc_passed check = true <-> balanced y_pred).
Proof.
  unfold _check_fairness, bincount.
  destruct (existsb (fun c => (c <? 0)%Z) y_pred); [discriminate|].
  cbn [rbind].
  destruct y_pred as [|y0 ys] eqn:Ey; [discriminate|].
  rewrite <- Ey.
  set (top := top_label y_pred).
  set (len := List.length y_pred).
  assert (Hlen : (0 < len)%nat) by (unfold len; rewrite Ey; simpl; lia).
  assert (Htop : (0 <= top)%Z) by apply top_label_nonneg.
  rewrite List.map_map. cbn [seq List.map np_min rbind].
  intros [= <-]. cbn [fc_passed].
  rewrite length_map, length_seq.
  set (share := fun c : nat =>
         of_nat (count_occ Z.eq_dec y_pred (Z.of_nat c)) / of_nat len).
  set (m := fold_left Py.min _ _).
  assert (Hall : forall k : positive,
            (1 # k) < m
            <-> forall c : Z, (0 <= c <= top)%Z ->
                  (Pos.to_nat k * count_occ Z.eq_dec y_pred c > len)%nat).
  { intros k. unfold m. rewrite lt_fold_min, Forall_forall. split.
    - intros [H0 Hrest] c Hc.
      destruct (Z.eq_dec c 0) as [->|Hne].
      + apply (share_above k _ Hlen) in H0. exact H0.
      + assert (Hin : In (share (Z.to_nat c))
                        (List.map share (seq 1 (Z.to_nat top)))).
        { apply in_map, in_seq. lia. }
        apply Hrest in Hin. unfold share in Hin.
        apply (share_above k _ Hlen) in Hin.
        now rewrite Z2Nat.id in Hin by lia.
    - intros H. split.
      + apply (share_above k _ Hlen). apply (H 0%Z). lia.
      + intros x Hx. apply in_map_iff in Hx.
        destruct Hx as (c & <- & Hc). apply in_seq in Hc.
        apply (share_above k _ Hlen). apply H. lia. }
  assert (H10 : Py.lt (10 # 100) m = true <-> (1 # 10) < m).
  { rewrite DriftFacts.lt_true_iff.
    now setoid_replace (10 # 100) with (1 # 10) by reflexivity. }
  assert (H20 : Py.lt (5 # 100) m = true <-> (1 # 20) < m).
  { rewrite DriftFacts.lt_true_iff.
    now setoid_replace (5 # 100) with (1 # 20) by reflexivity. }
  unfold balanced. fold top len.
  rewrite orb_true_iff, andb_true_iff, H10, H20, Nat.eqb_eq.
  destruct (top =? 1)%Z eqn:Et.
  - apply Z.eqb_eq in Et. rewrite <- (Hall 20%positive). split.
    + intros [H|[_ H]]; [|exact H].
      apply Qlt_trans with (1 # 10); [reflexivity|exact H].
    + intros H. right. split; [rewrite Et; reflexivity|exact H].
  - apply Z.eqb_neq in Et. rewrite <- (Hall 10%positive). split.
    + intros [H|[Hlen2 _]]; [exact H|]. exfalso. apply Et. lia.
    + intros H. now left.
Qed.

(** X30.  When [validate_model] returns, [passed] is [True] exactly when
    no failure is listed; the failures are the names of the checks that
    did not pass, in the order performance, explainability, fairness,
    stability; and the fairness check passes exactly when every class
    from 0 to the largest predicted label takes more than 10% of the
    predictions (5% when the labels are 0 and 1 only). *)
Theorem validate_model_verdict :
  forall (self : ModelValidator) (model : Model) (X_val : Features)
         (y_val : list Z) (feature_names : option (list string))
         (res : Results),
    validate_model self (Some model) X_val y_val feature_names = Ok res ->
    (passed (verdict res) = true <-> failures (verdict res) = [])
    /\ failures (verdict res)
       = (if pc_passed (performance (checks res)) then []
          else ["performance"])
         ++ (if ec_passed (explainability (checks res)) then []
             else ["explainability"])
         ++ (if fc_passed (fairness (checks res)) then []
             else ["fairness"])
         ++ (if sc_passed (stability (checks res)) then []
             else ["stability"])
    /\ (fc_passed (fairness (checks res)) = true
        <-> balanced (predict model X_val)).
Proof.
  intros self model X_val y_val feature_names res.
  unfold validate_model. cbv zeta.
  destruct (_check_performance self y_val (predict model X_val))
    as [pc|]; [|discriminate].
  cbn [rbind].
  destruct (_check_explainability self model X_val feature_names)
    as [ec|]; [|discriminate].
  cbn [rbind].
  destruct (_check_fairness (predict model X_val)) as [fc|] eqn:Ef;
    [|discriminate].
  cbn [rbind]. generalize (_check_stability model X_val) as sc.
  intros sc [= <-]. cbn [verdict checks performance
    explainability fairness stability].
  rewrite !note_passed, !note_failures. cbn [passed failures app].
  split; [|split; [now rewrite <- !app_assoc
                  |now apply check_fairness_balanced]].
  destruct (pc_passed pc), (ec_passed ec), (fc_passed fc),
    (sc_passed sc); simpl;
    split; intros H; try reflexivity; discriminate.
Qed.

End Facts.

(** Labels 0 and 1 in equal numbers pass every check of the echo
    model. *)
Lemma validate_model_verdict_witness :
  exists res,
    validate_model (SC := Cases.echo_scoring) init
      (Some Examples.artifact_a) [0; 1; 0; 1]%Z [0; 1; 0; 1]%Z None
    = Ok res
    /\ passed (verdict res) = true
    /\ failures (verdict res) = []
    /\ balanced [0; 1; 0; 1]%Z.
Proof.
  eexists. split; [vm_compute; reflexivity|].
  destruct (@validate_model_verdict Examples.plain_artifacts
              Cases.echo_scoring init Examples.artifact_a
              [0; 1; 0; 1]%Z [0; 1; 0; 1]%Z None _ eq_refl)
    as (Hiff & Hfail & Hfair).
  split; [reflexivity|]. split; [reflexivity|].
  apply Hfair. reflexivity.
Defined.

(** A model that always answers 1 leaves the bin of class 0 empty and
    fails the fairness check; one that always answers 0 passes it. *)
Example constant_predictions_fairness :
  rmap fc_passed (_check_fairness [1; 1; 1; 1]%Z) = Ok false
  /\ rmap fc_passed (_check_fairness [0; 0; 0; 0]%Z) = Ok true.
Proof. split; vm_compute; reflexivity. Qed.

End ValidatorFacts.
